(** * Validate and transform stages of the rental-listings warehouse pipeline

    A shallow embedding of [src/pipeline/validate.py] and
    [src/pipeline/transform.py].  The two stages are written against a small
    model of the tabular library they use: a data frame is an ordered list
    of column labels together with rows, every row a finite map from column
    label to cell.  Exceptions are values of an error monad.

    Numbers are exact rationals: binary rounding of float64 is abstracted
    away.  Every comparison the pipeline makes is against a bound that is
    exactly representable, and rounding is monotone, so the outcome of the
    comparisons is the one the floats give. *)

From Stdlib Require Import Ascii String QArith Qround Qabs Lqa.
From Stdlib Require Import Sorted Permutation.
From stdpp Require Import pretty.
From stdpp Require Import gmap strings list fin_maps sorting.

Local Open Scope string_scope.
Local Open Scope Z_scope.
Local Open Scope list_scope.

(** ** Cells *)

(** A scalar stored in a frame.  [NA] stands for every missing marker
    (NaN, None, NaT); [Ts] is a timestamp in nanoseconds since the epoch, as
    datetime64[ns] stores it. *)
Inductive cell : Type :=
  | NA
  | Num (q : Q)
  | Str (s : string)
  | Ts (ns : Z)
  | Bool (b : bool).

Global Instance cell_inhabited : Inhabited cell := populate NA.

Definition Int (z : Z) : cell := Num (inject_Z z).

(** Equality as the hashing routines behind [duplicated], [drop_duplicates],
    [isin] and the join keys of [merge] see it: numbers compare by value and
    a missing value equals a missing value. *)
Definition cell_eqb (a b : cell) : bool :=
  match a, b with
  | NA, NA => true
  | Num p, Num q => Qeq_bool p q
  | Str s, Str t => String.eqb s t
  | Ts m, Ts n => Z.eqb m n
  | Bool x, Bool y => Bool.eqb x y
  | _, _ => false
  end.

Fixpoint key_eqb (k1 k2 : list cell) : bool :=
  match k1, k2 with
  | [], [] => true
  | a :: k1', b :: k2' => cell_eqb a b && key_eqb k1' k2'
  | _, _ => false
  end.

Definition is_na (c : cell) : bool :=
  match c with NA => true | _ => false end.

(** Ascending order of [sort_values], missing values last. *)
Definition cell_leb (a b : cell) : bool :=
  match a, b with
  | _, NA => true
  | NA, _ => false
  | Num p, Num q => Qle_bool p q
  | Ts m, Ts n => Z.leb m n
  | Str s, Str t => String.leb s t
  | Bool x, Bool y => implb x y
  | Num _, _ => true
  | _, Num _ => false
  | Ts _, _ => true
  | _, Ts _ => false
  | Str _, _ => true
  | _, Str _ => false
  end.

(** ** Exceptions *)

Inductive exn : Type :=
  | KeyError (labels : list string)
  | ValueError (text : string).

Inductive result (A : Type) : Type :=
  | Ok (a : A)
  | Raise (e : exn).
Arguments Ok {A} a.
Arguments Raise {A} e.

Global Instance result_ret : MRet result := λ A a, Ok a.
Global Instance result_bind : MBind result := λ A B f m,
  match m with
  | Ok a => f a
  | Raise e => Raise e
  end.

Fixpoint mapR {A B} (f : A → result B) (l : list A) : result (list B) :=
  match l with
  | [] => Ok []
  | x :: l' => y ← f x; ys ← mapR f l'; Ok (y :: ys)
  end.

(** ** Data frames *)

Record DataFrame : Type := mkDataFrame {
  columns : list string;
  rows : list (gmap string cell)
}.

Definition cell_at (c : string) (r : gmap string cell) : cell :=
  default NA (r !! c).

(** The row restricted to the labels [cols]. *)
Definition project (cols : list string) (r : gmap string cell)
  : gmap string cell :=
  list_to_map ((λ c, (c, cell_at c r)) <$> cols).

(** [c in labels]. *)
Definition label_in (c : string) (labels : list string) : bool :=
  existsb (String.eqb c) labels.

(** The labels of [cols] that are not columns of [df]. *)
Definition missing_labels (cols : list string) (df : DataFrame) : list string :=
  List.filter (λ c, negb (label_in c (columns df))) cols.

(** The columns after an assignment to [c]: a new label goes last. *)
Definition with_label (c : string) (labels : list string) : list string :=
  if label_in c labels then labels else labels ++ [c].

(** [df[cols]]: a KeyError names the labels that are not columns. *)
Definition getitem_cols (cols : list string) (df : DataFrame)
  : result DataFrame :=
  match missing_labels cols df with
  | [] => Ok (mkDataFrame cols (project cols <$> rows df))
  | m => Raise (KeyError m)
  end.

(** [df[c]]: one column as a series. *)
Definition getitem (c : string) (df : DataFrame) : result (list cell) :=
  if label_in c (columns df) then Ok (cell_at c <$> rows df)
  else Raise (KeyError [c]).

(** [df[c] = series]: overwrite the column, or append it when it is new.
    Values that do not line up with the rows are refused. *)
Definition setitem (c : string) (s : list cell) (df : DataFrame)
  : result DataFrame :=
  if Nat.eqb (length s) (length (rows df)) then
    Ok (mkDataFrame (with_label c (columns df))
          (zip_with (λ r v, <[c := v]> r) (rows df) s))
  else Raise (ValueError "Length of values does not match length of index").

(** [df[c] = scalar]. *)
Definition setitem_scalar (c : string) (v : cell) (df : DataFrame) : DataFrame :=
  mkDataFrame (with_label c (columns df))
    ((λ r, <[c := v]> r) <$> rows df).

(** [df[mask]] for a boolean series, which must line up with the rows. *)
Definition getitem_mask (mask : list bool) (df : DataFrame)
  : result DataFrame :=
  if Nat.eqb (length mask) (length (rows df)) then
    Ok (mkDataFrame (columns df)
          (fst <$> List.filter snd (zip (rows df) mask)))
  else Raise (ValueError "Item wrong length").

(** [df.rename(columns={old: new})]; a label that is not there is ignored. *)
Definition rename_row (old new : string) (r : gmap string cell)
  : gmap string cell :=
  <[new := cell_at old r]> (delete old r).

Definition rename (old new : string) (df : DataFrame) : DataFrame :=
  if label_in old (columns df) then
    mkDataFrame ((λ c, if String.eqb c old then new else c) <$> columns df)
                (rename_row old new <$> rows df)
  else df.

(** Series predicates and mask arithmetic. *)
Definition isna (s : list cell) : list bool := is_na <$> s.
Definition mask_not (m : list bool) : list bool := negb <$> m.
Definition mask_or (m1 m2 : list bool) : list bool := zip_with orb m1 m2.
Definition mask_sum (m : list bool) : nat := length (List.filter id m).

(** [s.between(lo, hi)]: both ends inclusive, false on a missing value. *)
Definition between_cell (lo hi : Q) (c : cell) : bool :=
  match c with
  | Num q => Qle_bool lo q && Qle_bool q hi
  | _ => false
  end.
Definition between (lo hi : Q) (s : list cell) : list bool :=
  between_cell lo hi <$> s.

(** [s.isin(values)]. *)
Definition isin (values : list cell) (s : list cell) : list bool :=
  (λ c, existsb (cell_eqb c) values) <$> s.

(** [s.unique()]: distinct values in order of first appearance. *)
Fixpoint unique_from (seen : list cell) (s : list cell) : list cell :=
  match s with
  | [] => []
  | x :: s' =>
      if existsb (cell_eqb x) seen then unique_from seen s'
      else x :: unique_from (x :: seen) s'
  end.
Definition unique (s : list cell) : list cell := unique_from [] s.

(** [s.duplicated()]: true on every occurrence but the first. *)
Fixpoint duplicated_from (seen : list cell) (s : list cell) : list bool :=
  match s with
  | [] => []
  | x :: s' => existsb (cell_eqb x) seen :: duplicated_from (x :: seen) s'
  end.
Definition duplicated (s : list cell) : list bool := duplicated_from [] s.

(** [df.drop_duplicates(subset=cols)], keeping the first occurrence. *)
Definition row_key (cols : list string) (r : gmap string cell) : list cell :=
  (λ c, cell_at c r) <$> cols.

Fixpoint dedup_from (cols : list string) (seen : list (list cell))
    (rs : list (gmap string cell)) : list (gmap string cell) :=
  match rs with
  | [] => []
  | r :: rs' =>
      if existsb (key_eqb (row_key cols r)) seen then dedup_from cols seen rs'
      else r :: dedup_from cols (row_key cols r :: seen) rs'
  end.

Definition drop_duplicates_subset (cols : list string) (df : DataFrame)
  : result DataFrame :=
  match missing_labels cols df with
  | [] => Ok (mkDataFrame (columns df) (dedup_from cols [] (rows df)))
  | m => Raise (KeyError m)
  end.

(** [df.drop_duplicates()]: all columns form the key. *)
Definition drop_duplicates (df : DataFrame) : DataFrame :=
  mkDataFrame (columns df) (dedup_from (columns df) [] (rows df)).

(** [df.dropna(subset=cols)]: drop a row when any of [cols] is missing. *)
Definition has_na (cols : list string) (r : gmap string cell) : bool :=
  existsb (λ c, is_na (cell_at c r)) cols.

Definition dropna_subset (cols : list string) (df : DataFrame)
  : result DataFrame :=
  match missing_labels cols df with
  | [] => Ok (mkDataFrame (columns df)
                (List.filter (λ r, negb (has_na cols r)) (rows df)))
  | m => Raise (KeyError m)
  end.

Definition dropna (df : DataFrame) : DataFrame :=
  mkDataFrame (columns df)
    (List.filter (λ r, negb (has_na (columns df) r)) (rows df)).

(** [df.sort_values(c)]: ascending.  The sort is written as a stable
    insertion sort; the pipeline only sorts a column of distinct values, on
    which every sorting algorithm returns the same frame. *)
Fixpoint insert_sorted (c : string) (r : gmap string cell)
    (rs : list (gmap string cell)) : list (gmap string cell) :=
  match rs with
  | [] => [r]
  | r' :: rs' =>
      if cell_leb (cell_at c r) (cell_at c r') then r :: r' :: rs'
      else r' :: insert_sorted c r rs'
  end.

Definition sort_rows (c : string) (rs : list (gmap string cell))
  : list (gmap string cell) :=
  foldr (insert_sorted c) [] rs.

Definition sort_values (c : string) (df : DataFrame) : result DataFrame :=
  if label_in c (columns df)
  then Ok (mkDataFrame (columns df) (sort_rows c (rows df)))
  else Raise (KeyError [c]).

(** [df.index + 1] after [reset_index(drop=True)]: the row positions,
    counted from one.  The index itself is positional in this model, so
    [reset_index(drop=True)] is the identity. *)
Definition reset_index (df : DataFrame) : DataFrame := df.

Definition index_cells (n : nat) : list cell :=
  (λ i : nat, Int (Z.of_nat i + 1)) <$> seq 0 n.

Definition index_plus_1 (df : DataFrame) : list cell :=
  index_cells (length (rows df)).

(** [left.merge(right, how="left", left_on=.., right_on=..)].

    Key columns that carry the same label on both sides appear once; any
    other label present on both sides is suffixed [_x] / [_y].  Rows come
    out in the order of [left]; a left row without a partner is kept once
    with the right-hand columns missing, a left row with several partners
    is repeated.  Missing keys match missing keys. *)
Definition shared_keys (left_on right_on : list string) : list string :=
  fst <$> List.filter (λ p, String.eqb p.1 p.2) (zip left_on right_on).

(** The columns the right frame contributes. *)
Definition right_columns (left_on right_on : list string) (right : DataFrame)
  : list string :=
  List.filter (λ c, negb (label_in c (shared_keys left_on right_on)))
    (columns right).

(** Labels that would appear twice and therefore get a suffix. *)
Definition overlapping (left_on right_on : list string)
    (left right : DataFrame) : list string :=
  List.filter
    (λ c, label_in c (right_columns left_on right_on right)
          && negb (label_in c (shared_keys left_on right_on)))
    (columns left).

Definition suffixed (overlap : list string) (sfx c : string) : string :=
  if label_in c overlap then String.append c sfx else c.

Definition join_row (lcols rcols overlap : list string)
    (l : gmap string cell) (r : option (gmap string cell))
  : gmap string cell :=
  list_to_map
    (((λ c, (suffixed overlap "_x" c, cell_at c l)) <$> lcols) ++
     ((λ c, (suffixed overlap "_y" c,
             match r with Some r' => cell_at c r' | None => NA end)) <$> rcols)).

Definition partners (left_on right_on : list string)
    (rs : list (gmap string cell)) (l : gmap string cell)
  : list (gmap string cell) :=
  List.filter (λ r, key_eqb (row_key left_on l) (row_key right_on r)) rs.

(** The output rows one left row gives rise to. *)
Definition join_rows (lcols rcols overlap left_on right_on : list string)
    (rs : list (gmap string cell)) (l : gmap string cell)
  : list (gmap string cell) :=
  match partners left_on right_on rs l with
  | [] => [join_row lcols rcols overlap l None]
  | ms => join_row lcols rcols overlap l ∘ Some <$> ms
  end.

(** [left.merge(right, left_on=..., right_on=..., how="left")].  A key
    label one side lacks raises KeyError.  Keys are compared cell by cell.
    The library also refuses, with a ValueError, to merge a numeric key
    column with a text one; that refusal is not modelled, so what is said
    of a merge that returns is said of key columns of one kind. *)
Definition merge_left (left_on right_on : list string)
    (left right : DataFrame) : result DataFrame :=
  match missing_labels left_on left ++ missing_labels right_on right with
  | [] =>
      let rcols := right_columns left_on right_on right in
      let overlap := overlapping left_on right_on left right in
      Ok (mkDataFrame
            ((suffixed overlap "_x" <$> columns left) ++
             (suffixed overlap "_y" <$> rcols))
            (flat_map
               (join_rows (columns left) rcols overlap left_on right_on
                  (rows right))
               (rows left)))
  | m => Raise (KeyError m)
  end.

(** ** Scalar conversions

    The text parsers of the tabular library are taken as an interface: what
    [to_numeric] and [to_datetime] accept as a number or a date, and how
    [astype(str)] prints a non-string scalar, is the library's business.
    [None] is a value the conversion cannot read. *)
Class Scalars : Type := {
  numeric_of : cell → option Q;
  datetime_of : cell → option Z;
  repr : cell → string
}.

Section Conversions.
Context `{Scalars}.

(** [pd.to_numeric(s, errors="coerce")]. *)
Definition to_numeric_cell (c : cell) : cell :=
  match c with
  | NA => NA
  | Num q => Num q
  | _ => from_option Num NA (numeric_of c)
  end.
Definition to_numeric (s : list cell) : list cell := to_numeric_cell <$> s.

(** [pd.to_datetime(s, errors="coerce")], value by value: an instant or
    a missing value.  A column whose dates carry different UTC offsets
    comes back from the library as objects, on which the [.dt] accessors
    raise; that case is not modelled, so what is said of a transform that
    returns is said of review dates of one zone. *)
Definition to_datetime_cell (c : cell) : cell :=
  match c with
  | NA => NA
  | Ts ns => Ts ns
  | _ => from_option Ts NA (datetime_of c)
  end.
Definition to_datetime (s : list cell) : list cell := to_datetime_cell <$> s.

(** [s.astype(str)]: a missing value prints as the text nan. *)
Definition astype_str_cell (c : cell) : string :=
  match c with
  | NA => "nan"
  | Str s => s
  | _ => repr c
  end.
Definition astype_str (s : list cell) : list string := astype_str_cell <$> s.
End Conversions.

(** [s.fillna(v)]. *)
Definition fillna_cell (v c : cell) : cell := if is_na c then v else c.
Definition fillna (v : cell) (s : list cell) : list cell := fillna_cell v <$> s.

(** Arithmetic on float series; a missing operand gives a missing result. *)
Definition div_cell (k : Q) (c : cell) : cell :=
  match c with Num q => Num (Qred (q / k)) | _ => NA end.
Definition div_scalar (k : Q) (s : list cell) : list cell := div_cell k <$> s.

Definition mul_scalar_cell (k : Q) (c : cell) : cell :=
  match c with Num q => Num (Qred (q * k)) | _ => NA end.
Definition mul_scalar (k : Q) (s : list cell) : list cell :=
  mul_scalar_cell k <$> s.

Definition mul_cell (a b : cell) : cell :=
  match a, b with
  | Num p, Num q => Num (Qred (p * q))
  | _, _ => NA
  end.
Definition mul_series (s1 s2 : list cell) : list cell := zip_with mul_cell s1 s2.

(** [s.clip(lower=lo, upper=hi)]. *)
Definition clip_cell (lo hi : Q) (c : cell) : cell :=
  match c with
  | Num q =>
      if Qle_bool q lo then Num lo
      else if Qle_bool hi q then Num hi
      else Num q
  | _ => c
  end.
Definition clip (lo hi : Q) (s : list cell) : list cell := clip_cell lo hi <$> s.

(** [pd.cut(s, bins=.., labels=..)] with right-closed bins. *)
Inductive edge : Type :=
  | Fin (q : Q)
  | PosInf.

Definition edge_ltb (e : edge) (q : Q) : bool :=
  match e with
  | Fin b => negb (Qle_bool q b)
  | PosInf => false
  end.

Definition edge_geb (e : edge) (q : Q) : bool :=
  match e with
  | Fin b => Qle_bool q b
  | PosInf => true
  end.

Fixpoint cut_from (lo : edge) (bins : list edge) (labels : list string) (q : Q)
  : cell :=
  match bins, labels with
  | hi :: bins', lab :: labels' =>
      if edge_ltb lo q && edge_geb hi q then Str lab
      else cut_from hi bins' labels' q
  | _, _ => NA
  end.

Definition cut_cell (bins : list edge) (labels : list string) (c : cell) : cell :=
  match c, bins with
  | Num q, lo :: bins' => cut_from lo bins' labels q
  | _, _ => NA
  end.

Definition cut (bins : list edge) (labels : list string) (s : list cell)
  : list cell :=
  cut_cell bins labels <$> s.

(** ** Calendar accessors of a timestamp column *)

Definition ns_per_day : Z := 86400 * 1000000000.

(** [Timestamp.normalize()]: midnight of the same day. *)
Definition normalize (ns : Z) : Z := ns - ns mod ns_per_day.

Definition days_of (ns : Z) : Z := ns / ns_per_day.

(** Proleptic Gregorian (year, month, day) of a day count from 1970-01-01. *)
Definition civil_of_days (d : Z) : Z * Z * Z :=
  let z := d + 719468 in
  let era := z / 146097 in
  let doe := z - era * 146097 in
  let yoe := (doe - doe / 1460 + doe / 36524 - doe / 146096) / 365 in
  let doy := doe - (365 * yoe + yoe / 4 - yoe / 100) in
  let mp := (5 * doy + 2) / 153 in
  let day := doy - (153 * mp + 2) / 5 + 1 in
  let month := if mp <? 10 then mp + 3 else mp - 9 in
  let year := yoe + era * 400 + (if month <=? 2 then 1 else 0) in
  (year, month, day).

Definition days_of_civil (y m d : Z) : Z :=
  let y' := if m <=? 2 then y - 1 else y in
  let era := y' / 400 in
  let yoe := y' - era * 400 in
  let mp := if m <=? 2 then m + 9 else m - 3 in
  let doy := (153 * mp + 2) / 5 + d - 1 in
  let doe := yoe * 365 + yoe / 4 - yoe / 100 + doy in
  era * 146097 + doe - 719468.

(** Monday is 0, as [dt.weekday] counts. *)
Definition weekday_of_days (d : Z) : Z := (d + 3) mod 7.

Definition month_names : list string :=
  ["January"; "February"; "March"; "April"; "May"; "June"; "July";
   "August"; "September"; "October"; "November"; "December"].

Definition day_names : list string :=
  ["Monday"; "Tuesday"; "Wednesday"; "Thursday"; "Friday"; "Saturday";
   "Sunday"].

Definition on_ts (f : Z → cell) (c : cell) : cell :=
  match c with Ts ns => f ns | _ => NA end.

Definition year_cell : cell → cell :=
  on_ts (λ ns, Int (civil_of_days (days_of ns)).1.1).
Definition month_cell : cell → cell :=
  on_ts (λ ns, Int (civil_of_days (days_of ns)).1.2).
Definition day_cell : cell → cell :=
  on_ts (λ ns, Int (civil_of_days (days_of ns)).2).
Definition month_name_cell : cell → cell :=
  on_ts (λ ns, Str (month_names !!!
                      Z.to_nat ((civil_of_days (days_of ns)).1.2 - 1))).
Definition weekday_cell : cell → cell :=
  on_ts (λ ns, Int (weekday_of_days (days_of ns))).
Definition day_name_cell : cell → cell :=
  on_ts (λ ns, Str (day_names !!! Z.to_nat (weekday_of_days (days_of ns)))).

Definition dt_year (s : list cell) : list cell := year_cell <$> s.
Definition dt_month (s : list cell) : list cell := month_cell <$> s.
Definition dt_day (s : list cell) : list cell := day_cell <$> s.
Definition dt_month_name (s : list cell) : list cell := month_name_cell <$> s.
Definition dt_weekday (s : list cell) : list cell := weekday_cell <$> s.
Definition dt_day_name (s : list cell) : list cell := day_name_cell <$> s.

Definition add_cell (k : Q) (c : cell) : cell :=
  match c with Num q => Num (Qred (q + k)) | _ => NA end.
Definition add_scalar (k : Q) (s : list cell) : list cell := add_cell k <$> s.

(** ** Text of a price *)

Definition is_digit (a : ascii) : bool :=
  ((48 <=? N_of_ascii a) && (N_of_ascii a <=? 57))%N.

Definition is_period (a : ascii) : bool := Ascii.eqb a ".".

(** The characters the pattern [[^0-9.]] leaves in place. *)
Definition is_price_char (a : ascii) : bool := is_digit a || is_period a.

(** [s.str.replace(r"[^0-9.]", "", regex=True)] on one string. *)
Definition strip_non_price (s : string) : string :=
  string_of_list_ascii (List.filter is_price_char (list_ascii_of_string s)).

(** [s.replace(old, new)]: whole values, not substrings. *)
Definition replace_value (old new : string) (s : list string) : list string :=
  (λ x, if String.eqb x old then new else x) <$> s.

Definition digit_val (a : ascii) : Z := Z.of_N (N_of_ascii a) - 48.

Definition digits_val (ds : list ascii) : Z :=
  fold_left (λ acc d, 10 * acc + digit_val d) ds 0.

Fixpoint leading_digits (cs : list ascii) : list ascii * list ascii :=
  match cs with
  | [] => ([], [])
  | a :: cs' =>
      if is_digit a then
        let (ds, rest) := leading_digits cs' in (a :: ds, rest)
      else ([], cs)
  end.

(** The float a text of digits and periods denotes: digits, optionally one
    period, digits, with a digit somewhere.  [None] is the ValueError that
    [float] raises on any other text over this alphabet.  (Signs, exponents
    and blanks never reach the conversion: the substitution has removed
    them.) *)
Definition float_of_string (s : string) : option Q :=
  let (ip, rest) := leading_digits (list_ascii_of_string s) in
  match rest with
  | [] =>
      match ip with
      | [] => None
      | _ => Some (inject_Z (digits_val ip))
      end
  | dot :: fp =>
      if is_period dot && forallb is_digit fp
         && negb (Nat.eqb (length ip + length fp) 0)
      then Some (Qred (Qmake (digits_val (ip ++ fp))
                         (Z.to_pos (10 ^ Z.of_nat (length fp)))))
      else None
  end.

(** [s.astype(float)] on a series of strings. *)
Definition astype_float (s : list string) : result (list cell) :=
  mapR (λ x, match float_of_string x with
             | Some q => Ok (Num q)
             | None => Raise (ValueError x)
             end) s.

(** ** The quality report *)

Inductive payload : Type :=
  | missing_columns (labels : list string)
  | null_count (n : nat)
  | duplicate_count (n : nat)
  | invalid_count (n : nat)
  | orphan_reviews (n : nat).

Record check : Type := mkCheck {
  name : string;
  status : string;
  detail : payload
  }.

Record report : Type := mkReport {
  listings_row_count_after_validation : nat;
  reviews_row_count_after_validation : nat;
  checks : list check
  }.

Definition pass_if (b : bool) : string := if b then "pass" else "fail".

Definition listings_required : list string :=
  ["id"; "name"; "host_id"; "host_name"; "neighbourhood_group";
   "neighbourhood"; "latitude"; "longitude"; "room_type"; "price";
   "minimum_nights"; "number_of_reviews"; "last_review";
   "reviews_per_month"; "calculated_host_listings_count";
   "availability_365"; "number_of_reviews_ltm"; "license"].

Definition reviews_required : list string := ["listing_id"; "date"].

(** [cfg.get(key, fallback)] on the validation section of the config. *)
Definition cfg_get (key : string) (fallback : Q) (cfg : gmap string Q) : Q :=
  default fallback (cfg !! key).

Module validate.
Section validate.
Context `{Scalars}.

Definition _check_columns_present (df : DataFrame)
    (required_cols : list string) (check_name : string)
    (checks : list check) : list check :=
  let missing := missing_labels required_cols df in
  let status := pass_if (Nat.eqb (length missing) 0) in
  checks ++ [mkCheck check_name status (missing_columns missing)].

Definition _check_not_null (df : DataFrame) (column check_name : string)
    (checks : list check) : result (list check) :=
  s ← getitem column df;
  let null_count_ := mask_sum (isna s) in
  let status := pass_if (Nat.eqb null_count_ 0) in
  Ok (checks ++ [mkCheck check_name status (null_count null_count_)]).

Definition _check_unique (df : DataFrame) (column check_name : string)
    (checks : list check) : result (list check) :=
  s ← getitem column df;
  let dup_count := mask_sum (duplicated s) in
  let status := pass_if (Nat.eqb dup_count 0) in
  Ok (checks ++ [mkCheck check_name status (duplicate_count dup_count)]).

(** The report is returned as the third component instead of being
    written to the configured path. *)
Definition run_validate (validation_cfg : gmap string Q)
    (listings reviews : DataFrame)
  : result (DataFrame * DataFrame * report) :=
  let checks := [] in
  let checks :=
    _check_columns_present listings listings_required
      "listings_columns_present" checks in
  let checks :=
    _check_columns_present reviews reviews_required
      "reviews_columns_present" checks in
  (* Only keep the expected columns *)
  listings ← getitem_cols listings_required listings;
  reviews ← getitem_cols reviews_required reviews;
  (* Null checks *)
  checks ← _check_not_null listings "id" "listings_id_not_null" checks;
  checks ← _check_not_null reviews "listing_id"
             "reviews_listing_id_not_null" checks;
  (* Drop rows with null IDs *)
  ids ← getitem "id" listings;
  listings ← getitem_mask (mask_not (isna ids)) listings;
  lids ← getitem "listing_id" reviews;
  reviews ← getitem_mask (mask_not (isna lids)) reviews;
  (* Uniqueness checks *)
  checks ← _check_unique listings "id" "listings_id_unique" checks;
  listings ← drop_duplicates_subset ["id"] listings;
  (* Convert some fields to numeric *)
  avail ← getitem "availability_365" listings;
  listings ← setitem "availability_365" (to_numeric avail) listings;
  lat ← getitem "latitude" listings;
  listings ← setitem "latitude" (to_numeric lat) listings;
  lon ← getitem "longitude" listings;
  listings ← setitem "longitude" (to_numeric lon) listings;
  let max_avail := cfg_get "max_availability" 365 validation_cfg in
  let min_lat := cfg_get "min_latitude" (-90) validation_cfg in
  let max_lat := cfg_get "max_latitude" 90 validation_cfg in
  let min_lon := cfg_get "min_longitude" (-180) validation_cfg in
  let max_lon := cfg_get "max_longitude" 180 validation_cfg in
  (* Price will be cleaned later; here just check non-empty *)
  price ← getitem "price" listings;
  let price_nulls := mask_sum (isna price) in
  let checks :=
    checks ++ [mkCheck "price_not_null_raw"
                 (pass_if (Nat.eqb price_nulls 0)) (null_count price_nulls)] in
  (* Latitude/Longitude range *)
  lat ← getitem "latitude" listings;
  let invalid_lat := mask_not (between min_lat max_lat lat) in
  lon ← getitem "longitude" listings;
  let invalid_lon := mask_not (between min_lon max_lon lon) in
  let checks :=
    checks ++ [mkCheck "latitude_in_range"
                 (pass_if (Nat.eqb (mask_sum invalid_lat) 0))
                 (invalid_count (mask_sum invalid_lat))] in
  let checks :=
    checks ++ [mkCheck "longitude_in_range"
                 (pass_if (Nat.eqb (mask_sum invalid_lon) 0))
                 (invalid_count (mask_sum invalid_lon))] in
  (* Drop rows with invalid lat/lon *)
  let bad_geo := mask_or invalid_lat invalid_lon in
  listings ←
    (if Nat.ltb 0 (mask_sum bad_geo)
     then getitem_mask (mask_not bad_geo) listings
     else Ok listings);
  (* Availability range *)
  avail ← getitem "availability_365" listings;
  let invalid_avail := mask_not (between 0 max_avail avail) in
  let checks :=
    checks ++ [mkCheck "availability_in_range"
                 (pass_if (Nat.eqb (mask_sum invalid_avail) 0))
                 (invalid_count (mask_sum invalid_avail))] in
  listings ←
    (if Nat.ltb 0 (mask_sum invalid_avail)
     then getitem_mask (mask_not invalid_avail) listings
     else Ok listings);
  (* FK check: reviews listing_id exists in listings.id *)
  ids ← getitem "id" listings;
  let valid_listing_ids := unique ids in
  lids ← getitem "listing_id" reviews;
  let fk_valid_mask := isin valid_listing_ids lids in
  let fk_invalid_count := mask_sum (mask_not fk_valid_mask) in
  let checks :=
    checks ++ [mkCheck "reviews_listing_id_fk"
                 (pass_if (Nat.eqb fk_invalid_count 0))
                 (orphan_reviews fk_invalid_count)] in
  reviews ←
    (if Nat.ltb 0 fk_invalid_count
     then getitem_mask fk_valid_mask reviews
     else Ok reviews);
  (* Summarise report *)
  let report :=
    mkReport (length (rows listings)) (length (rows reviews)) checks in
  Ok (listings, reviews, report).
End validate.
End validate.

Module transform.
Section transform.
Context `{Scalars}.

(** Remove currency symbols/commas and convert to float. *)
Definition clean_price (series : list cell) : result (list cell) :=
  astype_float
    (replace_value "" "0" (strip_non_price <$> astype_str series)).

(** Simple price banding: budget / mid / premium. *)
Definition classify_price_tier (price : list cell) : list cell :=
  cut [Fin (-1); Fin 50; Fin 150; PosInf] ["budget"; "mid"; "premium"] price.

(** The tables [run_transform] holds just before it packs its two
    result dictionaries. *)
Record tables : Type := mkTables {
  t_listings : DataFrame;
  t_reviews : DataFrame;
  t_dim_date : DataFrame;
  t_dim_neighborhood : DataFrame;
  t_dim_host : DataFrame;
  t_dim_listing : DataFrame;
  t_fact_joined : DataFrame;
  t_fact_reviews : DataFrame
}.

Definition numeric_or_zero (c : string) (df : DataFrame) : result DataFrame :=
  s ← getitem c df;
  setitem c (fillna (Int 0) (to_numeric s)) df.

(** Renaming, price cleaning and numeric fields. *)
Definition clean_fields (listings : DataFrame) : result DataFrame :=
  let listings := rename "id" "listing_id" listings in
  price ← getitem "price" listings;
  price ← clean_price price;
  listings ← setitem "price" price listings;
  listings ← numeric_or_zero "minimum_nights" listings;
  listings ← numeric_or_zero "number_of_reviews" listings;
  listings ← numeric_or_zero "reviews_per_month" listings;
  listings ← numeric_or_zero "number_of_reviews_ltm" listings;
  Ok listings.

Definition feature_engineering (listings : DataFrame) : result DataFrame :=
  rpm ← getitem "reviews_per_month" listings;
  listings ←
    setitem "estimated_occupancy_rate" (clip 0 1 (div_scalar 5 rpm)) listings;
  price ← getitem "price" listings;
  occ ← getitem "estimated_occupancy_rate" listings;
  listings ←
    setitem "estimated_monthly_revenue"
      (mul_scalar 30 (mul_series price occ)) listings;
  price ← getitem "price" listings;
  setitem "price_tier" (classify_price_tier price) listings.

Definition build_dim_date (reviews : DataFrame) : result DataFrame :=
  dim_date ← getitem_cols ["date"] reviews;
  let dim_date := rename "date" "full_date" (drop_duplicates (dropna dim_date)) in
  dim_date ← sort_values "full_date" dim_date;
  let dim_date := reset_index dim_date in
  dim_date ← setitem "date_sk" (index_plus_1 dim_date) dim_date;
  full_date ← getitem "full_date" dim_date;
  dim_date ← setitem "year" (dt_year full_date) dim_date;
  full_date ← getitem "full_date" dim_date;
  dim_date ← setitem "month" (dt_month full_date) dim_date;
  full_date ← getitem "full_date" dim_date;
  dim_date ← setitem "day" (dt_day full_date) dim_date;
  full_date ← getitem "full_date" dim_date;
  dim_date ← setitem "month_name" (dt_month_name full_date) dim_date;
  full_date ← getitem "full_date" dim_date;
  dim_date ←
    setitem "day_of_week" (add_scalar 1 (dt_weekday full_date)) dim_date;
  full_date ← getitem "full_date" dim_date;
  setitem "day_name" (dt_day_name full_date) dim_date.

Definition build_dim_neighborhood (listings : DataFrame) : result DataFrame :=
  dim_neighborhood ← getitem_cols ["neighbourhood_group"; "neighbourhood"] listings;
  let dim_neighborhood := reset_index (drop_duplicates dim_neighborhood) in
  setitem "neighborhood_sk" (index_plus_1 dim_neighborhood) dim_neighborhood.

(** [now] is the clock reading [pd.Timestamp.today()] returns. *)
Definition build_dim_host (now : Z) (listings : DataFrame) : result DataFrame :=
  dim_host ← getitem_cols
               ["host_id"; "host_name"; "calculated_host_listings_count"] listings;
  dim_host ← drop_duplicates_subset ["host_id"] dim_host;
  let dim_host := reset_index dim_host in
  dim_host ← setitem "host_sk" (index_plus_1 dim_host) dim_host;
  let run_date := normalize now in
  let dim_host := setitem_scalar "valid_from" (Ts run_date) dim_host in
  let dim_host := setitem_scalar "valid_to" NA dim_host in
  Ok (setitem_scalar "is_current" (Bool true) dim_host).

Definition dim_listing_columns : list string :=
  ["listing_id"; "name"; "host_id"; "neighborhood_sk"; "room_type"; "price";
   "minimum_nights"; "availability_365"; "number_of_reviews";
   "reviews_per_month"; "number_of_reviews_ltm"; "license"; "latitude";
   "longitude"; "estimated_occupancy_rate"; "estimated_monthly_revenue";
   "price_tier"].

Definition build_dim_listing (listings dim_neighborhood : DataFrame)
  : result DataFrame :=
  dim_listing ← merge_left ["neighbourhood_group"; "neighbourhood"]
                   ["neighbourhood_group"; "neighbourhood"]
                   listings dim_neighborhood;
  dim_listing ← getitem_cols dim_listing_columns dim_listing;
  dim_listing ← drop_duplicates_subset ["listing_id"] dim_listing;
  let dim_listing := reset_index dim_listing in
  setitem "listing_sk" (index_plus_1 dim_listing) dim_listing.

(** The three left joins of the fact table, before the integrity gate. *)
Definition join_fact_reviews (reviews dim_listing dim_host dim_date : DataFrame)
  : result DataFrame :=
  right ← getitem_cols ["listing_id"; "listing_sk"; "host_id"] dim_listing;
  fact_reviews ← merge_left ["listing_id"] ["listing_id"] reviews right;
  right ← getitem_cols ["host_id"; "host_sk"] dim_host;
  fact_reviews ← merge_left ["host_id"] ["host_id"] fact_reviews right;
  right ← getitem_cols ["date_sk"; "full_date"] dim_date;
  merge_left ["date"] ["full_date"] fact_reviews right.

Definition gate_fact_reviews (fact_reviews : DataFrame) : result DataFrame :=
  let fact_reviews := setitem_scalar "review_count" (Int 1) fact_reviews in
  fact_reviews ← getitem_cols
                   ["listing_sk"; "host_sk"; "date_sk"; "review_count"]
                   fact_reviews;
  dropna_subset ["listing_sk"; "host_sk"; "date_sk"] fact_reviews.

Definition build_tables (now : Z) (listings reviews : DataFrame)
  : result tables :=
  listings ← clean_fields listings;
  date ← getitem "date" reviews;
  reviews ← setitem "date" (to_datetime date) reviews;
  listings ← feature_engineering listings;
  dim_date ← build_dim_date reviews;
  dim_neighborhood ← build_dim_neighborhood listings;
  dim_host ← build_dim_host now listings;
  dim_listing ← build_dim_listing listings dim_neighborhood;
  joined ← join_fact_reviews reviews dim_listing dim_host dim_date;
  fact_reviews ← gate_fact_reviews joined;
  Ok (mkTables listings reviews dim_date dim_neighborhood dim_host
        dim_listing joined fact_reviews).

Record dims : Type := mkDims {
  dim_date : DataFrame;
  dim_neighborhood : DataFrame;
  dim_host : DataFrame;
  dim_listing : DataFrame
}.

Record facts : Type := mkFacts {
  fact_reviews : DataFrame
}.

(** Build dicts to pass to load. *)
Definition pack (t : tables) : result (dims * facts) :=
  dim_date ← getitem_cols
    ["date_sk"; "full_date"; "year"; "month"; "day"; "month_name";
     "day_of_week"; "day_name"] (t_dim_date t);
  dim_neighborhood ← getitem_cols
    ["neighborhood_sk"; "neighbourhood_group"; "neighbourhood"]
    (t_dim_neighborhood t);
  dim_host ← getitem_cols
    ["host_sk"; "host_id"; "host_name"; "calculated_host_listings_count";
     "valid_from"; "valid_to"; "is_current"] (t_dim_host t);
  dim_listing ← getitem_cols
    ["listing_sk"; "listing_id"; "name"; "host_id"; "neighborhood_sk";
     "room_type"; "price"; "minimum_nights"; "availability_365";
     "number_of_reviews"; "reviews_per_month"; "number_of_reviews_ltm";
     "license"; "latitude"; "longitude"] (t_dim_listing t);
  Ok (mkDims dim_date dim_neighborhood dim_host dim_listing,
      mkFacts (t_fact_reviews t)).

Definition run_transform (now : Z) (listings reviews : DataFrame)
  : result (dims * facts) :=
  t ← build_tables now listings reviews;
  pack t.
End transform.
End transform.

(** ** The orchestrator: validate, then transform *)
Module orchestrator.
Section orchestrator.
Context `{Scalars}.

Definition run_pipeline (validation_cfg : gmap string Q) (now : Z)
    (listings reviews : DataFrame)
  : result (transform.dims * transform.facts * report) :=
  '(listings, reviews, rep) ←
      validate.run_validate validation_cfg listings reviews;
  '(dims, facts) ← transform.run_transform now listings reviews;
  Ok (dims, facts, rep).
End orchestrator.
End orchestrator.

(** ** A reference instance of the scalar conversions

  Plain decimal numbers, ISO calendar dates ([YYYY-MM-DD]) and a fixed
  six-place rendering of floats: enough to run the pipeline on sample
  extracts. *)
Module sample.

Definition all_digits (cs : list ascii) : bool :=
  forallb is_digit cs && negb (Nat.eqb (length cs) 0).

Definition decimal_of_string (s : string) : option Q :=
  match list_ascii_of_string s with
  | "-"%char :: cs =>
      (λ q, Qopp q) <$> float_of_string (string_of_list_ascii cs)
  | _ => float_of_string s
  end.

Definition iso_date_of_string (s : string) : option Z :=
  match list_ascii_of_string s with
  | [y1; y2; y3; y4; "-"%char; m1; m2; "-"%char; d1; d2] =>
      if all_digits [y1; y2; y3; y4; m1; m2; d1; d2] then
        let y := digits_val [y1; y2; y3; y4] in
        let m := digits_val [m1; m2] in
        let d := digits_val [d1; d2] in
        if (1 <=? m) && (m <=? 12) && (1 <=? d) && (d <=? 31)
        then Some (days_of_civil y m d * ns_per_day)
        else None
      else None
  | _ => None
  end.

Fixpoint drop_zeros (cs : list ascii) : list ascii :=
  match cs with
  | "0"%char :: cs' => drop_zeros cs'
  | _ => cs
  end.

Definition trim_zeros (cs : list ascii) : list ascii :=
  match rev (drop_zeros (rev cs)) with
  | [] => ["0"%char]
  | ds => ds
  end.

(** Six decimal places, trailing zeros removed. *)
Definition string_of_Q (q : Q) : string :=
  let a := Qabs q in
  let scaled := Qfloor (a * 1000000 + (1 # 2)) in
  let ip := scaled / 1000000 in
  let fp := scaled mod 1000000 in
  let fp_text := list_ascii_of_string (pretty (1000000 + fp)) in
  String.append (if Qle_bool 0 q then "" else "-")
    (String.append (pretty ip)
       (String.append "."
          (string_of_list_ascii (trim_zeros (tail fp_text))))).

Global Instance scalars : Scalars := {|
  numeric_of c :=
    match c with
    | Str s => decimal_of_string s
    | Bool b => Some (if b then 1%Q else 0%Q)
    | Ts ns => Some (inject_Z ns)
    | _ => None
    end;
  datetime_of c :=
    match c with
    | Str s => iso_date_of_string s
    | _ => None
    end;
  repr c :=
    match c with
    | Num q => string_of_Q q
    | Bool b => if b then "True" else "False"
    | Ts ns => pretty ns
    | _ => ""
    end
|}.

(** *** A sample extract *)

(** One listing of the sample extract. *)
Definition listing (id host : Z) (group hood : string) (lon : Q)
    (price rpm : cell) : gmap string cell :=
  list_to_map
    [("id", Int id); ("name", Str "Sunny flat"); ("host_id", Int host);
     ("host_name", Str "Ann"); ("neighbourhood_group", Str group);
     ("neighbourhood", Str hood); ("latitude", Num 40.8);
     ("longitude", Num lon); ("room_type", Str "Entire home/apt");
     ("price", price); ("minimum_nights", Int 2);
     ("number_of_reviews", Int 10); ("last_review", Str "2019-01-01");
     ("reviews_per_month", rpm);
     ("calculated_host_listings_count", Int 1);
     ("availability_365", Int 100); ("number_of_reviews_ltm", Int 3);
     ("license", NA)].

Definition review (listing_id : Z) (date : string) : gmap string cell :=
  list_to_map [("listing_id", Int listing_id); ("date", Str date)].

(** Three listings, the one in position [bad] with longitude 200. *)
Definition listings_with_bad (bad : nat) : DataFrame :=
  mkDataFrame listings_required
    (imap (λ i '(id, host, hood, price, rpm),
             listing id host "Manhattan" hood
               (if Nat.eqb i bad then 200 else -73.9) price rpm)
       [(101, 11, "Harlem", Str "$1,234.50", Num 2.5);
        (102, 12, "Chelsea", Str "$80.00", Num 1);
        (103, 11, "Harlem", NA, NA)]).

(** The ids of the two listings that are not in position [bad]. *)
Definition good_ids (bad : nat) : list Z :=
  snd <$> List.filter (λ p, negb (Nat.eqb p.1 bad))
            [(0%nat, 101); (1%nat, 102); (2%nat, 103)].

(** Five reviews, the one in position [orphan] of an unknown listing, the
    others of listings other than the one in position [bad]. *)
Definition reviews_with_orphan (bad orphan : nat) : DataFrame :=
  mkDataFrame reviews_required
    (imap (λ j date,
             review (if Nat.eqb j orphan then 999
                     else good_ids bad !!! (j `mod` 2)%nat) date)
       ["2018-10-19"; "2018-10-20"; "2018-10-19"; "2017-01-01"; "2018-11-02"]).

Definition listings : DataFrame := listings_with_bad 1.
Definition reviews : DataFrame := reviews_with_orphan 1 3.

(** Five reviews of the same listings: one of an unknown listing and one
    of listing 102, the listing of longitude 200. *)
Definition reviews_of_dropped_listing : DataFrame :=
  mkDataFrame reviews_required
    [review 101 "2018-10-19"; review 102 "2018-10-20";
     review 103 "2018-10-19"; review 999 "2017-01-01";
     review 101 "2018-11-02"].

(** What validation with the default thresholds gives for them. *)
Definition checked_of_dropped_listing : DataFrame * DataFrame * report :=
  match validate.run_validate ∅ listings reviews_of_dropped_listing with
  | Ok out => out
  | Raise _ => (listings, reviews_of_dropped_listing, mkReport 0 0 [])
  end.

(** The same listings without the price column. *)
Definition listings_without_price : DataFrame :=
  mkDataFrame
    (List.filter (λ c, negb (String.eqb c "price")) listings_required)
    (delete "price" <$> rows listings).

(** The sample extract after validation with the default thresholds, and
    the report of that validation. *)
Definition checked : DataFrame * DataFrame * report :=
  match validate.run_validate ∅ listings reviews with
  | Ok out => out
  | Raise _ => (listings, reviews, mkReport 0 0 [])
  end.

Definition validated : DataFrame * DataFrame := checked.1.

End sample.

(** ** Row-level reading of the validate stage

    What [run_validate] keeps, written as filters over rows.  These are
    proved equal to what the stage computes (see [run_validate_closed]). *)

Definition id_present (c : string) (r : gmap string cell) : bool :=
  negb (is_na (cell_at c r)).

Definition coerce_numeric `{Scalars} (r : gmap string cell) : gmap string cell :=
  let r1 := <["availability_365" :=
               to_numeric_cell (cell_at "availability_365" r)]> r in
  let r2 := <["latitude" := to_numeric_cell (cell_at "latitude" r1)]> r1 in
  <["longitude" := to_numeric_cell (cell_at "longitude" r2)]> r2.

Definition lat_ok (cfg : gmap string Q) (r : gmap string cell) : bool :=
  between_cell (cfg_get "min_latitude" (-90) cfg)
    (cfg_get "max_latitude" 90 cfg) (cell_at "latitude" r).

Definition lon_ok (cfg : gmap string Q) (r : gmap string cell) : bool :=
  between_cell (cfg_get "min_longitude" (-180) cfg)
    (cfg_get "max_longitude" 180 cfg) (cell_at "longitude" r).

Definition avail_ok (cfg : gmap string Q) (r : gmap string cell) : bool :=
  between_cell 0 (cfg_get "max_availability" 365 cfg)
    (cell_at "availability_365" r).

Definition selected_listings (L : DataFrame) : list (gmap string cell) :=
  project listings_required <$> rows L.

Definition selected_reviews (R : DataFrame) : list (gmap string cell) :=
  project reviews_required <$> rows R.

Definition identified_listings (L : DataFrame) : list (gmap string cell) :=
  List.filter (id_present "id") (selected_listings L).

Definition identified_reviews (R : DataFrame) : list (gmap string cell) :=
  List.filter (id_present "listing_id") (selected_reviews R).

Definition coerced_listings `{Scalars} (L : DataFrame)
  : list (gmap string cell) :=
  coerce_numeric <$> dedup_from ["id"] [] (identified_listings L).

Definition geo_listings `{Scalars} (cfg : gmap string Q) (L : DataFrame)
  : list (gmap string cell) :=
  List.filter (λ r, negb (negb (lat_ok cfg r) || negb (lon_ok cfg r)))
    (coerced_listings L).

Definition kept_listings `{Scalars} (cfg : gmap string Q) (L : DataFrame)
  : list (gmap string cell) :=
  List.filter (λ r, negb (negb (avail_ok cfg r))) (geo_listings cfg L).

Definition kept_reviews `{Scalars} (cfg : gmap string Q) (L R : DataFrame)
  : list (gmap string cell) :=
  List.filter
    (λ r, existsb (cell_eqb (cell_at "listing_id" r))
            (unique (cell_at "id" <$> kept_listings cfg L)))
    (identified_reviews R).

Definition count_check (check_name : string) (kind : nat → payload) (n : nat)
  : check :=
  mkCheck check_name (pass_if (Nat.eqb n 0)) (kind n).

Definition validation_checks `{Scalars} (cfg : gmap string Q)
    (L R : DataFrame) : list check :=
  [ mkCheck "listings_columns_present" "pass" (missing_columns []);
    mkCheck "reviews_columns_present" "pass" (missing_columns []);
    count_check "listings_id_not_null" null_count
      (length (List.filter (λ r, is_na (cell_at "id" r)) (selected_listings L)));
    count_check "reviews_listing_id_not_null" null_count
      (length (List.filter (λ r, is_na (cell_at "listing_id" r))
                 (selected_reviews R)));
    count_check "listings_id_unique" duplicate_count
      (mask_sum (duplicated (cell_at "id" <$> identified_listings L)));
    count_check "price_not_null_raw" null_count
      (length (List.filter (λ r, is_na (cell_at "price" r)) (coerced_listings L)));
    count_check "latitude_in_range" invalid_count
      (length (List.filter (λ r, negb (lat_ok cfg r)) (coerced_listings L)));
    count_check "longitude_in_range" invalid_count
      (length (List.filter (λ r, negb (lon_ok cfg r)) (coerced_listings L)));
    count_check "availability_in_range" invalid_count
      (length (List.filter (λ r, negb (avail_ok cfg r)) (geo_listings cfg L)));
    count_check "reviews_listing_id_fk" orphan_reviews
      (length
         (List.filter
            (λ r, negb (existsb (cell_eqb (cell_at "listing_id" r))
                          (unique (cell_at "id" <$> kept_listings cfg L))))
            (identified_reviews R))) ].

(** ** Row-level reading of the transform stage *)

(** A frame's rows with the positions, counted from one, stored under [c]. *)
Definition with_index (c : string) (rs : list (gmap string cell))
  : list (gmap string cell) :=
  zip_with (λ r v, <[c := v]> r) rs (index_cells (length rs)).

Definition calendar_row (r : gmap string cell) : gmap string cell :=
  let r := <["year" := year_cell (cell_at "full_date" r)]> r in
  let r := <["month" := month_cell (cell_at "full_date" r)]> r in
  let r := <["day" := day_cell (cell_at "full_date" r)]> r in
  let r := <["month_name" := month_name_cell (cell_at "full_date" r)]> r in
  let r := <["day_of_week" := add_cell 1 (weekday_cell (cell_at "full_date" r))]> r in
  <["day_name" := day_name_cell (cell_at "full_date" r)]> r.

(** The distinct, non-missing review dates in ascending order. *)
Definition review_dates (rs : list (gmap string cell)) : list (gmap string cell) :=
  sort_rows "full_date"
    (rename_row "date" "full_date" <$>
     dedup_from ["date"] []
       (List.filter (λ r, negb (has_na ["date"] r)) (project ["date"] <$> rs))).

Definition dim_date_rows (rs : list (gmap string cell)) : list (gmap string cell) :=
  calendar_row <$> with_index "date_sk" (review_dates rs).

Definition dim_date_working_columns : list string :=
  ["full_date"; "date_sk"; "year"; "month"; "day"; "month_name"; "day_of_week"; "day_name"].

Definition dim_neighborhood_rows (ls : list (gmap string cell)) : list (gmap string cell) :=
  with_index "neighborhood_sk"
    (dedup_from ["neighbourhood_group"; "neighbourhood"] []
       (project ["neighbourhood_group"; "neighbourhood"] <$> ls)).

Definition stamp_row (now : Z) (r : gmap string cell) : gmap string cell :=
  <["is_current" := Bool true]>
    (<["valid_to" := NA]> (<["valid_from" := Ts (normalize now)]> r)).

Definition distinct_hosts (ls : list (gmap string cell)) : list (gmap string cell) :=
  dedup_from ["host_id"] []
    (project ["host_id"; "host_name"; "calculated_host_listings_count"] <$> ls).

Definition dim_host_rows (now : Z) (ls : list (gmap string cell)) : list (gmap string cell) :=
  stamp_row now <$> with_index "host_sk" (distinct_hosts ls).

Definition dim_host_working_columns : list string :=
  ["host_id"; "host_name"; "calculated_host_listings_count"; "host_sk";
   "valid_from"; "valid_to"; "is_current"].


Definition cleaned_columns : list string :=
  ["listing_id"; "name"; "host_id"; "host_name"; "neighbourhood_group";
   "neighbourhood"; "latitude"; "longitude"; "room_type"; "price";
   "minimum_nights"; "number_of_reviews"; "last_review";
   "reviews_per_month"; "calculated_host_listings_count";
   "availability_365"; "number_of_reviews_ltm"; "license"].

Definition enriched_columns : list string :=
  cleaned_columns ++
  ["estimated_occupancy_rate"; "estimated_monthly_revenue"; "price_tier"].

Definition zero_filled `{Scalars} (c : string) (r : gmap string cell)
  : gmap string cell :=
  <[c := fillna_cell (Int 0) (to_numeric_cell (cell_at c r))]> r.

Definition clean_row `{Scalars} (r : gmap string cell) (p : cell)
  : gmap string cell :=
  zero_filled "number_of_reviews_ltm"
    (zero_filled "reviews_per_month"
       (zero_filled "number_of_reviews"
          (zero_filled "minimum_nights"
             (<["price" := p]> (rename_row "id" "listing_id" r))))).

Definition tier_cell : cell → cell :=
  cut_cell [Fin (-1); Fin 50; Fin 150; PosInf] ["budget"; "mid"; "premium"].

Definition enrich_row (r : gmap string cell) : gmap string cell :=
  let r := <["estimated_occupancy_rate" :=
              clip_cell 0 1 (div_cell 5 (cell_at "reviews_per_month" r))]> r in
  let r := <["estimated_monthly_revenue" :=
              mul_scalar_cell 30
                (mul_cell (cell_at "price" r)
                   (cell_at "estimated_occupancy_rate" r))]> r in
  <["price_tier" := tier_cell (cell_at "price" r)]> r.

Definition listing_neighborhood_rows (ls dn : list (gmap string cell))
  : list (gmap string cell) :=
  flat_map
    (join_rows enriched_columns ["neighborhood_sk"] []
       ["neighbourhood_group"; "neighbourhood"]
       ["neighbourhood_group"; "neighbourhood"] dn)
    ls.

Definition distinct_listings (ls dn : list (gmap string cell))
  : list (gmap string cell) :=
  dedup_from ["listing_id"] []
    (project transform.dim_listing_columns <$> listing_neighborhood_rows ls dn).

Definition dim_listing_rows (ls dn : list (gmap string cell))
  : list (gmap string cell) :=
  with_index "listing_sk" (distinct_listings ls dn).

Definition fact_listing_rows (rs dl : list (gmap string cell))
  : list (gmap string cell) :=
  flat_map
    (join_rows ["listing_id"; "date"] ["listing_sk"; "host_id"] []
       ["listing_id"] ["listing_id"]
       (project ["listing_id"; "listing_sk"; "host_id"] <$> dl))
    rs.

Definition fact_host_rows (fs dh : list (gmap string cell))
  : list (gmap string cell) :=
  flat_map
    (join_rows ["listing_id"; "date"; "listing_sk"; "host_id"] ["host_sk"] []
       ["host_id"] ["host_id"] (project ["host_id"; "host_sk"] <$> dh))
    fs.

Definition fact_date_rows (fs dd : list (gmap string cell))
  : list (gmap string cell) :=
  flat_map
    (join_rows ["listing_id"; "date"; "listing_sk"; "host_id"; "host_sk"]
       ["date_sk"; "full_date"] [] ["date"] ["full_date"]
       (project ["date_sk"; "full_date"] <$> dd))
    fs.

Definition fact_joined_rows (rs dl dh dd : list (gmap string cell))
  : list (gmap string cell) :=
  fact_date_rows (fact_host_rows (fact_listing_rows rs dl) dh) dd.

Definition fact_columns : list string :=
  ["listing_sk"; "host_sk"; "date_sk"; "review_count"].

Definition gate_row (j : gmap string cell) : gmap string cell :=
  project fact_columns (<["review_count" := Int 1]> j).

Definition fact_rows (js : list (gmap string cell)) : list (gmap string cell) :=
  List.filter (λ r, negb (has_na ["listing_sk"; "host_sk"; "date_sk"] r))
    (gate_row <$> js).

(** The text [clean_price] hands to the float conversion. *)
Definition price_text `{Scalars} (c : cell) : string :=
  let s := strip_non_price (astype_str_cell c) in
  if String.eqb s "" then "0" else s.

(** Price cleaning as the specification words it, one value at a time:
    strip every character that is not a digit or a period, read an empty
    result as 0, parse the text as a decimal number. *)
Definition clean_price_cell `{Scalars} (c : cell) : result cell :=
  match float_of_string (price_text c) with
  | Some q => Ok (Num q)
  | None => Raise (ValueError (price_text c))
  end.

Definition converted_reviews `{Scalars} (rs : list (gmap string cell))
  : list (gmap string cell) :=
  (λ r, <["date" := to_datetime_cell (cell_at "date" r)]> r) <$> rs.

Definition enriched_listings `{Scalars} (ls : list (gmap string cell))
    (prices : list cell) : list (gmap string cell) :=
  enrich_row <$> zip_with clean_row ls prices.

(** The working transform.tables of [run_transform] on validated input, given the
    cleaned prices. *)
Definition tables_of `{Scalars} (now : Z) (ls rs : list (gmap string cell))
    (prices : list cell) : transform.tables :=
  let ls' := enriched_listings ls prices in
  let rs' := converted_reviews rs in
  let dd := dim_date_rows rs' in
  let dn := dim_neighborhood_rows ls' in
  let dh := dim_host_rows now ls' in
  let dl := dim_listing_rows ls' dn in
  let js := fact_joined_rows rs' dl dh dd in
  transform.mkTables
    (mkDataFrame enriched_columns ls')
    (mkDataFrame reviews_required rs')
    (mkDataFrame dim_date_working_columns dd)
    (mkDataFrame ["neighbourhood_group"; "neighbourhood"; "neighborhood_sk"] dn)
    (mkDataFrame dim_host_working_columns dh)
    (mkDataFrame (transform.dim_listing_columns ++ ["listing_sk"]) dl)
    (mkDataFrame
       ["listing_id"; "date"; "listing_sk"; "host_id"; "host_sk"; "date_sk";
        "full_date"] js)
    (mkDataFrame fact_columns (fact_rows js)).

Definition dim_date_final_columns : list string :=
  ["date_sk"; "full_date"; "year"; "month"; "day"; "month_name";
   "day_of_week"; "day_name"].
Definition dim_neighborhood_final_columns : list string :=
  ["neighborhood_sk"; "neighbourhood_group"; "neighbourhood"].
Definition dim_host_final_columns : list string :=
  ["host_sk"; "host_id"; "host_name"; "calculated_host_listings_count";
   "valid_from"; "valid_to"; "is_current"].
Definition dim_listing_final_columns : list string :=
  ["listing_sk"; "listing_id"; "name"; "host_id"; "neighborhood_sk";
   "room_type"; "price"; "minimum_nights"; "availability_365";
   "number_of_reviews"; "reviews_per_month"; "number_of_reviews_ltm";
   "license"; "latitude"; "longitude"].

Definition snapshot (cols : list string) (df : DataFrame) : DataFrame :=
  mkDataFrame cols (project cols <$> rows df).

Definition packed (t : transform.tables) : transform.dims * transform.facts :=
  (transform.mkDims (snapshot dim_date_final_columns (transform.t_dim_date t))
     (snapshot dim_neighborhood_final_columns (transform.t_dim_neighborhood t))
     (snapshot dim_host_final_columns (transform.t_dim_host t))
     (snapshot dim_listing_final_columns (transform.t_dim_listing t)),
   transform.mkFacts (transform.t_fact_reviews t)).

(** The instant a timestamp cell holds. *)
Definition ts_of (c : cell) : Z := match c with Ts z => z | _ => 0 end.

Definition is_ts (c : string) (r : gmap string cell) : Prop :=
  ∃ z, cell_at c r = Ts z.

Definition ts_le (c : string) (a b : gmap string cell) : Prop :=
  ts_of (cell_at c a) ≤ ts_of (cell_at c b).

(** The i-th row of the frame, counted from zero, carries i+1 under [sk]. *)
Definition keyed_from_one (sk : string) (df : DataFrame) : Prop :=
  ∀ (i : nat) row,
    rows df !! i = Some row → cell_at sk row = Int (Z.of_nat i + 1).

(** The three surrogate keys of a joined review row are all present. *)
Definition resolved (j : gmap string cell) : bool :=
  negb (has_na ["listing_sk"; "host_sk"; "date_sk"] j).

(** The values a frame holds under a label. *)
Definition column (c : string) (df : DataFrame) : list cell :=
  cell_at c <$> rows df.

(** The column set the data model gives for DimListing. *)
Definition dim_listing_model_columns : list string :=
  ["listing_sk"; "listing_id"; "name"; "host_id"; "neighborhood_sk";
   "room_type"; "price"; "minimum_nights"; "availability_365";
   "number_of_reviews"; "reviews_per_month"; "number_of_reviews_ltm";
   "license"; "latitude"; "longitude"; "estimated_occupancy_rate";
   "estimated_monthly_revenue"; "price_tier"].

Definition derived_metric_columns : list string :=
  ["estimated_occupancy_rate"; "estimated_monthly_revenue"; "price_tier"].

(** The names of the checks of a report, in the order they are appended. *)
Definition check_names : list string :=
  ["listings_columns_present"; "reviews_columns_present";
   "listings_id_not_null"; "reviews_listing_id_not_null";
   "listings_id_unique"; "price_not_null_raw"; "latitude_in_range";
   "longitude_in_range"; "availability_in_range"; "reviews_listing_id_fk"].

(** The payload field of a check: its key and its count. *)
Definition payload_field (p : payload) : string * nat :=
  match p with
  | missing_columns labels => ("missing_columns", length labels)
  | null_count n => ("null_count", n)
  | duplicate_count n => ("duplicate_count", n)
  | invalid_count n => ("invalid_count", n)
  | orphan_reviews n => ("orphan_reviews", n)
  end.

(** The payload field the report holds for the check called [n]. *)
Definition check_field (n : string) (rep : report) : option (string * nat) :=
  (λ c, payload_field (detail c)) <$>
  List.find (λ c, String.eqb (name c) n) (checks rep).

(** Every surrogate key of the fact frame is present and occurs in its
    dimension. *)
Definition keys_resolved (d : transform.dims) (f : transform.facts) : bool :=
  forallb
    (λ row,
       resolved row
       && existsb (cell_eqb (cell_at "listing_sk" row))
            (column "listing_sk" (transform.dim_listing d))
       && existsb (cell_eqb (cell_at "host_sk" row))
            (column "host_sk" (transform.dim_host d))
       && existsb (cell_eqb (cell_at "date_sk" row))
            (column "date_sk" (transform.dim_date d)))
    (rows (transform.fact_reviews f)).

(** ** The end-to-end scenario *)

(** A listing whose longitude reads 200. *)
Definition longitude_200 `{Scalars} (l : gmap string cell) : bool :=
  cell_eqb (to_numeric_cell (cell_at "longitude" l)) (Num 200).

(** A price [clean_price] can read. *)
Definition price_ok `{Scalars} (l : gmap string cell) : bool :=
  match clean_price_cell (cell_at "price" l) with
  | Ok _ => true
  | Raise _ => false
  end.

(** A listing every range check accepts, with a readable price. *)
Definition valid_listing `{Scalars} (cfg : gmap string Q)
    (l : gmap string cell) : bool :=
  lat_ok cfg (coerce_numeric l) && lon_ok cfg (coerce_numeric l)
  && avail_ok cfg (coerce_numeric l) && price_ok l.

(** The review's listing id is the id of one of the listings [ls]. *)
Definition refers_to (ls : list (gmap string cell)) (r : gmap string cell)
  : bool :=
  existsb (cell_eqb (cell_at "listing_id" r)) (cell_at "id" <$> ls).

(** A review date [to_datetime] can read. *)
Definition date_ok `{Scalars} (r : gmap string cell) : bool :=
  match to_datetime_cell (cell_at "date" r) with
  | Ts _ => true
  | _ => false
  end.

(** No two rows agree on the columns [cols]. *)
Fixpoint all_distinct (cols : list string) (rs : list (gmap string cell))
  : bool :=
  match rs with
  | [] => true
  | r :: rs' =>
      negb (existsb (λ y, key_eqb (row_key cols y) (row_key cols r)) rs')
      && all_distinct cols rs'
  end.

(** The end-to-end outcome: validation keeps two listings and four
    reviews and reports one longitude out of range and one orphan review;
    the transform then gives two listing rows and four fact rows with every
    key resolved. *)
Definition scenario_outcome `{Scalars} (cfg : gmap string Q) (now : Z)
    (L R : DataFrame) : Prop :=
  ∃ L' R' rep d f,
    validate.run_validate cfg L R = Ok (L', R', rep) ∧
    length (rows L') = 2%nat ∧
    length (rows R') = 4%nat ∧
    check_field "longitude_in_range" rep = Some ("invalid_count", 1%nat) ∧
    check_field "reviews_listing_id_fk" rep = Some ("orphan_reviews", 1%nat) ∧
    transform.run_transform now L' R' = Ok (d, f) ∧
    length (rows (transform.dim_listing d)) = 2%nat ∧
    length (rows (transform.fact_reviews f)) = 4%nat ∧
    keys_resolved d f = true.

(** ** The sample extract through the pipeline *)
Module sample_run.
Import sample.

(** Midnight of 2018-11-04, in nanoseconds since the epoch, and of the day
    after. *)
Definition run_date : Z := 17839 * ns_per_day.
Definition next_day : Z := run_date + ns_per_day.

(** The tables of a run on the validated sample at the instant [now]. *)
Definition working_at (now : Z) : transform.tables :=
  tables_of now (rows validated.1) (rows validated.2)
    [Num (2469 # 2); Num 0].

Definition loaded_at (now : Z) : transform.dims * transform.facts :=
  packed (working_at now).

Definition working : transform.tables := working_at run_date.
Definition loaded : transform.dims * transform.facts := loaded_at run_date.

(** The run on the sample whose reviews include one of the listing of
    longitude 200. *)
Definition loaded_of_dropped_listing : transform.dims * transform.facts :=
  match transform.run_transform run_date checked_of_dropped_listing.1.1
          checked_of_dropped_listing.1.2 with
  | Ok out => out
  | Raise _ => loaded
  end.

End sample_run.

(** The count the report holds for the check called [n]; 0 when the report
    has no such check. *)
Definition report_count (n : string) (rep : report) : nat :=
  from_option snd 0%nat (check_field n rep).


(** The number of periods of a text. *)
Definition periods (s : string) : nat :=
  length (List.filter is_period (list_ascii_of_string s)).


(** ** The load stage

    [src/pipeline/load.py].  The warehouse is a store of tables by name,
    each table the list of the rows it holds.  [TRUNCATE TABLE] empties the
    tables it names and fails when one of them does not exist;
    [df.to_sql(name, if_exists="append", index=False)] adds the rows of the
    frame, read on the frame's columns, after the rows the table holds and
    creates the table when there is none.  The whole load runs in one
    transaction ([engine.begin()]): a failure leaves the warehouse as it
    was, so a failed load returns the error alone.  What the database
    checks on its own (column types, keys and constraints of the schema,
    which is not part of the sources) is outside this model. *)
(** The rows one table holds. *)
Definition table_rows : Type := list (gmap string cell).

Inductive load_error : Type :=
  | ConfigKeyError (key : string)
  | UndefinedTable (table : string).

Module load.

(** [tables_cfg[key]]. *)
Definition table_name (tables_cfg : gmap string string) (key : string)
  : load_error + string :=
  match tables_cfg !! key with
  | Some table => inr table
  | None => inl (ConfigKeyError key)
  end.

(** [TRUNCATE TABLE t1, ..., tn RESTART IDENTITY CASCADE] on the named
    tables: each must exist and is emptied.  CASCADE empties as well every
    other table that holds a foreign key to one of them; the schema is not
    part of the sources and such tables are not modelled, so nothing is
    claimed here of the rows of a table the load does not name. *)
Fixpoint truncate (tables : list string) (db : gmap string table_rows)
  : load_error + gmap string table_rows :=
  match tables with
  | [] => inr db
  | table :: tables' =>
      match db !! table with
      | Some _ => truncate tables' (<[table := []]> db)
      | None => inl (UndefinedTable table)
      end
  end.

(** The rows a frame writes: its cells under its own columns. *)
Definition records (df : DataFrame) : list (gmap string cell) :=
  project (columns df) <$> rows df.

(** [df.to_sql(table, conn, if_exists="append", index=False)] when the
    database accepts the rows.  An insert the database refuses (a column
    the table lacks, a constraint, a type, the connection) is not
    modelled: the model's load can succeed where the real one fails, never
    the other way round. *)
Definition to_sql (table : string) (df : DataFrame) (db : gmap string table_rows)
  : gmap string table_rows :=
  <[table := default [] (db !! table) ++ records df]> db.

Definition run_load (tables_cfg : gmap string string)
    (dims : transform.dims) (facts : transform.facts) (db : gmap string table_rows)
  : load_error + gmap string table_rows :=
  match table_name tables_cfg "fact_reviews" with
  | inl e => inl e
  | inr fact =>
  match table_name tables_cfg "dim_listing" with
  | inl e => inl e
  | inr dim_listing =>
  match table_name tables_cfg "dim_host" with
  | inl e => inl e
  | inr dim_host =>
  match table_name tables_cfg "dim_neighborhood" with
  | inl e => inl e
  | inr dim_neighborhood =>
  match table_name tables_cfg "dim_date" with
  | inl e => inl e
  | inr dim_date =>
  match truncate [fact; dim_listing; dim_host; dim_neighborhood; dim_date] db
  with
  | inl e => inl e
  | inr db =>
      let db := to_sql dim_date (transform.dim_date dims) db in
      let db := to_sql dim_neighborhood (transform.dim_neighborhood dims) db in
      let db := to_sql dim_host (transform.dim_host dims) db in
      let db := to_sql dim_listing (transform.dim_listing dims) db in
      let db := to_sql fact (transform.fact_reviews facts) db in
      inr db
  end end end end end end.

End load.

(** The five table keys of the configuration, in the order the load reads
    them. *)
Definition table_keys : list string :=
  ["fact_reviews"; "dim_listing"; "dim_host"; "dim_neighborhood"; "dim_date"].


(** ** Small inputs for the price reader and the load stage *)
Module sample_extra.
Import sample sample_run.

(** A price column: a formatted price, a missing one, a negative one. *)
Definition price_series : list cell := [Str "$1,234.50"; NA; Str "-12.50"].

(** The table names of [config/config.yaml]: every key names the table of
    the same name. *)
Definition tables_cfg : gmap string string :=
  list_to_map
    [("fact_reviews", "fact_reviews"); ("dim_listing", "dim_listing");
     ("dim_host", "dim_host"); ("dim_neighborhood", "dim_neighborhood");
     ("dim_date", "dim_date")].

(** A frame of one column. *)
Definition column_frame (c : string) (values : list cell) : DataFrame :=
  mkDataFrame [c] ((λ v, {[c := v]}) <$> values).

Definition small_dims : transform.dims :=
  transform.mkDims
    (column_frame "date_sk" [Int 1; Int 2])
    (column_frame "neighborhood_sk" [Int 1])
    (column_frame "host_sk" [Int 1])
    (column_frame "listing_sk" [Int 1; Int 2]).

Definition small_facts : transform.facts :=
  transform.mkFacts (column_frame "listing_sk" [Int 2; Int 1; Int 2]).

(** A warehouse that holds the rows of an earlier load and a table the
    load does not name. *)
Definition stale : gmap string table_rows :=
  list_to_map
    [("fact_reviews", [{["listing_sk" := Int 7]}]);
     ("dim_listing", [{["listing_sk" := Int 7]}]);
     ("dim_host", []); ("dim_neighborhood", []); ("dim_date", []);
     ("staging", [{["listing_sk" := Int 7]}])].

(** The warehouse after a load of the small frames. *)
Definition refreshed : gmap string table_rows :=
  match load.run_load tables_cfg small_dims small_facts stale with
  | inr db => db
  | inl _ => ∅
  end.

End sample_extra.

(** Pairwise distinct keys. *)
Inductive distinct_keys (cols : list string)
  : list (gmap string cell) → Prop :=
  | distinct_nil : distinct_keys cols []
  | distinct_cons r rs :
      (∀ y, y ∈ rs → key_eqb (row_key cols y) (row_key cols r) = false) →
      distinct_keys cols rs →
      distinct_keys cols (r :: rs).

(** * Properties *)

(** ** The error monad *)

Lemma bind_Ok {A B} (m : result A) (f : A → result B) (b : B) :
  m ≫= f = Ok b → ∃ a, m = Ok a ∧ f a = Ok b.
Proof. destruct m; cbn; [eauto | discriminate]. Qed.

Lemma bind_step {A B} (m : result A) (a : A) (f : A → result B) :
  m = Ok a → m ≫= f = f a.
Proof. by intros ->. Qed.

Lemma mapR_Ok_Forall2 {A B} (f : A → result B) (l : list A) (k : list B) :
  mapR f l = Ok k ↔ Forall2 (λ x y, f x = Ok y) l k.
Proof.
  revert k. induction l as [|x l IH]; intros k; cbn.
  - split; [intros [= <-]; constructor | by inversion 1].
  - split.
    + intros (y & Hy & Hk)%bind_Ok. apply bind_Ok in Hk as (ys & Hys & [= <-]).
      constructor; [done | by apply IH].
    + inversion 1 as [|? y ? ys Hy Hys]; subst. rewrite Hy; cbn.
      apply IH in Hys. by rewrite Hys.
Qed.

Lemma mapR_fmap {A B C} (f : B → result C) (g : A → B) (l : list A) :
  mapR f (g <$> l) = mapR (λ x, f (g x)) l.
Proof. induction l as [|x l IH]; cbn; [done | by rewrite IH]. Qed.

(** Invert a chain of binds that ends in [Ok]. *)
Ltac inv_ok H :=
  repeat
    match type of H with
    | _ ≫= _ = Ok _ =>
        let a := fresh "v" in
        let Ha := fresh "Hv" in
        apply bind_Ok in H as (a & Ha & H)
    end.

(** ** Cells and keys *)

Lemma cell_eqb_refl (a : cell) : cell_eqb a a = true.
Proof.
  destruct a; cbn; auto.
  - apply Qeq_bool_iff. reflexivity.
  - apply String.eqb_refl.
  - apply Z.eqb_refl.
  - by destruct b.
Qed.

Lemma cell_eqb_sym (a b : cell) : cell_eqb a b = cell_eqb b a.
Proof.
  destruct a, b; cbn; auto.
  - apply eq_true_iff_eq. rewrite !Qeq_bool_iff. split; intros ->; reflexivity.
  - apply String.eqb_sym.
  - apply Z.eqb_sym.
  - by destruct b, b0.
Qed.

Lemma cell_eqb_trans (a b c : cell) :
  cell_eqb a b = true → cell_eqb b c = true → cell_eqb a c = true.
Proof.
  destruct a, b, c; cbn; try done.
  - rewrite !Qeq_bool_iff. intros -> ->. reflexivity.
  - rewrite !String.eqb_eq. congruence.
  - rewrite !Z.eqb_eq. congruence.
  - destruct b, b0, b1; done.
Qed.

Lemma cell_eqb_na_l (a : cell) : cell_eqb NA a = true → a = NA.
Proof. by destruct a. Qed.

Lemma key_eqb_refl (k : list cell) : key_eqb k k = true.
Proof. induction k; cbn; [done|]. by rewrite cell_eqb_refl. Qed.

Lemma key_eqb_sym (k1 k2 : list cell) : key_eqb k1 k2 = key_eqb k2 k1.
Proof.
  revert k2. induction k1 as [|a k1 IH]; intros [|b k2]; cbn; try done.
  by rewrite cell_eqb_sym, IH.
Qed.

Lemma key_eqb_trans (k1 k2 k3 : list cell) :
  key_eqb k1 k2 = true → key_eqb k2 k3 = true → key_eqb k1 k3 = true.
Proof.
  revert k2 k3. induction k1 as [|a k1 IH]; intros [|b k2] [|c k3]; cbn; try done.
  rewrite !andb_true_iff. intros [? ?] [? ?]. split.
  - by eapply cell_eqb_trans.
  - by eapply IH.
Qed.

(** ** Columns, series and masks *)

Lemma label_in_spec (c : string) (labels : list string) :
  label_in c labels = true ↔ c ∈ labels.
Proof.
  unfold label_in. rewrite existsb_exists. split.
  - intros (x & Hx & ->%String.eqb_eq). by apply list_elem_of_In.
  - intros Hc. exists c. split; [by apply list_elem_of_In | apply String.eqb_refl].
Qed.

Lemma missing_labels_nil (cols : list string) (df : DataFrame) :
  missing_labels cols df = [] ↔ ∀ c, c ∈ cols → c ∈ columns df.
Proof.
  unfold missing_labels. induction cols as [|c cols IH]; cbn.
  - split; [intros _ c Hc; by apply not_elem_of_nil in Hc | done].
  - destruct (label_in c (columns df)) eqn:E; cbn.
    + rewrite IH. apply label_in_spec in E. split.
      * intros Hall x [->|Hx]%elem_of_cons; auto.
      * intros Hall x Hx. apply Hall. by right.
    + split; [done|]. intros Hall. exfalso.
      assert (label_in c (columns df) = true) as E'
        by (apply label_in_spec, Hall; by left).
      congruence.
Qed.

Lemma fmap_fmap {A B C} (f : A → B) (g : B → C) (l : list A) :
  g <$> (f <$> l) = (λ x, g (f x)) <$> l.
Proof. by rewrite <- list_fmap_compose. Qed.

Lemma zip_with_fmap_same {A B C} (f : A → B → C) (g : A → B) (l : list A) :
  zip_with f l (g <$> l) = (λ x, f x (g x)) <$> l.
Proof. induction l; cbn; congruence. Qed.

Lemma zip_with_fmap_both {A B C D} (f : B → C → D) (g : A → B) (h : A → C)
    (l : list A) :
  zip_with f (g <$> l) (h <$> l) = (λ x, f (g x) (h x)) <$> l.
Proof. induction l; cbn; congruence. Qed.

Lemma filter_zip_fmap {A} (f : A → bool) (l : list A) :
  fst <$> List.filter snd (zip l (f <$> l)) = List.filter f l.
Proof.
  induction l as [|x l IH]; cbn; [done|]. destruct (f x); cbn; congruence.
Qed.

Lemma filter_none_bad {A} (bad : A → bool) (l : list A) :
  (length (List.filter bad l) ≤ 0)%nat → List.filter (λ x, negb (bad x)) l = l.
Proof.
  intros Hle. apply forallb_filter_id, forallb_forall. intros x Hx.
  destruct (bad x) eqn:E; [|done]. exfalso.
  assert (In x (List.filter bad l)) as Hin by (apply filter_In; auto).
  destruct (List.filter bad l); [done | cbn in Hle; lia].
Qed.

Lemma mask_sum_fmap {A} (f : A → bool) (l : list A) :
  mask_sum (f <$> l) = length (List.filter f l).
Proof.
  unfold mask_sum. induction l as [|x l IH]; cbn; [done|].
  destruct (f x); cbn; congruence.
Qed.

Lemma mask_not_fmap {A} (f : A → bool) (l : list A) :
  mask_not (f <$> l) = (λ x, negb (f x)) <$> l.
Proof. apply fmap_fmap. Qed.

Lemma mask_or_fmap {A} (f g : A → bool) (l : list A) :
  mask_or (f <$> l) (g <$> l) = (λ x, f x || g x) <$> l.
Proof. apply zip_with_fmap_both. Qed.

Lemma isna_fmap {A} (f : A → cell) (l : list A) :
  isna (f <$> l) = (λ x, is_na (f x)) <$> l.
Proof. apply fmap_fmap. Qed.

Lemma between_fmap {A} (lo hi : Q) (f : A → cell) (l : list A) :
  between lo hi (f <$> l) = (λ x, between_cell lo hi (f x)) <$> l.
Proof. apply fmap_fmap. Qed.

Lemma isin_fmap {A} (vs : list cell) (f : A → cell) (l : list A) :
  isin vs (f <$> l) = (λ x, existsb (cell_eqb (f x)) vs) <$> l.
Proof. apply fmap_fmap. Qed.

Lemma to_numeric_fmap `{Scalars} {A} (f : A → cell) (l : list A) :
  to_numeric (f <$> l) = (λ x, to_numeric_cell (f x)) <$> l.
Proof. apply fmap_fmap. Qed.

Lemma to_datetime_fmap `{Scalars} {A} (f : A → cell) (l : list A) :
  to_datetime (f <$> l) = (λ x, to_datetime_cell (f x)) <$> l.
Proof. apply fmap_fmap. Qed.

Lemma fillna_fmap {A} (v : cell) (f : A → cell) (l : list A) :
  fillna v (f <$> l) = (λ x, fillna_cell v (f x)) <$> l.
Proof. apply fmap_fmap. Qed.

(** ** Rows *)
Lemma cell_at_insert (c : string) (v : cell) (r : gmap string cell) :
  cell_at c (<[c := v]> r) = v.
Proof. unfold cell_at. by rewrite lookup_insert_eq. Qed.

Lemma cell_at_insert_ne (c c' : string) (v : cell) (r : gmap string cell) :
  c' ≠ c → cell_at c (<[c' := v]> r) = cell_at c r.
Proof. intros Hne. unfold cell_at. by rewrite lookup_insert_ne. Qed.

Lemma lookup_project (cols : list string) (r : gmap string cell) (c : string) :
  project cols r !! c = if label_in c cols then Some (cell_at c r) else None.
Proof.
  unfold project. induction cols as [|x cols IH]; cbn; [done|].
  destruct (String.eqb_spec c x) as [->|Hne]; cbn.
  - by rewrite lookup_insert_eq.
  - rewrite lookup_insert_ne by done. apply IH.
Qed.

Lemma cell_at_project (cols : list string) (r : gmap string cell) (c : string) :
  label_in c cols = true → cell_at c (project cols r) = cell_at c r.
Proof. intros Hc. unfold cell_at at 1. by rewrite lookup_project, Hc. Qed.

Lemma row_key_project (cols sub : list string) (r : gmap string cell) :
  forallb (λ c, label_in c cols) sub = true →
  row_key sub (project cols r) = row_key sub r.
Proof.
  unfold row_key. induction sub as [|c sub IH]; cbn; [done|].
  intros [Hc Hs]%andb_true_iff. by rewrite cell_at_project, IH.
Qed.

(** ** Keeping first occurrences *)

Lemma dedup_from_sublist cols seen rs : sublist (dedup_from cols seen rs) rs.
Proof.
  revert seen. induction rs as [|r rs IH]; intros seen; cbn; [constructor|].
  destruct (existsb _ seen); [apply sublist_cons | apply sublist_skip]; apply IH.
Qed.

Lemma dedup_from_elem_of cols seen rs x :
  x ∈ dedup_from cols seen rs → x ∈ rs.
Proof. intros Hx. eapply elem_of_sublist; [done | apply dedup_from_sublist]. Qed.

Lemma dedup_from_fresh cols seen rs x :
  x ∈ dedup_from cols seen rs →
  existsb (key_eqb (row_key cols x)) seen = false.
Proof.
  revert seen. induction rs as [|r rs IH]; intros seen; cbn.
  - by intros ?%not_elem_of_nil.
  - destruct (existsb (key_eqb (row_key cols r)) seen) eqn:E.
    + apply IH.
    + intros [->|Hx]%elem_of_cons; [done|].
      apply IH in Hx. cbn in Hx. by apply orb_false_iff in Hx as [_ ?].
Qed.

(** Every input row is represented in the output by a row with an equal
    key, unless its key was seen before. *)
Lemma dedup_from_complete cols seen rs x :
  x ∈ rs →
  existsb (key_eqb (row_key cols x)) seen = true ∨
  ∃ y, y ∈ dedup_from cols seen rs ∧
       key_eqb (row_key cols x) (row_key cols y) = true.
Proof.
  revert seen. induction rs as [|r rs IH]; intros seen; cbn.
  - by intros ?%not_elem_of_nil.
  - intros [->|Hx]%elem_of_cons.
    + destruct (existsb (key_eqb (row_key cols r)) seen) eqn:E; [by left|].
      right. exists r. split; [by left | apply key_eqb_refl].
    + destruct (existsb (key_eqb (row_key cols r)) seen) eqn:E.
      * apply IH, Hx.
      * destruct (IH (row_key cols r :: seen) Hx) as [Hs|(y & Hy & Hk)].
        -- cbn in Hs. apply orb_true_iff in Hs as [Hr|Hs]; [|by left].
           right. exists r. split; [by left | done].
        -- right. exists y. split; [by right | done].
Qed.

Lemma dedup_from_distinct cols seen rs :
  distinct_keys cols (dedup_from cols seen rs).
Proof.
  revert seen. induction rs as [|r rs IH]; intros seen; cbn; [constructor|].
  destruct (existsb (key_eqb (row_key cols r)) seen) eqn:E; [apply IH|].
  constructor; [|apply IH].
  intros y Hy. apply dedup_from_fresh in Hy. cbn in Hy.
  by apply orb_false_iff in Hy as [? _].
Qed.

Lemma distinct_keys_sublist cols rs rs' :
  sublist rs' rs → distinct_keys cols rs → distinct_keys cols rs'.
Proof.
  induction 1 as [|x l1 l2 Hs IH|x l1 l2 Hs IH]; intros Hd.
  - constructor.
  - inversion Hd as [|? ? Hx Hd']; subst. constructor; [|by apply IH].
    intros y Hy. apply Hx. by eapply elem_of_sublist.
  - inversion Hd; subst. by apply IH.
Qed.

Lemma distinct_keys_filter cols (f : gmap string cell → bool) rs :
  distinct_keys cols rs → distinct_keys cols (List.filter f rs).
Proof.
  induction 1 as [|r rs Hr Hd IH]; cbn; [constructor|].
  destruct (f r); [|done]. constructor; [|done].
  intros y Hy. apply Hr. apply list_elem_of_In in Hy. apply filter_In in Hy as [Hy _].
  by apply list_elem_of_In.
Qed.

Lemma distinct_keys_fmap cols cols' (f : gmap string cell → gmap string cell) rs :
  (∀ r, row_key cols' (f r) = row_key cols r) →
  distinct_keys cols rs → distinct_keys cols' (f <$> rs).
Proof.
  intros Hf. induction 1 as [|r rs Hr Hd IH]; cbn; [constructor|].
  constructor; [|done].
  intros y (y' & -> & Hy')%list_elem_of_fmap. rewrite !Hf. by apply Hr.
Qed.


(** ** Frames in constructor form *)

Lemma getitem_cols_present (cols : list string) (df : DataFrame) :
  missing_labels cols df = [] →
  getitem_cols cols df = Ok (mkDataFrame cols (project cols <$> rows df)).
Proof. unfold getitem_cols. by intros ->. Qed.

Lemma getitem_cols_Ok (cols : list string) (df df' : DataFrame) :
  getitem_cols cols df = Ok df' →
  missing_labels cols df = [] ∧
  df' = mkDataFrame cols (project cols <$> rows df).
Proof.
  unfold getitem_cols. destruct (missing_labels cols df); [|done].
  by intros [= <-].
Qed.

Lemma getitem_cols_missing (cols : list string) (df : DataFrame) :
  missing_labels cols df ≠ [] →
  getitem_cols cols df = Raise (KeyError (missing_labels cols df)).
Proof. unfold getitem_cols. by destruct (missing_labels cols df). Qed.

Lemma getitem_mk (c : string) (cols : list string) rs :
  label_in c cols = true →
  getitem c (mkDataFrame cols rs) = Ok (cell_at c <$> rs).
Proof. unfold getitem; cbn [columns rows]. by intros ->. Qed.

Lemma getitem_Ok (c : string) (df : DataFrame) (s : list cell) :
  getitem c df = Ok s → label_in c (columns df) = true ∧ s = cell_at c <$> rows df.
Proof. unfold getitem. destruct (label_in c (columns df)); [|done]. by intros [= <-]. Qed.

Lemma setitem_zip (c : string) (s : list cell) cols rs :
  length s = length rs →
  setitem c s (mkDataFrame cols rs) =
  Ok (mkDataFrame (with_label c cols) (zip_with (λ r v, <[c := v]> r) rs s)).
Proof. intros Hl. unfold setitem; cbn [columns rows]. by rewrite Hl, Nat.eqb_refl. Qed.

Lemma setitem_mk (c : string) (g : gmap string cell → cell) cols rs :
  setitem c (g <$> rs) (mkDataFrame cols rs) =
  Ok (mkDataFrame (with_label c cols) ((λ r, <[c := g r]> r) <$> rs)).
Proof.
  rewrite setitem_zip by apply length_fmap. by rewrite zip_with_fmap_same.
Qed.

Lemma setitem_Ok (c : string) (s : list cell) (df df' : DataFrame) :
  setitem c s df = Ok df' →
  length s = length (rows df) ∧
  df' = mkDataFrame (with_label c (columns df))
          (zip_with (λ r v, <[c := v]> r) (rows df) s).
Proof.
  unfold setitem. destruct (Nat.eqb_spec (length s) (length (rows df))); [|done].
  by intros [= <-].
Qed.

Lemma getitem_mask_fmap (f : gmap string cell → bool) cols rs :
  getitem_mask (f <$> rs) (mkDataFrame cols rs) =
  Ok (mkDataFrame cols (List.filter f rs)).
Proof.
  unfold getitem_mask; cbn [columns rows].
  by rewrite length_fmap, Nat.eqb_refl, filter_zip_fmap.
Qed.

Lemma drop_if_any (bad : gmap string cell → bool) cols rs :
  (if Nat.ltb 0 (mask_sum (bad <$> rs))
   then Ok (mkDataFrame cols (List.filter (λ r, negb (bad r)) rs))
   else Ok (mkDataFrame cols rs))
  = Ok (mkDataFrame cols (List.filter (λ r, negb (bad r)) rs)).
Proof.
  rewrite mask_sum_fmap.
  destruct (Nat.ltb_spec 0 (length (List.filter bad rs))) as [|Hle]; [done|].
  by rewrite filter_none_bad.
Qed.

Lemma keep_if_any (ok : gmap string cell → bool) cols rs :
  (if Nat.ltb 0 (mask_sum ((λ r, negb (ok r)) <$> rs))
   then Ok (mkDataFrame cols (List.filter ok rs))
   else Ok (mkDataFrame cols rs))
  = Ok (mkDataFrame cols (List.filter ok rs)).
Proof.
  rewrite mask_sum_fmap.
  destruct (Nat.ltb_spec 0 (length (List.filter (λ r, negb (ok r)) rs)))
    as [|Hle]; [done|].
  do 2 f_equal. rewrite <- (filter_none_bad (λ r, negb (ok r)) rs Hle) at 1.
  apply filter_ext. intros a. by destruct (ok a).
Qed.

Lemma drop_duplicates_subset_mk (sub cols : list string) rs :
  missing_labels sub (mkDataFrame cols rs) = [] →
  drop_duplicates_subset sub (mkDataFrame cols rs) =
  Ok (mkDataFrame cols (dedup_from sub [] rs)).
Proof. unfold drop_duplicates_subset. by intros ->. Qed.


Lemma length_index_cells (n : nat) : length (index_cells n) = n.
Proof. unfold index_cells. by rewrite length_fmap, length_seq. Qed.

Lemma setitem_index (c : string) cols rs :
  setitem c (index_plus_1 (mkDataFrame cols rs)) (mkDataFrame cols rs) =
  Ok (mkDataFrame (with_label c cols) (with_index c rs)).
Proof.
  unfold index_plus_1; cbn [rows].
  by rewrite setitem_zip by apply length_index_cells.
Qed.

Lemma setitem_scalar_mk (c : string) (v : cell) cols rs :
  setitem_scalar c v (mkDataFrame cols rs) =
  mkDataFrame (with_label c cols) ((λ r, <[c := v]> r) <$> rs).
Proof. reflexivity. Qed.

Lemma rename_mk (old new : string) cols rs :
  label_in old cols = true →
  rename old new (mkDataFrame cols rs) =
  mkDataFrame ((λ c, if String.eqb c old then new else c) <$> cols)
    (rename_row old new <$> rs).
Proof. unfold rename; cbn [columns rows]. by intros ->. Qed.

Lemma sort_values_mk (c : string) cols rs :
  label_in c cols = true →
  sort_values c (mkDataFrame cols rs) = Ok (mkDataFrame cols (sort_rows c rs)).
Proof. unfold sort_values; cbn [columns rows]. by intros ->. Qed.

Lemma drop_duplicates_mk cols rs :
  drop_duplicates (mkDataFrame cols rs) =
  mkDataFrame cols (dedup_from cols [] rs).
Proof. reflexivity. Qed.

Lemma dropna_mk cols rs :
  dropna (mkDataFrame cols rs) =
  mkDataFrame cols (List.filter (λ r, negb (has_na cols r)) rs).
Proof. reflexivity. Qed.

Lemma dropna_subset_mk (sub cols : list string) rs :
  missing_labels sub (mkDataFrame cols rs) = [] →
  dropna_subset sub (mkDataFrame cols rs) =
  Ok (mkDataFrame cols (List.filter (λ r, negb (has_na sub r)) rs)).
Proof. unfold dropna_subset. by intros ->. Qed.

Lemma reset_index_mk (df : DataFrame) : reset_index df = df.
Proof. reflexivity. Qed.

Lemma series_fmap {A} (g : cell → A) (f : gmap string cell → cell)
    (l : list (gmap string cell)) :
  g <$> (f <$> l) = (λ r, g (f r)) <$> l.
Proof. apply fmap_fmap. Qed.

Lemma check_not_null_mk `{Scalars} (c n : string) chk cols rs :
  label_in c cols = true →
  validate._check_not_null (mkDataFrame cols rs) c n chk =
  Ok (chk ++ [count_check n null_count
                (length (List.filter (λ r, is_na (cell_at c r)) rs))]).
Proof.
  intros Hc. unfold validate._check_not_null. rewrite getitem_mk by done.
  cbn [mbind result_bind]. by rewrite isna_fmap, mask_sum_fmap.
Qed.

Lemma check_unique_mk `{Scalars} (c n : string) chk cols rs :
  label_in c cols = true →
  validate._check_unique (mkDataFrame cols rs) c n chk =
  Ok (chk ++ [count_check n duplicate_count
                (mask_sum (duplicated (cell_at c <$> rs)))]).
Proof.
  intros Hc. unfold validate._check_unique. by rewrite getitem_mk by done.
Qed.

(** Bring the frame expressions of the goal to constructor form. *)
Ltac frame_rw :=
  repeat first
    [ rewrite getitem_mk by reflexivity
    | rewrite getitem_cols_present by reflexivity
    | rewrite check_not_null_mk by reflexivity
    | rewrite check_unique_mk by reflexivity
    | rewrite drop_duplicates_subset_mk by reflexivity
    | rewrite dropna_subset_mk by reflexivity
    | rewrite sort_values_mk by reflexivity
    | rewrite rename_mk by reflexivity
    | rewrite drop_duplicates_mk | rewrite dropna_mk | rewrite reset_index_mk
    | rewrite setitem_scalar_mk
    | rewrite isna_fmap | rewrite to_numeric_fmap | rewrite between_fmap
    | rewrite isin_fmap | rewrite to_datetime_fmap | rewrite fillna_fmap
    | rewrite mask_or_fmap
    | rewrite series_fmap
    | rewrite setitem_index
    | rewrite setitem_mk
    | rewrite drop_if_any | rewrite keep_if_any
    | rewrite mask_not_fmap
    | rewrite getitem_mask_fmap ].

(** Evaluate the bind at the head of the left-hand side. *)
Ltac head_step :=
  lazymatch goal with
  | |- (?m ≫= ?f) = ?rhs =>
      erewrite (bind_step m _ f); [ cbv beta | frame_rw; reflexivity ]
  end.

(** ** The validate stage in closed form *)

Section validate_facts.
Context `{Scalars}.

Lemma run_validate_closed (cfg : gmap string Q) (L R : DataFrame) :
  missing_labels listings_required L = [] →
  missing_labels reviews_required R = [] →
  validate.run_validate cfg L R =
  Ok (mkDataFrame listings_required (kept_listings cfg L),
      mkDataFrame reviews_required (kept_reviews cfg L R),
      mkReport (length (kept_listings cfg L)) (length (kept_reviews cfg L R))
        (validation_checks cfg L R)).
Proof.
  intros HL HR. unfold validate.run_validate.
  unfold validate._check_columns_present. rewrite HL, HR.
  rewrite (getitem_cols_present _ _ HL), (getitem_cols_present _ _ HR).
  cbn [mbind result_bind].
  repeat head_step.
  frame_rw. rewrite !mask_sum_fmap, !fmap_fmap.
  reflexivity.
Qed.

Lemma run_validate_missing_listings (cfg : gmap string Q) (L R : DataFrame) :
  missing_labels listings_required L ≠ [] →
  validate.run_validate cfg L R =
  Raise (KeyError (missing_labels listings_required L)).
Proof.
  intros HL. unfold validate.run_validate.
  by rewrite (getitem_cols_missing _ _ HL).
Qed.

Lemma run_validate_missing_reviews (cfg : gmap string Q) (L R : DataFrame) :
  missing_labels listings_required L = [] →
  missing_labels reviews_required R ≠ [] →
  validate.run_validate cfg L R =
  Raise (KeyError (missing_labels reviews_required R)).
Proof.
  intros HL HR. unfold validate.run_validate.
  rewrite (getitem_cols_present _ _ HL). cbn [mbind result_bind].
  by rewrite (getitem_cols_missing _ _ HR).
Qed.

End validate_facts.

(** ** The transform stage in closed form *)

Section transform_facts.
Context `{Scalars}.
Import transform.

Lemma build_dim_date_closed (R : DataFrame) :
  label_in "date" (columns R) = true →
  build_dim_date R = Ok (mkDataFrame dim_date_working_columns (dim_date_rows (rows R))).
Proof.
  intros HR. unfold build_dim_date.
  rewrite (getitem_cols_present ["date"] R) by (cbn; by rewrite HR).
  unfold dt_year, dt_month, dt_day, dt_month_name, dt_weekday, dt_day_name, add_scalar.
  cbn [mbind result_bind].
  repeat head_step. frame_rw. rewrite !fmap_fmap.
  reflexivity.
Qed.

Lemma build_dim_neighborhood_closed (L : DataFrame) :
  missing_labels ["neighbourhood_group"; "neighbourhood"] L = [] →
  build_dim_neighborhood L =
  Ok (mkDataFrame ["neighbourhood_group"; "neighbourhood"; "neighborhood_sk"] (dim_neighborhood_rows (rows L))).
Proof.
  intros HL. unfold build_dim_neighborhood.
  rewrite (getitem_cols_present _ _ HL). cbn [mbind result_bind].
  frame_rw. reflexivity.
Qed.

Lemma build_dim_host_closed (now : Z) (L : DataFrame) :
  missing_labels ["host_id"; "host_name"; "calculated_host_listings_count"] L = [] →
  build_dim_host now L =
  Ok (mkDataFrame dim_host_working_columns (dim_host_rows now (rows L))).
Proof.
  intros HL. unfold build_dim_host.
  rewrite (getitem_cols_present _ _ HL). cbn [mbind result_bind].
  repeat head_step. frame_rw. rewrite !fmap_fmap. reflexivity.
Qed.

Lemma merge_left_present lo ro (L R : DataFrame) :
  missing_labels lo L ++ missing_labels ro R = [] →
  merge_left lo ro L R =
  Ok (mkDataFrame
        ((suffixed (overlapping lo ro L R) "_x" <$> columns L) ++
         (suffixed (overlapping lo ro L R) "_y" <$> right_columns lo ro R))
        (flat_map
           (join_rows (columns L) (right_columns lo ro R) (overlapping lo ro L R)
              lo ro (rows R)) (rows L))).
Proof. unfold merge_left. by intros ->. Qed.

Lemma numeric_or_zero_mk (c : string) cols rs :
  label_in c cols = true →
  numeric_or_zero c (mkDataFrame cols rs) =
  Ok (mkDataFrame (with_label c cols) (zero_filled c <$> rs)).
Proof.
  intros Hc. unfold numeric_or_zero. rewrite getitem_mk by done.
  cbn [mbind result_bind]. frame_rw. reflexivity.
Qed.

Lemma fmap_zip_with_l {A B C D} (g : C → D) (f : A → B → C) (l : list A) (k : list B) :
  g <$> zip_with f l k = zip_with (λ x y, g (f x y)) l k.
Proof. revert k. induction l as [|x l IH]; intros [|y k]; cbn; try done. by rewrite IH. Qed.

Lemma zip_with_fmap_left {A A' B C} (f : A' → B → C) (g : A → A') (l : list A) (k : list B) :
  zip_with f (g <$> l) k = zip_with (λ x y, f (g x) y) l k.
Proof. revert k. induction l as [|x l IH]; intros [|y k]; cbn; try done. by rewrite IH. Qed.

Lemma clean_fields_closed (rs : list (gmap string cell)) (prices : list cell) :
  clean_price (cell_at "price" <$> (rename_row "id" "listing_id" <$> rs)) = Ok prices →
  length prices = length rs →
  clean_fields (mkDataFrame listings_required rs) =
  Ok (mkDataFrame cleaned_columns (zip_with clean_row rs prices)).
Proof.
  intros Hp Hlen. unfold clean_fields.
  rewrite rename_mk by reflexivity.
  rewrite getitem_mk by reflexivity. cbn [mbind result_bind].
  rewrite Hp. cbn [mbind result_bind].
  rewrite setitem_zip by (by rewrite length_fmap). cbn [mbind result_bind].
  rewrite !numeric_or_zero_mk by reflexivity. cbn [mbind result_bind].
  rewrite !numeric_or_zero_mk by reflexivity. cbn [mbind result_bind].
  rewrite !numeric_or_zero_mk by reflexivity. cbn [mbind result_bind].
  rewrite !numeric_or_zero_mk by reflexivity. cbn [mbind result_bind].
  rewrite !fmap_fmap, fmap_zip_with_l, zip_with_fmap_left. reflexivity.
Qed.

Lemma mul_series_fmap {A} (f g : A → cell) (l : list A) :
  mul_series (f <$> l) (g <$> l) = (λ x, mul_cell (f x) (g x)) <$> l.
Proof. apply zip_with_fmap_both. Qed.

Lemma feature_engineering_closed (rs : list (gmap string cell)) :
  feature_engineering (mkDataFrame cleaned_columns rs) =
  Ok (mkDataFrame enriched_columns (enrich_row <$> rs)).
Proof.
  unfold feature_engineering, clip, div_scalar, mul_scalar, classify_price_tier, cut.
  repeat (head_step; rewrite ?mul_series_fmap).
  frame_rw. rewrite !fmap_fmap.
  reflexivity.
Qed.

Lemma build_dim_listing_closed (ls dn : list (gmap string cell)) :
  build_dim_listing (mkDataFrame enriched_columns ls)
    (mkDataFrame ["neighbourhood_group"; "neighbourhood"; "neighborhood_sk"] dn) =
  Ok (mkDataFrame (dim_listing_columns ++ ["listing_sk"]) (dim_listing_rows ls dn)).
Proof.
  unfold build_dim_listing.
  erewrite bind_step; [|rewrite merge_left_present by reflexivity; reflexivity]; cbv beta.
  repeat head_step. frame_rw. reflexivity.
Qed.

Lemma join_fact_reviews_closed (rs dl dh dd : list (gmap string cell)) :
  join_fact_reviews (mkDataFrame reviews_required rs)
    (mkDataFrame (dim_listing_columns ++ ["listing_sk"]) dl)
    (mkDataFrame dim_host_working_columns dh)
    (mkDataFrame dim_date_working_columns dd) =
  Ok (mkDataFrame
        ["listing_id"; "date"; "listing_sk"; "host_id"; "host_sk"; "date_sk"; "full_date"]
        (fact_joined_rows rs dl dh dd)).
Proof.
  unfold join_fact_reviews.
  repeat (head_step || (erewrite bind_step; [|rewrite merge_left_present by reflexivity; reflexivity]; cbv beta)).
  rewrite merge_left_present by reflexivity.
  reflexivity.
Qed.

Lemma gate_fact_reviews_closed (js : list (gmap string cell)) :
  gate_fact_reviews
    (mkDataFrame
       ["listing_id"; "date"; "listing_sk"; "host_id"; "host_sk"; "date_sk"; "full_date"] js) =
  Ok (mkDataFrame fact_columns (fact_rows js)).
Proof.
  unfold gate_fact_reviews. rewrite setitem_scalar_mk.
  rewrite getitem_cols_present by reflexivity. cbn [mbind result_bind].
  rewrite dropna_subset_mk by reflexivity. cbn [rows]. rewrite fmap_fmap. reflexivity.
Qed.

Lemma clean_price_elementwise (series : list cell) :
  clean_price series = mapR clean_price_cell series.
Proof.
  unfold clean_price, astype_float, replace_value, astype_str.
  rewrite !fmap_fmap, mapR_fmap. reflexivity.
Qed.

Lemma mapR_length {A B} (f : A → result B) l k : mapR f l = Ok k → length k = length l.
Proof. intros Hm%mapR_Ok_Forall2. symmetry. by eapply Forall2_length. Qed.

Lemma cell_at_rename_row_ne old new c r :
  c ≠ old → c ≠ new → cell_at c (rename_row old new r) = cell_at c r.
Proof.
  intros H1 H2. unfold rename_row, cell_at.
  rewrite lookup_insert_ne by done. by rewrite lookup_delete_ne.
Qed.

Lemma cell_at_rename_row old new r :
  cell_at new (rename_row old new r) = cell_at old r.
Proof. unfold rename_row. apply cell_at_insert. Qed.

Lemma clean_price_renamed ls :
  clean_price (cell_at "price" <$> (rename_row "id" "listing_id" <$> ls)) =
  clean_price (cell_at "price" <$> ls).
Proof.
  rewrite fmap_fmap. f_equal. apply list_fmap_ext.
  intros i r _. by apply cell_at_rename_row_ne.
Qed.

Lemma build_tables_closed now ls rs prices :
  clean_price (cell_at "price" <$> ls) = Ok prices →
  build_tables now (mkDataFrame listings_required ls) (mkDataFrame reviews_required rs) =
  Ok (tables_of now ls rs prices).
Proof.
  intros Hp. unfold build_tables.
  rewrite (clean_fields_closed ls prices).
  2:{ by rewrite clean_price_renamed. }
  2:{ rewrite clean_price_elementwise in Hp. apply mapR_length in Hp.
      by rewrite Hp, length_fmap. }
  cbn [mbind result_bind].
  do 2 head_step.
  rewrite feature_engineering_closed. cbn [mbind result_bind].
  rewrite build_dim_date_closed by reflexivity. cbn [mbind result_bind].
  rewrite build_dim_neighborhood_closed by reflexivity. cbn [mbind result_bind].
  rewrite build_dim_host_closed by reflexivity. cbn [mbind result_bind].
  cbn [rows].
  rewrite build_dim_listing_closed. cbn [mbind result_bind].
  rewrite join_fact_reviews_closed. cbn [mbind result_bind].
  rewrite gate_fact_reviews_closed. cbn [mbind result_bind].
  reflexivity.
Qed.

Lemma frame_eta (df : DataFrame) : df = mkDataFrame (columns df) (rows df).
Proof. by destruct df. Qed.

Lemma clean_fields_raise ls e :
  clean_price (cell_at "price" <$> ls) = Raise e →
  clean_fields (mkDataFrame listings_required ls) = Raise e.
Proof.
  intros Hp. unfold clean_fields. rewrite rename_mk by reflexivity.
  erewrite bind_step; [|rewrite getitem_mk by reflexivity; reflexivity].
  cbv beta. by rewrite clean_price_renamed, Hp.
Qed.

Lemma build_tables_inv now L R t :
  columns L = listings_required → columns R = reviews_required →
  build_tables now L R = Ok t →
  ∃ prices, clean_price (cell_at "price" <$> rows L) = Ok prices ∧
            t = tables_of now (rows L) (rows R) prices.
Proof.
  intros HL HR Ht. rewrite (frame_eta L), (frame_eta R), HL, HR in Ht.
  destruct (clean_price (cell_at "price" <$> rows L)) as [prices|e] eqn:Hp.
  - exists prices. split; [done|].
    rewrite (build_tables_closed _ _ _ _ Hp) in Ht. by injection Ht.
  - exfalso. unfold build_tables in Ht.
    by rewrite (clean_fields_raise _ _ Hp) in Ht.
Qed.

Lemma pack_closed now ls rs prices :
  pack (tables_of now ls rs prices) = Ok (packed (tables_of now ls rs prices)).
Proof.
  unfold pack, tables_of. cbn [t_dim_date t_dim_neighborhood t_dim_host t_dim_listing t_fact_reviews].
  repeat head_step. reflexivity.
Qed.

Lemma run_transform_inv now L R d f :
  columns L = listings_required → columns R = reviews_required →
  run_transform now L R = Ok (d, f) →
  ∃ prices, clean_price (cell_at "price" <$> rows L) = Ok prices ∧
            build_tables now L R = Ok (tables_of now (rows L) (rows R) prices) ∧
            (d, f) = packed (tables_of now (rows L) (rows R) prices).
Proof.
  intros HL HR Hrun. unfold run_transform in Hrun.
  apply bind_Ok in Hrun as (t & Ht & Hp).
  destruct (build_tables_inv _ _ _ _ HL HR Ht) as (prices & Hpr & ->).
  exists prices. split; [done|]. split; [done|].
  rewrite pack_closed in Hp. congruence.
Qed.

End transform_facts.

(** ** Numbered rows, sorted rows, joined rows *)

(** Simplify the reading of a cell through assignments and projections. *)
Ltac cell_simpl :=
  repeat first
    [ rewrite cell_at_insert
    | rewrite cell_at_insert_ne by discriminate
    | rewrite cell_at_project by reflexivity
    | rewrite cell_at_rename_row
    | rewrite cell_at_rename_row_ne by discriminate ].

Lemma lookup_index_cells (n i : nat) :
  (i < n)%nat → index_cells n !! i = Some (Int (Z.of_nat i + 1)).
Proof.
  intros Hi. unfold index_cells. rewrite list_lookup_fmap.
  by rewrite lookup_seq_lt.
Qed.

Lemma lookup_with_index (c : string) (rs : list (gmap string cell)) (i : nat) :
  with_index c rs !! i = (λ r, <[c := Int (Z.of_nat i + 1)]> r) <$> rs !! i.
Proof.
  unfold with_index. rewrite lookup_zip_with.
  destruct (rs !! i) as [r|] eqn:Hr; cbn; [|done].
  apply lookup_lt_Some in Hr. by rewrite lookup_index_cells.
Qed.

Lemma length_with_index (c : string) (rs : list (gmap string cell)) :
  length (with_index c rs) = length rs.
Proof.
  unfold with_index. rewrite length_zip_with, length_index_cells. lia.
Qed.

Lemma elem_of_with_index (c : string) (rs : list (gmap string cell)) x :
  x ∈ with_index c rs →
  ∃ (i : nat) r, rs !! i = Some r ∧ x = <[c := Int (Z.of_nat i + 1)]> r.
Proof.
  intros (i & Hi)%list_elem_of_lookup. rewrite lookup_with_index in Hi.
  destruct (rs !! i) as [r|] eqn:Hr; [|done]. injection Hi as <-. eauto.
Qed.

Lemma with_index_of_elem (c : string) (rs : list (gmap string cell)) r :
  r ∈ rs → ∃ i : nat, <[c := Int (Z.of_nat i + 1)]> r ∈ with_index c rs.
Proof.
  intros (i & Hi)%list_elem_of_lookup. exists i.
  apply list_elem_of_lookup. exists i. by rewrite lookup_with_index, Hi.
Qed.

(** ** Sorting a timestamp column *)

Lemma insert_sorted_perm c r rs : insert_sorted c r rs ≡ₚ r :: rs.
Proof.
  induction rs as [|r' rs IH]; cbn; [done|].
  destruct (cell_leb _ _); [done|]. rewrite IH. apply perm_swap.
Qed.

Lemma sort_rows_perm c rs : sort_rows c rs ≡ₚ rs.
Proof.
  unfold sort_rows. induction rs as [|r rs IH]; cbn; [done|].
  by rewrite insert_sorted_perm, IH.
Qed.

Lemma insert_sorted_sorted c r rs :
  is_ts c r → Forall (is_ts c) rs →
  StronglySorted (ts_le c) rs → StronglySorted (ts_le c) (insert_sorted c r rs).
Proof.
  intros [z Hz] Hall Hs. induction Hs as [|r' rs Hs IH Hr']; cbn.
  - repeat constructor.
  - apply Forall_cons in Hall as [[z' Hz'] Hall].
    destruct (cell_leb (cell_at c r) (cell_at c r')) eqn:E.
    + constructor; [by constructor|].
      rewrite Hz, Hz' in E. cbn in E. apply Z.leb_le in E.
      constructor.
      * unfold ts_le. by rewrite Hz, Hz'.
      * eapply Forall_impl; [exact Hr'|]. intros x Hx. unfold ts_le in *.
        rewrite Hz. rewrite Hz' in Hx. cbn in *. lia.
    + constructor; [by apply IH|].
      rewrite Hz, Hz' in E. cbn in E. apply Z.leb_gt in E.
      rewrite insert_sorted_perm. constructor; [|done].
      unfold ts_le. rewrite Hz, Hz'. cbn. lia.
Qed.

Lemma sort_rows_sorted c rs :
  Forall (is_ts c) rs → StronglySorted (ts_le c) (sort_rows c rs).
Proof.
  unfold sort_rows. induction 1 as [|r rs Hr Hall IH]; cbn; [constructor|].
  apply insert_sorted_sorted; [done| |done].
  fold (sort_rows c rs). by rewrite sort_rows_perm.
Qed.

Lemma StronglySorted_le_lt (zs : list Z) :
  StronglySorted Z.le zs → NoDup zs → StronglySorted Z.lt zs.
Proof.
  induction 1 as [|z zs Hs IH Hz]; intros Hnd; [constructor|].
  apply NoDup_cons in Hnd as [Hnin Hnd]. constructor; [by apply IH|].
  apply Forall_forall. intros x Hx.
  assert (z ≤ x) by (eapply Forall_forall in Hz; eauto).
  assert (z ≠ x) by (intros ->; done). lia.
Qed.

Lemma distinct_keys_ts_NoDup c rs :
  Forall (is_ts c) rs → distinct_keys [c] rs →
  NoDup ((λ r, ts_of (cell_at c r)) <$> rs).
Proof.
  intros Hall Hd. induction Hd as [|r rs Hr Hd IH]; cbn; [constructor|].
  apply Forall_cons in Hall as [[z Hz] Hall].
  constructor; [|by apply IH].
  intros (y & Hy & Hin)%list_elem_of_fmap.
  specialize (Hr y Hin). eapply Forall_forall in Hall as [z' Hz']; [|done].
  unfold row_key in Hr. cbn in Hr. rewrite Hz, Hz' in Hr, Hy. cbn in Hr, Hy.
  subst z'. by rewrite Z.eqb_refl in Hr.
Qed.

(** ** Rows of a left join *)

Lemma elem_of_partners lo ro rs l r :
  r ∈ partners lo ro rs l ↔
  r ∈ rs ∧ key_eqb (row_key lo l) (row_key ro r) = true.
Proof.
  unfold partners. rewrite list_elem_of_In, filter_In, <- list_elem_of_In. done.
Qed.

Lemma elem_of_join_rows lc rc ov lo ro rs l x :
  x ∈ join_rows lc rc ov lo ro rs l →
  (partners lo ro rs l = [] ∧ x = join_row lc rc ov l None) ∨
  (∃ r, r ∈ partners lo ro rs l ∧ x = join_row lc rc ov l (Some r)).
Proof.
  unfold join_rows. destruct (partners lo ro rs l) as [|p ps] eqn:E.
  - intros ->%list_elem_of_singleton. by left.
  - intros (r & -> & Hr)%list_elem_of_fmap. right. eauto.
Qed.

Lemma join_rows_of_partner lc rc ov lo ro rs l r :
  r ∈ partners lo ro rs l →
  join_row lc rc ov l (Some r) ∈ join_rows lc rc ov lo ro rs l.
Proof.
  unfold join_rows. destruct (partners lo ro rs l) as [|p ps] eqn:E.
  - by intros ?%not_elem_of_nil.
  - intros Hr. by apply (list_elem_of_fmap_2 (join_row lc rc ov l ∘ Some)).
Qed.

Lemma join_rows_nonempty lc rc ov lo ro rs l :
  ∃ x, x ∈ join_rows lc rc ov lo ro rs l.
Proof.
  unfold join_rows. destruct (partners lo ro rs l) as [|p ps].
  - eexists. by left.
  - eexists. cbn. by left.
Qed.

Lemma elem_of_flat_map {A B} (f : A → list B) (l : list A) (y : B) :
  y ∈ flat_map f l ↔ ∃ x, x ∈ l ∧ y ∈ f x.
Proof.
  rewrite list_elem_of_In, in_flat_map. split.
  - intros (x & Hx & Hy). exists x. by rewrite !list_elem_of_In.
  - intros (x & Hx & Hy). exists x. by rewrite <- !list_elem_of_In.
Qed.

Lemma lookup_labelled (f : string → cell) (ls : list string)
    (rest : list (string * cell)) (c : string) :
  (list_to_map (((λ x, (x, f x)) <$> ls) ++ rest) : gmap string cell) !! c =
  if label_in c ls then Some (f c)
  else (list_to_map rest : gmap string cell) !! c.
Proof.
  induction ls as [|x ls IH]; [done|].
  change (label_in c (x :: ls)) with (String.eqb c x || label_in c ls).
  cbn [fmap list_fmap app list_to_map foldr uncurry fst snd].
  destruct (String.eqb_spec c x) as [->|Hne]; cbn [orb].
  - cbn. by rewrite lookup_insert_eq.
  - cbn. rewrite lookup_insert_ne by done. apply IH.
Qed.

(** Reading a joined row when no label needed a suffix. *)
Lemma lookup_join_row lc rc l r c :
  join_row lc rc [] l r !! c =
  if label_in c lc then Some (cell_at c l)
  else if label_in c rc
       then Some (match r with Some r' => cell_at c r' | None => NA end)
       else None.
Proof.
  unfold join_row.
  change (λ c0, (suffixed [] "_x" c0, cell_at c0 l))
    with (λ c0, (c0, (λ x, cell_at x l) c0)).
  change (λ c0, (suffixed [] "_y" c0,
                 match r with Some r' => cell_at c0 r' | None => NA end))
    with (λ c0, (c0, (λ x, match r with Some r' => cell_at x r' | None => NA end) c0)).
  rewrite lookup_labelled. destruct (label_in c lc); [done|].
  rewrite <- (app_nil_r (_ <$> rc)). rewrite lookup_labelled.
  by destruct (label_in c rc).
Qed.

Lemma cell_at_join_row_l lc rc l r c :
  label_in c lc = true → cell_at c (join_row lc rc [] l r) = cell_at c l.
Proof. intros Hc. unfold cell_at at 1. by rewrite lookup_join_row, Hc. Qed.

Lemma cell_at_join_row_r lc rc l r c :
  label_in c lc = false → label_in c rc = true →
  cell_at c (join_row lc rc [] l r) =
  match r with Some r' => cell_at c r' | None => NA end.
Proof. intros Hl Hc. unfold cell_at at 1. by rewrite lookup_join_row, Hl, Hc. Qed.

(** ** Surrogate keys *)

Section surrogate_keys.
Context {SC : Scalars}.
Import transform.

Lemma keyed_snapshot (sk : string) (cols colsw : list string)
    (g : gmap string cell → gmap string cell) (base : list (gmap string cell)) :
  label_in sk cols = true →
  (∀ r, cell_at sk (g r) = cell_at sk r) →
  keyed_from_one sk (snapshot cols (mkDataFrame colsw (g <$> with_index sk base))).
Proof.
  intros Hsk Hg i row. unfold snapshot; cbn [rows].
  rewrite !list_lookup_fmap, lookup_with_index.
  destruct (base !! i) as [r|]; [|done]. cbn. intros [= <-].
  by rewrite cell_at_project, Hg, cell_at_insert.
Qed.

Lemma keyed_snapshot_id (sk : string) (cols colsw : list string)
    (base : list (gmap string cell)) :
  label_in sk cols = true →
  keyed_from_one sk (snapshot cols (mkDataFrame colsw (with_index sk base))).
Proof.
  intros Hsk. rewrite <- (list_fmap_id (with_index sk base)).
  by apply keyed_snapshot.
Qed.

Lemma to_datetime_cell_cases (c : cell) :
  to_datetime_cell c = NA ∨ ∃ z, to_datetime_cell c = Ts z.
Proof.
  destruct c; cbn; eauto; destruct (datetime_of _); cbn; eauto.
Qed.

Lemma cell_eqb_ts_l (z : Z) (c : cell) : cell_eqb (Ts z) c = true → c = Ts z.
Proof. destruct c; cbn; try done. by intros ->%Z.eqb_eq. Qed.

(** The rows from which the date dimension is numbered. *)
Lemma review_dates_spec (rs : list (gmap string cell)) :
  let ds := review_dates (converted_reviews rs) in
  Forall (is_ts "full_date") ds ∧
  StronglySorted Z.lt ((λ r, ts_of (cell_at "full_date" r)) <$> ds) ∧
  ∀ z, (∃ r, r ∈ ds ∧ cell_at "full_date" r = Ts z) ↔
       Ts z ∈ to_datetime (cell_at "date" <$> rs).
Proof.
  cbn zeta. unfold review_dates.
  set (src := project ["date"] <$> converted_reviews rs).
  set (kept := List.filter (λ r, negb (has_na ["date"] r)) src).
  set (D := dedup_from ["date"] [] kept).
  assert (Hsrc : ∀ x, x ∈ src → ∃ r, r ∈ rs ∧
            cell_at "date" x = to_datetime_cell (cell_at "date" r)).
  { intros x (x' & -> & (r & -> & Hr)%list_elem_of_fmap)%list_elem_of_fmap.
    exists r. split; [done|]. by cell_simpl. }
  assert (Hkept : ∀ x, x ∈ kept ↔ x ∈ src ∧ cell_at "date" x ≠ NA).
  { intros x. unfold kept. rewrite list_elem_of_In, filter_In, <- list_elem_of_In.
    unfold has_na; cbn [existsb]. split.
    - intros [Hin Hf]. split; [done|]. intros E. by rewrite E in Hf.
    - intros [Hin Hna]. split; [done|]. by destruct (cell_at "date" x). }
  assert (HD : Forall (is_ts "date") D).
  { apply Forall_forall. intros x Hx%dedup_from_elem_of.
    apply Hkept in Hx as [Hx Hna]. destruct (Hsrc _ Hx) as (r & _ & Hr).
    destruct (to_datetime_cell_cases (cell_at "date" r)) as [E|[z E]];
      rewrite E in Hr; [done|by exists z]. }
  assert (Hren : Forall (is_ts "full_date") (rename_row "date" "full_date" <$> D)).
  { apply Forall_fmap. eapply Forall_impl; [exact HD|].
    intros x [z Hz]. exists z. cbn. by rewrite cell_at_rename_row. }
  assert (Hfd : (λ r, ts_of (cell_at "full_date" r)) <$>
                 (rename_row "date" "full_date" <$> D) =
               (λ r, ts_of (cell_at "date" r)) <$> D).
  { rewrite fmap_fmap. apply list_fmap_ext. intros i r _.
    by rewrite cell_at_rename_row. }
  split; [|split].
  - by rewrite sort_rows_perm.
  - apply StronglySorted_le_lt.
    + eapply StronglySorted_fmap; [|by apply sort_rows_sorted].
      intros x y Hxy. exact Hxy.
    + rewrite sort_rows_perm, Hfd.
      apply distinct_keys_ts_NoDup; [done | apply dedup_from_distinct].
  - intros z. setoid_rewrite sort_rows_perm. split.
    + intros (r & (x & -> & Hx)%list_elem_of_fmap & Hz).
      rewrite cell_at_rename_row in Hz.
      apply dedup_from_elem_of, Hkept in Hx as [Hx _].
      destruct (Hsrc _ Hx) as (r0 & Hr0 & E).
      unfold to_datetime. rewrite fmap_fmap.
      apply list_elem_of_fmap. exists r0. split; [congruence | done].
    + unfold to_datetime. rewrite fmap_fmap.
      intros (r0 & Hz & Hr0)%list_elem_of_fmap.
      set (x := project ["date"]
                  (<["date" := to_datetime_cell (cell_at "date" r0)]> r0)).
      assert (Hxd : cell_at "date" x = Ts z) by (unfold x; by cell_simpl).
      assert (Hxk : x ∈ kept).
      { apply Hkept. split; [|by rewrite Hxd].
        unfold src, converted_reviews. rewrite fmap_fmap.
        apply list_elem_of_fmap. by exists r0. }
      clearbody x.
      destruct (dedup_from_complete ["date"] [] kept x Hxk)
        as [Hs|(y & Hy & Hk)]; [done|].
      exists (rename_row "date" "full_date" y). split.
      * by apply list_elem_of_fmap_2.
      * rewrite cell_at_rename_row. unfold row_key in Hk; cbn in Hk.
        rewrite Hxd, andb_true_r in Hk. by apply cell_eqb_ts_l.
Qed.

Lemma col_with_index (c sk : string)
    (g : gmap string cell → gmap string cell) (rs : list (gmap string cell)) :
  c ≠ sk → (∀ r, cell_at c (g r) = cell_at c r) →
  cell_at c <$> (g <$> with_index sk rs) = cell_at c <$> rs.
Proof.
  intros Hne Hg. apply list_eq. intros i.
  rewrite !list_lookup_fmap, lookup_with_index.
  destruct (rs !! i) as [r|]; cbn; [|done].
  by rewrite Hg, cell_at_insert_ne.
Qed.

Lemma ts_column (c : string) (rs : list (gmap string cell)) :
  Forall (is_ts c) rs →
  cell_at c <$> rs = Ts <$> ((λ r, ts_of (cell_at c r)) <$> rs).
Proof.
  intros Hall. rewrite fmap_fmap. apply Forall_fmap_ext.
  eapply Forall_impl; [exact Hall|]. intros r [z Hz]. by rewrite Hz.
Qed.

(** C7.  In each of the four dimension frames [run_transform] returns, the
    row in position i (counted from zero) carries the surrogate key i+1, so
    a frame of n rows holds exactly the keys 1..n, each once.  In
    [dim_date] the dates are strictly increasing along the rows and are
    exactly the distinct dates the reviews parse to: the key of a row is
    the 1-based rank of its date, and a larger key means a later date. *)
Theorem surrogate_keys_dense (now : Z) (L R : DataFrame) (d : dims) (f : facts) :
  columns L = listings_required →
  columns R = reviews_required →
  run_transform now L R = Ok (d, f) →
  keyed_from_one "date_sk" (dim_date d) ∧
  keyed_from_one "neighborhood_sk" (dim_neighborhood d) ∧
  keyed_from_one "host_sk" (dim_host d) ∧
  keyed_from_one "listing_sk" (dim_listing d) ∧
  ∃ zs : list Z,
    cell_at "full_date" <$> rows (dim_date d) = Ts <$> zs ∧
    StronglySorted Z.lt zs ∧
    ∀ z, z ∈ zs ↔ Ts z ∈ to_datetime (cell_at "date" <$> rows R).
Proof.
  intros HL HR Hrun.
  destruct (run_transform_inv _ _ _ _ _ HL HR Hrun) as (prices & _ & _ & Hdf).
  injection Hdf as -> ->. unfold tables_of; cbn [t_dim_date t_dim_neighborhood
    t_dim_host t_dim_listing dim_date dim_neighborhood dim_host dim_listing].
  split; [|split; [|split; [|split]]].
  - apply keyed_snapshot; [done|]. intros r. unfold calendar_row. by cell_simpl.
  - by apply keyed_snapshot_id.
  - apply keyed_snapshot; [done|]. intros r. unfold stamp_row. by cell_simpl.
  - by apply keyed_snapshot_id.
  - destruct (review_dates_spec (rows R)) as (Hts & Hsorted & Hmem).
    set (ds := review_dates (converted_reviews (rows R))) in *.
    exists ((λ r, ts_of (cell_at "full_date" r)) <$> ds).
    split; [|split; [done|]].
    + unfold snapshot, dim_date_rows; cbn [rows]. fold ds.
      rewrite (fmap_fmap calendar_row).
      rewrite col_with_index; [by apply ts_column | done |].
      intros r. unfold calendar_row. by cell_simpl.
    + intros z. rewrite <- Hmem. split.
      * intros (r & -> & Hr)%list_elem_of_fmap. exists r. split; [done|].
        eapply Forall_forall in Hts as [z Hz]; [|done]. by rewrite Hz.
      * intros (r & Hr & Hz). apply list_elem_of_fmap. exists r.
        split; [by rewrite Hz | done].
Qed.

End surrogate_keys.

(** ** The fact table *)

Section fact_table.
Context {SC : Scalars}.
Import transform.

Lemma Int_not_na (z : Z) : Int z ≠ NA.
Proof. done. Qed.

Lemma key_eqb_single (c c' : string) (a b : gmap string cell) :
  key_eqb (row_key [c] a) (row_key [c'] b) =
  cell_eqb (cell_at c a) (cell_at c' b).
Proof. unfold row_key. cbn [fmap list_fmap key_eqb]. apply andb_true_r. Qed.

(** What one left join does to a row, when no label needs a suffix. *)
Lemma join_rows_spec lc rc lo ro rs l x :
  x ∈ join_rows lc rc [] lo ro rs l →
  (∀ c, label_in c lc = true → cell_at c x = cell_at c l) ∧
  ((partners lo ro rs l = [] ∧
    ∀ c, label_in c lc = false → cell_at c x = NA) ∨
   (∃ r, r ∈ rs ∧ key_eqb (row_key lo l) (row_key ro r) = true ∧
         ∀ c, label_in c lc = false → label_in c rc = true →
              cell_at c x = cell_at c r)).
Proof.
  intros [[Hp ->]|(r & Hr & ->)]%elem_of_join_rows.
  - split; [intros c Hc; by apply cell_at_join_row_l|].
    left. split; [done|]. intros c Hc. unfold cell_at at 1.
    rewrite lookup_join_row, Hc. by destruct (label_in c rc).
  - split; [intros c Hc; by apply cell_at_join_row_l|].
    right. apply elem_of_partners in Hr as [Hr Hk]. exists r.
    split; [done|]. split; [done|]. intros c Hl Hc.
    by rewrite cell_at_join_row_r.
Qed.

(** A left row with a partner never comes out with the right-hand columns
    missing. *)
Lemma join_rows_partnered lc rc lo ro rs l r x :
  r ∈ rs → key_eqb (row_key lo l) (row_key ro r) = true →
  x ∈ join_rows lc rc [] lo ro rs l →
  ∃ r', r' ∈ rs ∧ key_eqb (row_key lo l) (row_key ro r') = true ∧
        ∀ c, label_in c lc = false → label_in c rc = true →
             cell_at c x = cell_at c r'.
Proof.
  intros Hr Hk Hx. apply join_rows_spec in Hx as [_ [[Hp _]|Hx]]; [|done].
  assert (r ∈ partners lo ro rs l) as Hin by (by apply elem_of_partners).
  rewrite Hp in Hin. by apply not_elem_of_nil in Hin.
Qed.

(** Every working dim_listing row takes its listing columns from one
    cleaned listing. *)
Lemma dim_listing_row_origin ls dn y :
  y ∈ dim_listing_rows ls dn →
  ∃ l, l ∈ ls ∧
       ∀ c, label_in c enriched_columns = true →
            label_in c dim_listing_columns = true →
            cell_at c y = cell_at c l.
Proof.
  intros (i & y0 & Hy0 & ->)%elem_of_with_index.
  apply list_elem_of_lookup_2, dedup_from_elem_of in Hy0.
  apply list_elem_of_fmap in Hy0 as (m & -> & Hm).
  apply elem_of_flat_map in Hm as (l & Hl & Hm).
  apply join_rows_spec in Hm as [Hleft _].
  exists l. split; [done|]. intros c Hc Hd.
  rewrite cell_at_insert_ne.
  - by rewrite cell_at_project, Hleft.
  - intros <-. done.
Qed.

(** Every cleaned listing finds its host in the working dim_host. *)
Lemma host_of_listing now ls l :
  l ∈ ls →
  ∃ h (i : nat), h ∈ dim_host_rows now ls ∧
    cell_eqb (cell_at "host_id" l) (cell_at "host_id" h) = true ∧
    cell_at "host_sk" h = Int (Z.of_nat i + 1).
Proof.
  intros Hl.
  set (p := project ["host_id"; "host_name"; "calculated_host_listings_count"] l).
  assert (Hp : p ∈ project ["host_id"; "host_name";
                            "calculated_host_listings_count"] <$> ls)
    by (by apply list_elem_of_fmap_2).
  destruct (dedup_from_complete ["host_id"] [] _ p Hp) as [Hs|(h0 & Hh0 & Hk)];
    [done|].
  destruct (with_index_of_elem "host_sk" _ h0 Hh0) as (i & Hi).
  exists (stamp_row now (<["host_sk" := Int (Z.of_nat i + 1)]> h0)), i.
  split; [|split].
  - unfold dim_host_rows. by apply list_elem_of_fmap_2.
  - unfold stamp_row. cell_simpl.
    rewrite key_eqb_single in Hk. unfold p in Hk.
    by rewrite cell_at_project in Hk.
  - unfold stamp_row. by cell_simpl.
Qed.

Lemma dim_host_row_keyed now ls h :
  h ∈ dim_host_rows now ls → ∃ i : nat, cell_at "host_sk" h = Int (Z.of_nat i + 1).
Proof.
  intros (h1 & -> & (i & h0 & _ & ->)%elem_of_with_index)%list_elem_of_fmap.
  exists i. unfold stamp_row. by cell_simpl.
Qed.

(** The provenance of a joined review row, key by key. *)
Lemma fact_joined_row_spec rs dl dh dd j :
  j ∈ fact_joined_rows rs dl dh dd →
  (cell_at "listing_sk" j = NA ∨
   ∃ y, y ∈ dl ∧ cell_at "listing_sk" j = cell_at "listing_sk" y ∧
        cell_at "host_id" j = cell_at "host_id" y) ∧
  (cell_at "host_sk" j = NA ∨
   ∃ h, h ∈ dh ∧ cell_at "host_sk" j = cell_at "host_sk" h) ∧
  (cell_at "date_sk" j = NA ∨
   ∃ x, x ∈ dd ∧ cell_at "date_sk" j = cell_at "date_sk" x).
Proof.
  intros (j2 & Hj2 & Hj)%elem_of_flat_map.
  apply elem_of_flat_map in Hj2 as (j1 & Hj1 & Hj2).
  apply elem_of_flat_map in Hj1 as (r & Hr & Hj1).
  apply join_rows_spec in Hj as [Hj_l Hj_r].
  apply join_rows_spec in Hj2 as [Hj2_l Hj2_r].
  apply join_rows_spec in Hj1 as [Hj1_l Hj1_r].
  rewrite !Hj_l by reflexivity. rewrite !Hj2_l by reflexivity.
  split; [|split].
  - destruct Hj1_r as [[_ Hna]|(p & Hp & _ & Hv)].
    + left. by apply Hna.
    + right. apply list_elem_of_fmap in Hp as (y & -> & Hy). exists y.
      split; [done|]. rewrite !Hv by reflexivity. by cell_simpl.
  - destruct Hj2_r as [[_ Hna]|(p & Hp & _ & Hv)].
    + left. by apply Hna.
    + right. apply list_elem_of_fmap in Hp as (h & -> & Hh). exists h.
      split; [done|]. rewrite Hv by reflexivity. by cell_simpl.
  - destruct Hj_r as [[_ Hna]|(p & Hp & _ & Hv)].
    + left. by apply Hna.
    + right. apply list_elem_of_fmap in Hp as (x & -> & Hx). exists x.
      split; [done|]. rewrite Hv by reflexivity. by cell_simpl.
Qed.

Lemma fact_rows_spec js row :
  row ∈ fact_rows js ↔
  ∃ j, j ∈ js ∧ resolved j = true ∧ row = gate_row j.
Proof.
  unfold fact_rows. rewrite list_elem_of_In, filter_In, <- list_elem_of_In.
  rewrite list_elem_of_fmap. split.
  - intros [(j & -> & Hj) Hr]. exists j. split; [done|]. split; [|done].
    unfold resolved, has_na, gate_row in *. cbn [existsb] in *.
    revert Hr. by cell_simpl.
  - intros (j & Hj & Hr & ->). split; [by exists j|].
    unfold resolved, has_na, gate_row in *. cbn [existsb] in *.
    revert Hr. by cell_simpl.
Qed.

Lemma has_na_gate_row j :
  has_na ["listing_sk"; "host_sk"; "date_sk"] (gate_row j) =
  has_na ["listing_sk"; "host_sk"; "date_sk"] j.
Proof. unfold has_na, gate_row. cbn [existsb]. by cell_simpl. Qed.

Lemma fact_rows_filter js :
  fact_rows js = gate_row <$> List.filter resolved js.
Proof.
  unfold fact_rows. induction js as [|j js IH]; [done|].
  cbn [fmap list_fmap List.filter]. rewrite has_na_gate_row.
  unfold resolved at 1. destruct (has_na _ j); cbn [negb].
  - apply IH.
  - cbn [fmap list_fmap]. f_equal. apply IH.
Qed.

Lemma resolved_true j :
  resolved j = true →
  cell_at "listing_sk" j ≠ NA ∧ cell_at "host_sk" j ≠ NA ∧
  cell_at "date_sk" j ≠ NA.
Proof.
  unfold resolved, has_na. cbn [existsb].
  destruct (cell_at "listing_sk" j), (cell_at "host_sk" j),
    (cell_at "date_sk" j); cbn; try done.
Qed.

(** The keys of a fact row, read off the tables the transform builds. *)
Lemma fact_row_keys now ls rs prices row :
  row ∈ rows (t_fact_reviews (tables_of now ls rs prices)) →
  cell_at "listing_sk" row ≠ NA ∧
  cell_at "listing_sk" row ∈
    column "listing_sk" (dim_listing (packed (tables_of now ls rs prices)).1) ∧
  cell_at "host_sk" row ≠ NA ∧
  cell_at "host_sk" row ∈
    column "host_sk" (dim_host (packed (tables_of now ls rs prices)).1) ∧
  cell_at "date_sk" row ≠ NA ∧
  cell_at "date_sk" row ∈
    column "date_sk" (dim_date (packed (tables_of now ls rs prices)).1) ∧
  cell_at "review_count" row = Int 1.
Proof.
  unfold tables_of; cbn [t_fact_joined t_fact_reviews t_dim_date t_dim_host
    t_dim_listing fact_reviews dim_date dim_host dim_listing rows packed fst].
  intros (j & Hj & Hres & ->)%fact_rows_spec.
  apply resolved_true in Hres as (Hl & Hh & Hd).
  apply fact_joined_row_spec in Hj as (Hjl & Hjh & Hjd).
  destruct Hjl as [?|(y & Hy & Hly & _)]; [done|].
  destruct Hjh as [?|(h & Hhh & Hhk)]; [done|].
  destruct Hjd as [?|(x & Hx & Hxk)]; [done|].
  unfold gate_row, column, snapshot; cbn [rows]. cell_simpl.
  repeat split; try done.
  - rewrite fmap_fmap. apply list_elem_of_fmap. exists y.
    split; [by cell_simpl | done].
  - rewrite fmap_fmap. apply list_elem_of_fmap. exists h.
    split; [by cell_simpl | done].
  - rewrite fmap_fmap. apply list_elem_of_fmap. exists x.
    split; [by cell_simpl | done].
Qed.

(** C2.  Every row of the [fact_reviews] frame [run_transform] returns has
    its three surrogate keys present, each occurring in the key column of
    its dimension frame, and [review_count] 1.  The frame is the joined
    review rows whose three keys are all present, cut down to the four fact
    columns: a joined row with a missing key is not in it. *)
Theorem fact_reviews_integrity (now : Z) (L R : DataFrame)
    (t : tables) (d : dims) (f : facts) :
  columns L = listings_required →
  columns R = reviews_required →
  build_tables now L R = Ok t →
  run_transform now L R = Ok (d, f) →
  (∀ row, row ∈ rows (fact_reviews f) →
     cell_at "listing_sk" row ≠ NA ∧
     cell_at "listing_sk" row ∈ column "listing_sk" (dim_listing d) ∧
     cell_at "host_sk" row ≠ NA ∧
     cell_at "host_sk" row ∈ column "host_sk" (dim_host d) ∧
     cell_at "date_sk" row ≠ NA ∧
     cell_at "date_sk" row ∈ column "date_sk" (dim_date d) ∧
     cell_at "review_count" row = Int 1) ∧
  rows (fact_reviews f) =
    gate_row <$> List.filter resolved (rows (t_fact_joined t)).
Proof.
  intros HL HR Ht Hrun.
  destruct (run_transform_inv _ _ _ _ _ HL HR Hrun) as (prices & _ & Ht' & Hdf).
  rewrite Ht' in Ht. injection Ht as <-.
  assert (d = (packed (tables_of now (rows L) (rows R) prices)).1) as ->
    by (by rewrite <- Hdf).
  assert (f = (packed (tables_of now (rows L) (rows R) prices)).2) as ->
    by (by rewrite <- Hdf).
  split; [intros row; apply fact_row_keys|].
  unfold tables_of; cbn [t_fact_joined t_fact_reviews fact_reviews rows packed
    snd]. apply fact_rows_filter.
Qed.

(** A joined review row whose listing resolved has a host as well. *)
Lemma host_join_follows_listing now ls rs dn dd j :
  j ∈ fact_joined_rows rs (dim_listing_rows ls dn) (dim_host_rows now ls) dd →
  cell_at "listing_sk" j ≠ NA → cell_at "host_sk" j ≠ NA.
Proof.
  intros (j2 & Hj2 & Hj)%elem_of_flat_map Hsk.
  apply elem_of_flat_map in Hj2 as (j1 & Hj1 & Hj2).
  apply elem_of_flat_map in Hj1 as (r & Hr & Hj1).
  apply join_rows_spec in Hj as [Hj_l _].
  rewrite Hj_l in Hsk |- * by reflexivity.
  pose proof Hj2 as Hj2'. apply join_rows_spec in Hj2' as [Hj2_l _].
  rewrite Hj2_l in Hsk by reflexivity.
  apply join_rows_spec in Hj1 as [_ [[_ Hna]|(p & Hp & _ & Hv)]].
  { by rewrite Hna in Hsk. }
  apply list_elem_of_fmap in Hp as (y & -> & Hy).
  destruct (dim_listing_row_origin _ _ _ Hy) as (l & Hl & Hcols).
  destruct (host_of_listing now _ _ Hl) as (h & i & Hh & Heq & Hhk).
  assert (Hhost : cell_at "host_id" j1 = cell_at "host_id" l).
  { rewrite Hv by reflexivity. cell_simpl. by apply Hcols. }
  set (ph := project ["host_id"; "host_sk"] h).
  eapply (join_rows_partnered _ _ _ _ _ _ ph) in Hj2
    as (p' & Hp' & _ & Hv').
  - rewrite Hv' by reflexivity.
    apply list_elem_of_fmap in Hp' as (h' & -> & Hh'). cell_simpl.
    destruct (dim_host_row_keyed _ _ _ Hh') as [i' ->]. done.
  - by apply list_elem_of_fmap_2.
  - rewrite key_eqb_single, Hhost. unfold ph. by cell_simpl.
Qed.

(** C9.  Every [host_id] of the [dim_listing] frame occurs in [dim_host],
    and in the joined review rows a present [listing_sk] comes with a
    present [host_sk]: the host join fails only where the listing join
    failed already. *)
Theorem hosts_cover_listings (now : Z) (L R : DataFrame)
    (t : tables) (d : dims) (f : facts) :
  columns L = listings_required →
  columns R = reviews_required →
  build_tables now L R = Ok t →
  run_transform now L R = Ok (d, f) →
  (∀ r, r ∈ rows (dim_listing d) →
     ∃ h, h ∈ rows (dim_host d) ∧
          cell_eqb (cell_at "host_id" r) (cell_at "host_id" h) = true) ∧
  (∀ j, j ∈ rows (t_fact_joined t) →
     cell_at "listing_sk" j ≠ NA → cell_at "host_sk" j ≠ NA).
Proof.
  intros HL HR Ht Hrun.
  destruct (run_transform_inv _ _ _ _ _ HL HR Hrun) as (prices & _ & Ht' & Hdf).
  rewrite Ht' in Ht. injection Ht as <-. injection Hdf as -> ->.
  unfold tables_of; cbn [t_fact_joined t_dim_host t_dim_listing dim_host
    dim_listing rows snapshot].
  split.
  - intros r (y & -> & Hy)%list_elem_of_fmap.
    destruct (dim_listing_row_origin _ _ _ Hy) as (l & Hl & Hcols).
    destruct (host_of_listing now _ _ Hl) as (h & i & Hh & Heq & _).
    exists (project dim_host_final_columns h). split.
    + by apply list_elem_of_fmap_2.
    + cell_simpl. by rewrite Hcols.
  - intros j. apply host_join_follows_listing.
Qed.

End fact_table.

(** ** Prices *)

Section prices.
Context {SC : Scalars}.
Import transform.

(** ** Price text *)

Lemma strip_non_price_chars (s : string) :
  list_ascii_of_string (strip_non_price s) =
  List.filter is_price_char (list_ascii_of_string s).
Proof. unfold strip_non_price. apply list_ascii_of_string_of_list_ascii. Qed.

Lemma is_price_char_spec (a : ascii) :
  is_price_char a = true ↔
  a = "."%char ∨ (48 ≤ N_of_ascii a ∧ N_of_ascii a ≤ 57)%N.
Proof.
  unfold is_price_char, is_digit, is_period.
  rewrite orb_true_iff, andb_true_iff, Ascii.eqb_eq, !N.leb_le. tauto.
Qed.

Lemma leading_digits_all (ds rest : list ascii) :
  forallb is_digit ds = true →
  match rest with [] => True | a :: _ => is_digit a = false end →
  leading_digits (ds ++ rest) = (ds, rest).
Proof.
  intros Hds Hrest. induction ds as [|a ds IH]; cbn.
  - destruct rest as [|a rest]; [done|]. cbn. by rewrite Hrest.
  - cbn in Hds. apply andb_true_iff in Hds as [Ha Hds].
    by rewrite Ha, IH.
Qed.

Lemma digits_val_app_from (acc : Z) (ds es : list ascii) :
  fold_left (λ acc d, 10 * acc + digit_val d) (ds ++ es) acc =
  fold_left (λ acc d, 10 * acc + digit_val d) es
    (fold_left (λ acc d, 10 * acc + digit_val d) ds acc).
Proof. apply fold_left_app. Qed.

Lemma fold_digits_shift (acc : Z) (es : list ascii) :
  fold_left (λ acc d, 10 * acc + digit_val d) es acc =
  acc * 10 ^ Z.of_nat (length es) + digits_val es.
Proof.
  unfold digits_val. revert acc. induction es as [|e es IH]; intros acc.
  - cbn. lia.
  - cbn [fold_left length]. rewrite IH, (IH (10 * 0 + digit_val e)).
    rewrite Nat2Z.inj_succ, Z.pow_succ_r by lia. lia.
Qed.

Lemma digits_val_app (ds es : list ascii) :
  digits_val (ds ++ es) =
  digits_val ds * 10 ^ Z.of_nat (length es) + digits_val es.
Proof.
  unfold digits_val at 1. rewrite digits_val_app_from.
  apply fold_digits_shift.
Qed.

(** A text of digits denotes the integer its digits spell. *)
Lemma float_of_digits (ds : list ascii) :
  forallb is_digit ds = true → ds ≠ [] →
  float_of_string (string_of_list_ascii ds) = Some (inject_Z (digits_val ds)).
Proof.
  intros Hds Hne. unfold float_of_string.
  rewrite list_ascii_of_string_of_list_ascii.
  rewrite <- (app_nil_r ds) at 1. rewrite leading_digits_all by done.
  by destruct ds.
Qed.

(** Digits, a period, digits: the integer part plus the fraction. *)
Lemma float_of_decimal (ip fp : list ascii) :
  forallb is_digit ip = true → forallb is_digit fp = true →
  ip ++ fp ≠ [] →
  ∃ q, float_of_string (string_of_list_ascii (ip ++ "."%char :: fp)) = Some q ∧
       (q == inject_Z (digits_val ip) +
             Qmake (digits_val fp) (Z.to_pos (10 ^ Z.of_nat (length fp))))%Q.
Proof.
  intros Hip Hfp Hne. unfold float_of_string.
  rewrite list_ascii_of_string_of_list_ascii.
  rewrite leading_digits_all by done.
  change (is_period "."%char) with true. rewrite Hfp. cbn [andb].
  assert (Nat.eqb (length ip + length fp) 0 = false) as ->.
  { apply Nat.eqb_neq. intros Hz. apply Hne.
    destruct ip, fp; cbn in Hz; try lia. done. }
  cbn [negb]. eexists. split; [reflexivity|].
  rewrite Qred_correct, digits_val_app.
  set (k := 10 ^ Z.of_nat (length fp)).
  assert (0 < k) by (apply Z.pow_pos_nonneg; lia).
  unfold Qeq, Qplus, inject_Z; cbn [Qnum Qden].
  rewrite !Z2Pos.id by lia. rewrite Pos2Z.inj_mul, Z2Pos.id by lia. lia.
Qed.


(** C5.  [clean_price] works value by value: it strips every character
    that is not a digit or a period, reads an empty remainder as 0 and
    parses the remainder as a decimal number (digits, or digits with one
    period, read in base ten).  [clean_price] of [$1,234.50] is 1234.50
    and of the empty string is 0. *)
Theorem clean_price_spec (series : list cell) :
  clean_price series = mapR clean_price_cell series ∧
  (∀ s, list_ascii_of_string (strip_non_price s) =
        List.filter is_price_char (list_ascii_of_string s)) ∧
  (∀ a, is_price_char a = true ↔
        a = "."%char ∨ (48 ≤ N_of_ascii a ∧ N_of_ascii a ≤ 57)%N) ∧
  (∀ ds, forallb is_digit ds = true → ds ≠ [] →
         float_of_string (string_of_list_ascii ds) =
         Some (inject_Z (digits_val ds))) ∧
  (∀ ip fp, forallb is_digit ip = true → forallb is_digit fp = true →
            ip ++ fp ≠ [] →
            ∃ q, float_of_string (string_of_list_ascii (ip ++ "."%char :: fp))
                 = Some q ∧
                 (q == inject_Z (digits_val ip) +
                       Qmake (digits_val fp)
                         (Z.to_pos (10 ^ Z.of_nat (length fp))))%Q) ∧
  (∃ q, clean_price [Str "$1,234.50"] = Ok [Num q] ∧ (q == 1234.50)%Q) ∧
  clean_price [Str ""] = Ok [Num 0].
Proof.
  split; [apply clean_price_elementwise|].
  split; [apply strip_non_price_chars|].
  split; [apply is_price_char_spec|].
  split; [apply float_of_digits|].
  split; [apply float_of_decimal|].
  split; [|reflexivity].
  eexists. split; [reflexivity | reflexivity].
Qed.

(** ** Price tiers *)

Lemma Qle_bool_false (a b : Q) : Qle_bool a b = false ↔ (b < a)%Q.
Proof.
  split.
  - intros Hf. apply Qnot_le_lt. intros Hle%Qle_bool_iff. congruence.
  - intros Hlt. destruct (Qle_bool a b) eqn:E; [|done].
    apply Qle_bool_iff in E. lra.
Qed.

Lemma tier_cell_num (q : Q) :
  tier_cell (Num q) =
  if Qle_bool q (-1) then NA
  else if Qle_bool q 50 then Str "budget"
  else if Qle_bool q 150 then Str "mid"
  else Str "premium".
Proof.
  unfold tier_cell, cut_cell, cut_from, edge_ltb, edge_geb.
  destruct (Qle_bool q (-1)) eqn:E1, (Qle_bool q 50) eqn:E2,
    (Qle_bool q 150) eqn:E3; cbn; try reflexivity.
  all: try (apply Qle_bool_iff in E1); try (apply Qle_bool_iff in E2);
    try (apply Qle_bool_iff in E3); try (apply Qle_bool_false in E1);
    try (apply Qle_bool_false in E2); try (apply Qle_bool_false in E3); lra.
Qed.

(** C6.  [classify_price_tier] sends a price to budget exactly on (-1, 50],
    to mid exactly on (50, 150], to premium exactly above 150 (and to no
    tier at or below -1); 0 and 50 are budget, 50.01 and 150 are mid,
    150.01 is premium. *)
Theorem classify_price_tier_bins (q : Q) :
  (classify_price_tier [Num q] = [Str "budget"] ↔ (-1 < q ∧ q <= 50)%Q) ∧
  (classify_price_tier [Num q] = [Str "mid"] ↔ (50 < q ∧ q <= 150)%Q) ∧
  (classify_price_tier [Num q] = [Str "premium"] ↔ (150 < q)%Q) ∧
  (classify_price_tier [Num q] = [NA] ↔ (q <= -1)%Q) ∧
  classify_price_tier [Num 0; Num 50; Num 50.01; Num 150; Num 150.01] =
    [Str "budget"; Str "budget"; Str "mid"; Str "mid"; Str "premium"] ∧
  ∀ price, classify_price_tier price = tier_cell <$> price.
Proof.
  assert (Hq : classify_price_tier [Num q] = [tier_cell (Num q)]) by reflexivity.
  rewrite Hq, tier_cell_num.
  destruct (Qle_bool q (-1)) eqn:E1, (Qle_bool q 50) eqn:E2,
    (Qle_bool q 150) eqn:E3;
    try (apply Qle_bool_iff in E1); try (apply Qle_bool_iff in E2);
    try (apply Qle_bool_iff in E3); try (apply Qle_bool_false in E1);
    try (apply Qle_bool_false in E2); try (apply Qle_bool_false in E3);
    (repeat split; try reflexivity; try (intros ?; lra); try done;
     try (intros [? ?]; lra); try (intros [= ?])).
Qed.
(** ** What validation hands on *)

Lemma run_validate_Ok (cfg : gmap string Q) (L0 R0 L R : DataFrame) (rep : report) :
  validate.run_validate cfg L0 R0 = Ok (L, R, rep) →
  L = mkDataFrame listings_required (kept_listings cfg L0) ∧
  R = mkDataFrame reviews_required (kept_reviews cfg L0 R0) ∧
  rep = mkReport (length (kept_listings cfg L0))
          (length (kept_reviews cfg L0 R0)) (validation_checks cfg L0 R0).
Proof.
  intros Hv.
  destruct (missing_labels listings_required L0) as [|c cs] eqn:HL.
  - destruct (missing_labels reviews_required R0) as [|c' cs'] eqn:HR.
    + rewrite (run_validate_closed cfg L0 R0 HL HR) in Hv. by injection Hv as <- <- <-.
    + rewrite run_validate_missing_reviews in Hv; [done|done|by rewrite HR].
  - rewrite run_validate_missing_listings in Hv; [done|by rewrite HL].
Qed.

Lemma row_key_coerce_numeric (r : gmap string cell) :
  row_key ["id"] (coerce_numeric r) = row_key ["id"] r.
Proof. unfold row_key, coerce_numeric. cbn [fmap list_fmap]. by cell_simpl. Qed.

Lemma kept_listings_distinct (cfg : gmap string Q) (L0 : DataFrame) :
  distinct_keys ["id"] (kept_listings cfg L0).
Proof.
  unfold kept_listings, geo_listings, coerced_listings.
  do 2 apply distinct_keys_filter.
  apply (distinct_keys_fmap ["id"]); [apply row_key_coerce_numeric|].
  apply dedup_from_distinct.
Qed.

Lemma elem_of_kept_listings (cfg : gmap string Q) (L0 : DataFrame) l :
  l ∈ kept_listings cfg L0 ↔
  l ∈ coerced_listings L0 ∧ lat_ok cfg l = true ∧ lon_ok cfg l = true ∧
  avail_ok cfg l = true.
Proof.
  unfold kept_listings, geo_listings.
  rewrite list_elem_of_In, !filter_In, <- list_elem_of_In.
  destruct (lat_ok cfg l), (lon_ok cfg l), (avail_ok cfg l); cbn; tauto.
Qed.

(** ** A missing price *)

Lemma clean_price_lookup series prices (i : nat) c :
  clean_price series = Ok prices → series !! i = Some c →
  ∃ p, prices !! i = Some p ∧ clean_price_cell c = Ok p.
Proof.
  rewrite clean_price_elementwise, mapR_Ok_Forall2. intros Hall Hc.
  destruct (Forall2_lookup_l _ _ _ _ _ Hall Hc) as (p & Hp & Hcp). eauto.
Qed.

Lemma numeric_or_zero_num (c : cell) :
  ∃ q, fillna_cell (Int 0) (to_numeric_cell c) = Num q.
Proof.
  destruct c as [|q|s|z|b]; cbn [to_numeric_cell]; [by exists 0%Q | by exists q | ..].
  all: destruct (numeric_of _) as [q|]; cbn; eauto.
Qed.




Lemma elem_of_enriched_listings ls prices e :
  e ∈ enriched_listings ls prices →
  ∃ (i : nat) l p, ls !! i = Some l ∧ prices !! i = Some p ∧
                   e = enrich_row (clean_row l p).
Proof.
  unfold enriched_listings.
  intros (x & -> & Hx)%list_elem_of_fmap.
  apply list_elem_of_lookup in Hx as (i & Hi).
  apply lookup_zip_with_Some in Hi as (l & p & -> & Hl & Hp).
  by exists i, l, p.
Qed.

Lemma enriched_listing_id l p :
  cell_at "listing_id" (enrich_row (clean_row l p)) = cell_at "id" l.
Proof. unfold enrich_row, clean_row, zero_filled. by cell_simpl. Qed.



End prices.

(** ** Validation returns when the required columns are there *)

Section validation_returns.
Context {SC : Scalars}.

Lemma list_filter_sublist {A} (f : A → bool) (l : list A) :
  sublist (List.filter f l) l.
Proof.
  induction l as [|x l IH]; cbn; [constructor|].
  destruct (f x); by constructor.
Qed.

(** C1 (amended).  When every required column is present in both inputs,
    [run_validate] returns: the two frames carry exactly the required
    columns, their rows are rows of the inputs (listings with the three
    numeric fields coerced) in the input order, with none added, and the
    report lists the ten checks and the two row counts.  When a required
    column is missing, the column selection raises the KeyError of the
    missing labels, those of the listings when any is missing there and
    those of the reviews otherwise, and [run_validate] returns nothing. *)
Theorem run_validate_returns (cfg : gmap string Q) (L R : DataFrame) :
  (missing_labels listings_required L = [] →
   missing_labels reviews_required R = [] →
   ∃ L' R' rep,
     validate.run_validate cfg L R = Ok (L', R', rep) ∧
     columns L' = listings_required ∧
     columns R' = reviews_required ∧
     sublist (rows L') (coerce_numeric <$> selected_listings L) ∧
     sublist (rows R') (selected_reviews R) ∧
     name <$> checks rep = check_names ∧
     listings_row_count_after_validation rep = length (rows L') ∧
     reviews_row_count_after_validation rep = length (rows R')) ∧
  (missing_labels listings_required L ≠ [] →
   validate.run_validate cfg L R =
     Raise (KeyError (missing_labels listings_required L)) ∧
   ∀ out, validate.run_validate cfg L R ≠ Ok out) ∧
  (missing_labels listings_required L = [] →
   missing_labels reviews_required R ≠ [] →
   validate.run_validate cfg L R =
     Raise (KeyError (missing_labels reviews_required R)) ∧
   ∀ out, validate.run_validate cfg L R ≠ Ok out).
Proof.
  split; [|split].
  - intros HL HR. do 3 eexists.
    split; [by apply run_validate_closed|]. cbn [columns rows].
    repeat split.
    + unfold kept_listings, geo_listings, coerced_listings.
      etrans; [apply list_filter_sublist|].
      etrans; [apply list_filter_sublist|].
      apply fmap_sublist. etrans; [apply dedup_from_sublist|].
      apply list_filter_sublist.
    + unfold kept_reviews, identified_reviews.
      etrans; apply list_filter_sublist.
  - intros HL. rewrite (run_validate_missing_listings cfg L R HL).
    split; [done|]. intros out. discriminate.
  - intros HL HR. rewrite (run_validate_missing_reviews cfg L R HL HR).
    split; [done|]. intros out. discriminate.
Qed.

End validation_returns.

(** ** The columns handed to the loader *)

Section loader_columns.
Context {SC : Scalars}.
Import transform.

Lemma drop_duplicates_subset_Ok sub df df' :
  drop_duplicates_subset sub df = Ok df' →
  df' = mkDataFrame (columns df) (dedup_from sub [] (rows df)).
Proof.
  unfold drop_duplicates_subset. destruct (missing_labels sub df); [|done].
  by intros [= <-].
Qed.

Lemma build_dim_listing_columns (listings dn dl : DataFrame) :
  build_dim_listing listings dn = Ok dl →
  columns dl = dim_listing_columns ++ ["listing_sk"].
Proof.
  unfold build_dim_listing. intros Hb. inv_ok Hb.
  apply getitem_cols_Ok in Hv0 as [_ ->].
  apply drop_duplicates_subset_Ok in Hv1 as ->.
  apply setitem_Ok in Hb as [_ ->]. reflexivity.
Qed.

(** C3 (amended).  The [dim_listing] snapshot [run_transform] hands to the
    loader has the fifteen columns from [listing_sk] to [longitude]: the
    column set of the data model without the three derived metrics.  The
    derived metrics are columns of the [dim_listing] frame the transform
    works on (which has exactly the data model's column set), and the final
    selection leaves them out. *)
Theorem dim_listing_snapshot_columns (now : Z) (L R : DataFrame)
    (t : tables) (d : dims) (f : facts) :
  build_tables now L R = Ok t →
  run_transform now L R = Ok (d, f) →
  columns (dim_listing d) =
    ["listing_sk"; "listing_id"; "name"; "host_id"; "neighborhood_sk";
     "room_type"; "price"; "minimum_nights"; "availability_365";
     "number_of_reviews"; "reviews_per_month"; "number_of_reviews_ltm";
     "license"; "latitude"; "longitude"] ∧
  columns (dim_listing d) =
    List.filter (λ c, negb (label_in c derived_metric_columns))
      dim_listing_model_columns ∧
  columns (t_dim_listing t) ≡ₚ dim_listing_model_columns.
Proof.
  intros Ht Hrun. unfold run_transform in Hrun. rewrite Ht in Hrun.
  cbn [mbind result_bind] in Hrun. unfold pack in Hrun. inv_ok Hrun.
  injection Hrun as <- <-. cbn [dim_listing].
  apply getitem_cols_Ok in Hv2 as [_ ->]. cbn [columns].
  split; [done|]. split; [done|].
  unfold build_tables in Ht. inv_ok Ht. injection Ht as <-.
  cbn [t_dim_listing].
  rewrite (build_dim_listing_columns _ _ _ Hv9).
  symmetry. apply Permutation_cons_append.
Qed.

End loader_columns.

(** ** The run date *)

Section run_date.
Context {SC : Scalars}.
Import transform.

Lemma project_ext (cols : list string) (r1 r2 : gmap string cell) :
  (∀ c, label_in c cols = true → cell_at c r1 = cell_at c r2) →
  project cols r1 = project cols r2.
Proof.
  intros Hc. apply map_eq. intros c. rewrite !lookup_project.
  destruct (label_in c cols) eqn:E; [|done]. by rewrite Hc.
Qed.

Lemma insert_project (cols : list string) (c : string) (v : cell)
    (r : gmap string cell) :
  label_in c cols = true →
  <[c := v]> (project cols r) = project cols (<[c := v]> r).
Proof.
  intros Hc. apply map_eq. intros c'. rewrite lookup_project.
  destruct (decide (c = c')) as [<-|Hne].
  - by rewrite lookup_insert_eq, Hc, cell_at_insert.
  - rewrite lookup_insert_ne, lookup_project by done.
    by rewrite cell_at_insert_ne.
Qed.

Lemma project_host_keys_stamp (now : Z) (r : gmap string cell) :
  project ["host_id"; "host_sk"] (stamp_row now r) =
  project ["host_id"; "host_sk"] r.
Proof.
  unfold project, stamp_row. cbn [fmap list_fmap]. by cell_simpl.
Qed.

Lemma fact_joined_rows_now (now1 now2 : Z) ls rs dl dd :
  fact_joined_rows rs dl (dim_host_rows now2 ls) dd =
  fact_joined_rows rs dl (dim_host_rows now1 ls) dd.
Proof.
  unfold fact_joined_rows, fact_host_rows, dim_host_rows.
  rewrite !fmap_fmap. do 3 f_equal.
  apply list_fmap_ext. intros i r _. by rewrite !project_host_keys_stamp.
Qed.

Lemma restamp (now1 now2 : Z) (r : gmap string cell) :
  project dim_host_final_columns (stamp_row now2 r) =
  <["valid_from" := Ts (normalize now2)]>
    (project dim_host_final_columns (stamp_row now1 r)).
Proof.
  rewrite insert_project by reflexivity.
  unfold project, stamp_row. cbn [fmap list_fmap dim_host_final_columns].
  by cell_simpl.
Qed.

(** C4 (amended).  [run_transform] is a function of its two input frames
    and of the day it runs on.  Two runs on the same input at any two
    instants succeed together and return the same fact frame, the same
    [dim_date], [dim_neighborhood] and [dim_listing] (so the same surrogate
    keys in the same order) and [dim_host] frames with the same columns
    that differ at most in [valid_from], which holds the midnight of the
    day of the run in every row. *)
Theorem run_transform_run_date (now1 now2 : Z) (L R : DataFrame)
    (d1 : dims) (f1 : facts) :
  columns L = listings_required →
  columns R = reviews_required →
  run_transform now1 L R = Ok (d1, f1) →
  ∃ d2,
    run_transform now2 L R = Ok (d2, f1) ∧
    dim_date d2 = dim_date d1 ∧
    dim_neighborhood d2 = dim_neighborhood d1 ∧
    dim_listing d2 = dim_listing d1 ∧
    columns (dim_host d2) = columns (dim_host d1) ∧
    rows (dim_host d2) =
      (λ r, <["valid_from" := Ts (normalize now2)]> r) <$> rows (dim_host d1) ∧
    (∀ r, r ∈ rows (dim_host d1) →
          cell_at "valid_from" r = Ts (normalize now1)).
Proof.
  intros HL HR Hrun.
  destruct (run_transform_inv _ _ _ _ _ HL HR Hrun) as (prices & Hp & _ & Hdf).
  injection Hdf as -> ->.
  exists (packed (tables_of now2 (rows L) (rows R) prices)).1.
  split; [|split; [done|split; [done|split; [done|split; [done|split]]]]].
  - unfold run_transform.
    rewrite (frame_eta L), (frame_eta R), HL, HR.
    rewrite (build_tables_closed _ _ _ _ Hp). cbn [mbind result_bind].
    rewrite pack_closed. unfold packed, tables_of.
    cbn [t_dim_date t_dim_neighborhood t_dim_host t_dim_listing
         t_fact_reviews fst].
    by rewrite (fact_joined_rows_now now1 now2).
  - unfold packed, tables_of, snapshot, dim_host_rows.
    cbn [t_dim_host dim_host rows fst]. rewrite !fmap_fmap.
    apply list_fmap_ext. intros i r _. apply restamp.
  - unfold packed, tables_of, snapshot, dim_host_rows.
    cbn [t_dim_host dim_host rows fst]. rewrite !fmap_fmap.
    intros r (b & -> & _)%list_elem_of_fmap.
    unfold stamp_row. by cell_simpl.
Qed.

End run_date.

(** ** Lists and filters *)

Section lists.
Context {A B : Type}.

Lemma filter_fmap (f : B → bool) (g : A → B) (l : list A) :
  List.filter f (g <$> l) = g <$> List.filter (λ x, f (g x)) l.
Proof.
  induction l as [|x l IH]; cbn; [done|].
  destruct (f (g x)); cbn; by rewrite IH.
Qed.

Lemma filter_ext_elem (f g : A → bool) (l : list A) :
  (∀ x, x ∈ l → f x = g x) → List.filter f l = List.filter g l.
Proof.
  intros Hfg. apply filter_ext_in. intros x Hx. by apply Hfg, list_elem_of_In.
Qed.

Lemma filter_all (f : A → bool) (l : list A) :
  (∀ x, x ∈ l → f x = true) → List.filter f l = l.
Proof.
  intros Hf. apply forallb_filter_id, forallb_forall.
  intros x Hx. by apply Hf, list_elem_of_In.
Qed.

Lemma length_filter_negb (f : A → bool) (l : list A) :
  (length (List.filter f l) + length (List.filter (λ x, negb (f x)) l)
   = length l)%nat.
Proof.
  induction l as [|x l IH]; cbn; [done|]. destruct (f x); cbn; lia.
Qed.

Lemma elem_of_filter_list (f : A → bool) (l : list A) (x : A) :
  x ∈ List.filter f l ↔ x ∈ l ∧ f x = true.
Proof. by rewrite !list_elem_of_In, filter_In. Qed.

End lists.


Lemma dedup_from_distinct_id cols seen rs :
  distinct_keys cols rs →
  (∀ x, x ∈ rs → existsb (key_eqb (row_key cols x)) seen = false) →
  dedup_from cols seen rs = rs.
Proof.
  intros Hd. revert seen. induction Hd as [|r rs Hr Hd IH]; intros seen Hs.
  - done.
  - cbn. rewrite Hs by apply list_elem_of_here. f_equal. apply IH.
    intros x Hx. cbn. rewrite orb_false_iff. split.
    + by apply Hr.
    + apply Hs. by apply list_elem_of_further.
Qed.

Lemma elem_of_unique_from seen s x :
  x ∈ unique_from seen s → x ∈ s.
Proof.
  revert seen. induction s as [|y s IH]; intros seen; cbn; [done|].
  destruct (existsb (cell_eqb y) seen).
  - intros Hx. apply list_elem_of_further. by eapply IH.
  - intros [->|Hx]%elem_of_cons; [apply list_elem_of_here|].
    apply list_elem_of_further. by eapply IH.
Qed.

Lemma unique_from_complete seen s x :
  x ∈ s →
  existsb (cell_eqb x) seen = true ∨
  existsb (cell_eqb x) (unique_from seen s) = true.
Proof.
  revert seen. induction s as [|y s IH]; intros seen Hx; [by apply not_elem_of_nil in Hx|].
  apply elem_of_cons in Hx as [->|Hx]; cbn.
  - destruct (existsb (cell_eqb y) seen) eqn:E; [by left|].
    right. cbn. by rewrite cell_eqb_refl.
  - destruct (existsb (cell_eqb y) seen) eqn:E; [by apply IH|].
    destruct (IH (y :: seen) Hx) as [Hs|Hu].
    + cbn in Hs. apply orb_true_iff in Hs as [Hs|Hs]; [|by left].
      right. cbn. by rewrite Hs.
    + right. cbn. rewrite Hu. apply orb_true_r.
Qed.

(** Membership up to the equality of keys does not see [unique]. *)
Lemma existsb_unique (x : cell) (s : list cell) :
  existsb (cell_eqb x) (unique s) = existsb (cell_eqb x) s.
Proof.
  apply eq_true_iff_eq. rewrite !existsb_exists. split.
  - intros (y & Hy & E). exists y. split; [|done].
    apply list_elem_of_In. eapply elem_of_unique_from. by apply list_elem_of_In.
  - intros (y & Hy%list_elem_of_In & E).
    destruct (unique_from_complete [] s y Hy) as [Hs|Hu]; [done|].
    apply existsb_exists in Hu as (z & Hz & E'). exists z. split; [done|].
    by eapply cell_eqb_trans.
Qed.

(** ** Validation of three listings, one of longitude 200, and five
    reviews, one an orphan *)

Section scenario_validation.
Context {SC : Scalars}.
Variables (cfg : gmap string Q) (L R : DataFrame).

Hypothesis Hmax : (cfg_get "max_longitude" 180 cfg < 200)%Q.
Hypothesis Hids : forallb (id_present "id") (selected_listings L) = true.
Hypothesis Hdist : all_distinct ["id"] (selected_listings L) = true.
Hypothesis Hvalid :
  forallb (λ l, longitude_200 l || valid_listing cfg l) (selected_listings L)
  = true.
Hypothesis Hrids :
  forallb (id_present "listing_id") (selected_reviews R) = true.
Hypothesis Hrefs :
  forallb
    (λ r, negb (refers_to (selected_listings L) r)
          || (refers_to (List.filter (valid_listing cfg) (selected_listings L)) r
              && date_ok r))
    (selected_reviews R) = true.


Lemma cell_at_coerce_numeric (c : string) (l : gmap string cell) :
  c ≠ "availability_365" → c ≠ "latitude" → c ≠ "longitude" →
  cell_at c (coerce_numeric l) = cell_at c l.
Proof.
  intros H1 H2 H3. unfold coerce_numeric.
  by rewrite !cell_at_insert_ne by done.
Qed.














End scenario_validation.

(** ** Joins on a key that is unique on the right *)

Lemma distinct_keys_ext cols cols' rs rs' :
  row_key cols <$> rs = row_key cols' <$> rs' →
  distinct_keys cols rs → distinct_keys cols' rs'.
Proof.
  intros Hk Hd. revert rs' Hk.
  induction Hd as [|r rs Hr Hd IH]; intros [|r' rs'] Hk; try done.
  - constructor.
  - rewrite !fmap_cons in Hk. injection Hk as Hk1 Hk2.
    constructor; [|by apply IH].
    intros y (i & Hi)%list_elem_of_lookup.
    assert (Hy : (row_key cols' <$> rs') !! i = Some (row_key cols' y))
      by (by rewrite list_lookup_fmap, Hi).
    rewrite <- Hk2, list_lookup_fmap in Hy.
    destruct (rs !! i) as [x|] eqn:Hx; [|done]. injection Hy as Hy.
    rewrite <- Hy, <- Hk1. apply Hr. by eapply list_elem_of_lookup_2.
Qed.

Lemma row_key_with_index (cols : list string) (c : string)
    (rs : list (gmap string cell)) :
  label_in c cols = false →
  row_key cols <$> with_index c rs = row_key cols <$> rs.
Proof.
  intros Hc. apply list_eq. intros i.
  rewrite !list_lookup_fmap, lookup_with_index.
  destruct (rs !! i) as [r|]; cbn; [|done]. f_equal.
  unfold row_key. apply list_fmap_ext. intros j c' Hc'.
  apply cell_at_insert_ne. intros <-.
  apply list_elem_of_lookup_2, label_in_spec in Hc'. congruence.
Qed.

Lemma distinct_keys_with_index (cols : list string) (c : string)
    (rs : list (gmap string cell)) :
  label_in c cols = false →
  distinct_keys cols rs → distinct_keys cols (with_index c rs).
Proof.
  intros Hc. apply distinct_keys_ext. symmetry. by apply row_key_with_index.
Qed.

Lemma partners_at_most_one lo ro rs l :
  distinct_keys ro rs → (length (partners lo ro rs l) ≤ 1)%nat.
Proof.
  unfold partners. induction 1 as [|r rs Hr Hd IH]; cbn; [lia|].
  destruct (key_eqb (row_key lo l) (row_key ro r)) eqn:E; [|done].
  cbn. enough (List.filter (λ r0, key_eqb (row_key lo l) (row_key ro r0)) rs = [])
    as -> by (cbn; lia).
  destruct (List.filter _ rs) as [|y ys] eqn:Hf; [done|]. exfalso.
  assert (Hy : y ∈ List.filter (λ r0, key_eqb (row_key lo l) (row_key ro r0)) rs)
    by (rewrite Hf; apply list_elem_of_here).
  apply elem_of_filter_list in Hy as [Hy Hk].
  specialize (Hr y Hy). apply not_true_iff_false in Hr. apply Hr.
  eapply key_eqb_trans; [|exact E]. by rewrite key_eqb_sym.
Qed.

(** With distinct keys on the right, a left join gives one row for each
    left row. *)
Lemma join_rows_single lc rc ov lo ro rs l :
  distinct_keys ro rs →
  join_rows lc rc ov lo ro rs l =
  [join_row lc rc ov l (head (partners lo ro rs l))].
Proof.
  intros Hd. pose proof (partners_at_most_one lo ro rs l Hd) as Hlen.
  unfold join_rows. destruct (partners lo ro rs l) as [|p [|q ps]]; cbn in *;
    [done | done | lia].
Qed.

Lemma flat_map_join_rows lc rc ov lo ro rs ls :
  distinct_keys ro rs →
  flat_map (join_rows lc rc ov lo ro rs) ls =
  (λ l, join_row lc rc ov l (head (partners lo ro rs l))) <$> ls.
Proof.
  intros Hd. induction ls as [|l ls IH]; [done|].
  cbn [flat_map]. by rewrite IH, join_rows_single.
Qed.

Lemma head_partners lo ro rs l r :
  r ∈ rs → key_eqb (row_key lo l) (row_key ro r) = true →
  ∃ r', head (partners lo ro rs l) = Some r' ∧ r' ∈ rs ∧
        key_eqb (row_key lo l) (row_key ro r') = true.
Proof.
  intros Hr Hk.
  assert (Hp : r ∈ partners lo ro rs l) by (by apply elem_of_partners).
  destruct (partners lo ro rs l) as [|p ps] eqn:E;
    [by apply not_elem_of_nil in Hp|].
  exists p. split; [done|]. apply elem_of_partners. rewrite E.
  apply list_elem_of_here.
Qed.

(** ** Every listing and every review is joined once *)

Section complete_joins.
Context {SC : Scalars}.
Import transform.
Variables (now : Z) (ls rs : list (gmap string cell)) (prices : list cell).

Hypothesis Hd : distinct_keys ["id"] ls.
Hypothesis Hp : clean_price (cell_at "price" <$> ls) = Ok prices.
Hypothesis Hr :
  ∀ r, r ∈ rs →
       existsb (cell_eqb (cell_at "listing_id" r)) (cell_at "id" <$> ls) = true.
Hypothesis Hdate : ∀ r, r ∈ rs → date_ok r = true.

Lemma length_prices : length prices = length ls.
Proof.
  rewrite clean_price_elementwise in Hp. apply mapR_length in Hp.
  by rewrite Hp, length_fmap.
Qed.

Lemma row_key_enriched_listings :
  row_key ["listing_id"] <$> enriched_listings ls prices =
  row_key ["id"] <$> ls.
Proof.
  pose proof length_prices as Hlen. clear Hd Hp Hr Hdate.
  unfold enriched_listings. revert prices Hlen.
  induction ls as [|l ls' IH]; intros [|p ps] Hlen; try done.
  cbn [zip_with fmap list_fmap]. f_equal.
  - unfold row_key. cbn [fmap list_fmap]. by rewrite enriched_listing_id.
  - apply IH. cbn in Hlen. lia.
Qed.

Lemma length_enriched_listings :
  length (enriched_listings ls prices) = length ls.
Proof.
  pose proof (f_equal length row_key_enriched_listings) as Hl.
  by rewrite !length_fmap in Hl.
Qed.

Lemma enriched_listings_distinct :
  distinct_keys ["listing_id"] (enriched_listings ls prices).
Proof.
  eapply distinct_keys_ext; [|exact Hd].
  symmetry. apply row_key_enriched_listings.
Qed.

Lemma dim_neighborhood_rows_distinct (es : list (gmap string cell)) :
  distinct_keys ["neighbourhood_group"; "neighbourhood"]
    (dim_neighborhood_rows es).
Proof.
  unfold dim_neighborhood_rows.
  apply distinct_keys_with_index; [done|]. apply dedup_from_distinct.
Qed.

Lemma row_key_distinct_listings :
  row_key ["listing_id"] <$>
    distinct_listings (enriched_listings ls prices)
      (dim_neighborhood_rows (enriched_listings ls prices)) =
  row_key ["id"] <$> ls.
Proof.
  unfold distinct_listings, listing_neighborhood_rows.
  rewrite flat_map_join_rows by apply dim_neighborhood_rows_distinct.
  rewrite fmap_fmap.
  set (f := λ l, project dim_listing_columns _).
  assert (Hf : ∀ r, row_key ["listing_id"] (f r) = row_key ["listing_id"] r).
  { intros r. unfold f, row_key. cbn [fmap list_fmap].
    by rewrite cell_at_project, cell_at_join_row_l. }
  rewrite dedup_from_distinct_id.
  - rewrite fmap_fmap, <- row_key_enriched_listings.
    apply list_fmap_ext. intros i r _. apply Hf.
  - by apply (distinct_keys_fmap ["listing_id"]), enriched_listings_distinct.
  - done.
Qed.

(** One row of [dim_listing] for each validated listing. *)
Lemma row_key_dim_listing_rows :
  row_key ["listing_id"] <$>
    dim_listing_rows (enriched_listings ls prices)
      (dim_neighborhood_rows (enriched_listings ls prices)) =
  row_key ["id"] <$> ls.
Proof.
  unfold dim_listing_rows.
  rewrite row_key_with_index by done. apply row_key_distinct_listings.
Qed.

Lemma length_dim_listing_rows :
  length (dim_listing_rows (enriched_listings ls prices)
            (dim_neighborhood_rows (enriched_listings ls prices))) =
  length ls.
Proof.
  pose proof (f_equal length row_key_dim_listing_rows) as Hl.
  by rewrite !length_fmap in Hl.
Qed.

Lemma elem_of_by_keys cols cols' (rs1 rs2 : list (gmap string cell)) r2 :
  row_key cols <$> rs1 = row_key cols' <$> rs2 → r2 ∈ rs2 →
  ∃ r1, r1 ∈ rs1 ∧ row_key cols r1 = row_key cols' r2.
Proof.
  intros Hk (i & Hi)%list_elem_of_lookup.
  assert (Hy : (row_key cols' <$> rs2) !! i = Some (row_key cols' r2))
    by (by rewrite list_lookup_fmap, Hi).
  rewrite <- Hk, list_lookup_fmap in Hy.
  destruct (rs1 !! i) as [r1|] eqn:Hx; [|done]. injection Hy as Hy.
  exists r1. split; [by eapply list_elem_of_lookup_2 | done].
Qed.

Lemma sorted_ts_distinct c (ds : list (gmap string cell)) :
  Forall (is_ts c) ds →
  StronglySorted Z.lt ((λ r, ts_of (cell_at c r)) <$> ds) →
  distinct_keys [c] ds.
Proof.
  induction 1 as [|d ds [z Hz] Hts IH]; cbn; [constructor|].
  intros Hs. apply StronglySorted_inv in Hs as [Hs Hlt].
  constructor; [|by apply IH]. intros y Hy.
  rewrite key_eqb_single, Hz.
  rewrite Forall_forall in Hts. destruct (Hts y Hy) as [z' Hz'].
  rewrite Hz'. cbn. apply Z.eqb_neq.
  rewrite Forall_fmap, Forall_forall in Hlt. specialize (Hlt y Hy).
  cbn in Hlt. rewrite Hz, Hz' in Hlt. cbn in Hlt. lia.
Qed.

Lemma listing_keys_distinct (es dn : list (gmap string cell)) :
  distinct_keys ["listing_id"]
    (project ["listing_id"; "listing_sk"; "host_id"] <$> dim_listing_rows es dn).
Proof.
  apply (distinct_keys_fmap ["listing_id"]);
    [intros r; by apply row_key_project|].
  apply distinct_keys_with_index; [done|]. apply dedup_from_distinct.
Qed.

Lemma host_keys_distinct (es : list (gmap string cell)) :
  distinct_keys ["host_id"]
    (project ["host_id"; "host_sk"] <$> dim_host_rows now es).
Proof.
  apply (distinct_keys_fmap ["host_id"]);
    [intros r; by apply row_key_project|].
  apply (distinct_keys_fmap ["host_id"]).
  { intros r. unfold row_key, stamp_row. cbn [fmap list_fmap]. by cell_simpl. }
  apply distinct_keys_with_index; [done|]. apply dedup_from_distinct.
Qed.

Lemma date_keys_distinct (qs : list (gmap string cell)) :
  distinct_keys ["full_date"]
    (project ["date_sk"; "full_date"] <$> dim_date_rows (converted_reviews qs)).
Proof.
  apply (distinct_keys_fmap ["full_date"]);
    [intros r; by apply row_key_project|].
  apply (distinct_keys_fmap ["full_date"]).
  { intros r. unfold row_key, calendar_row. cbn [fmap list_fmap]. by cell_simpl. }
  apply distinct_keys_with_index; [done|].
  destruct (review_dates_spec qs) as (Hts & Hs & _).
  by apply sorted_ts_distinct.
Qed.

(** One joined row for each review. *)
Lemma length_fact_joined_rows (qs es dn : list (gmap string cell)) :
  length (fact_joined_rows (converted_reviews qs) (dim_listing_rows es dn)
            (dim_host_rows now es) (dim_date_rows (converted_reviews qs))) =
  length qs.
Proof.
  unfold fact_joined_rows, fact_date_rows, fact_host_rows, fact_listing_rows.
  rewrite (flat_map_join_rows _ _ _ _ _ _ _ (listing_keys_distinct es dn)).
  rewrite (flat_map_join_rows _ _ _ _ _ _ _ (host_keys_distinct es)).
  rewrite (flat_map_join_rows _ _ _ _ _ _ _ (date_keys_distinct qs)).
  rewrite !length_fmap. unfold converted_reviews. by rewrite length_fmap.
Qed.

End complete_joins.

Section resolved_joins.
Context {SC : Scalars}.
Import transform.
Variables (now : Z) (ls rs : list (gmap string cell)) (prices : list cell).

Hypothesis Hd : distinct_keys ["id"] ls.
Hypothesis Hp : clean_price (cell_at "price" <$> ls) = Ok prices.
Hypothesis Hr :
  ∀ r, r ∈ rs →
       existsb (cell_eqb (cell_at "listing_id" r)) (cell_at "id" <$> ls) = true.
Hypothesis Hdate : ∀ r, r ∈ rs → date_ok r = true.

Lemma resolved_of_keys j :
  cell_at "listing_sk" j ≠ NA → cell_at "host_sk" j ≠ NA →
  cell_at "date_sk" j ≠ NA → resolved j = true.
Proof.
  unfold resolved, has_na. cbn [existsb].
  by destruct (cell_at "listing_sk" j), (cell_at "host_sk" j),
    (cell_at "date_sk" j).
Qed.

Lemma dim_date_row_keyed qs x :
  x ∈ dim_date_rows qs → ∃ i : nat, cell_at "date_sk" x = Int (Z.of_nat i + 1).
Proof.
  intros (x1 & -> & (i & x0 & _ & ->)%elem_of_with_index)%list_elem_of_fmap.
  exists i. unfold calendar_row. by cell_simpl.
Qed.

Lemma dim_listing_row_keyed es dn y :
  y ∈ dim_listing_rows es dn →
  ∃ i : nat, cell_at "listing_sk" y = Int (Z.of_nat i + 1).
Proof.
  intros (i & y0 & _ & ->)%elem_of_with_index. exists i. by cell_simpl.
Qed.



Lemma length_dim_listing :
  length (rows (t_dim_listing (tables_of now ls rs prices))) = length ls.
Proof.
  unfold tables_of; cbn [t_dim_listing rows].
  by apply length_dim_listing_rows.
Qed.

End resolved_joins.

(** ** From the raw extract to the fact table *)

Section end_to_end.
Context {SC : Scalars}.
Import transform.





End end_to_end.

(** ** The sample extract *)

Section sample_facts.
Import transform sample sample_run.

Lemma sample_checked :
  validate.run_validate ∅ listings reviews =
  Ok (validated.1, validated.2, checked.2).
Proof. vm_compute. reflexivity. Defined.

Lemma sample_built :
  build_tables run_date validated.1 validated.2 = Ok working.
Proof. vm_compute. reflexivity. Defined.

Lemma sample_loaded :
  run_transform run_date validated.1 validated.2 = Ok (loaded.1, loaded.2).
Proof. vm_compute. reflexivity. Defined.

Lemma sample_listing_columns : columns validated.1 = listings_required.
Proof. vm_compute. reflexivity. Defined.

Lemma sample_review_columns : columns validated.2 = reviews_required.
Proof. vm_compute. reflexivity. Defined.

(** C1, as stated, fails: on the sample listings without their price
    column [run_validate] raises the KeyError of the column selection and
    returns nothing. *)
Lemma run_validate_raises_without_price :
  missing_labels listings_required listings_without_price = ["price"] ∧
  validate.run_validate ∅ listings_without_price reviews =
    Raise (KeyError ["price"]) ∧
  ∀ out, validate.run_validate ∅ listings_without_price reviews ≠ Ok out.
Proof.
  assert (Hr : validate.run_validate ∅ listings_without_price reviews =
               Raise (KeyError ["price"])) by (vm_compute; reflexivity).
  split; [reflexivity|]. split; [exact Hr|].
  intros out. rewrite Hr. discriminate.
Qed.

Lemma run_validate_returns_witness :
  missing_labels listings_required listings = [] ∧
  missing_labels reviews_required reviews = [] ∧
  ∃ L' R' rep,
    validate.run_validate ∅ listings reviews = Ok (L', R', rep) ∧
    columns L' = listings_required ∧
    columns R' = reviews_required ∧
    sublist (rows L') (coerce_numeric <$> selected_listings listings) ∧
    sublist (rows R') (selected_reviews reviews) ∧
    name <$> checks rep = check_names ∧
    listings_row_count_after_validation rep = length (rows L') ∧
    reviews_row_count_after_validation rep = length (rows R').
Proof.
  split; [reflexivity|]. split; [reflexivity|].
  apply (proj1 (run_validate_returns ∅ listings reviews)); reflexivity.
Defined.

(** C3, as stated, fails: the snapshot of the sample run has none of the
    three derived metrics of the data model among its columns. *)
Lemma dim_listing_snapshot_lacks_metrics :
  run_transform run_date validated.1 validated.2 = Ok loaded ∧
  Forall (λ c, c ∈ dim_listing_model_columns ∧
               c ∉ columns (dim_listing loaded.1))
    derived_metric_columns.
Proof.
  split; [vm_compute; reflexivity|].
  repeat constructor; try (apply label_in_spec; reflexivity);
    intros Hin%label_in_spec; vm_compute in Hin; discriminate.
Qed.

Lemma dim_listing_snapshot_columns_witness :
  build_tables run_date validated.1 validated.2 = Ok working ∧
  run_transform run_date validated.1 validated.2 = Ok (loaded.1, loaded.2) ∧
  columns (dim_listing loaded.1) =
    ["listing_sk"; "listing_id"; "name"; "host_id"; "neighborhood_sk";
     "room_type"; "price"; "minimum_nights"; "availability_365";
     "number_of_reviews"; "reviews_per_month"; "number_of_reviews_ltm";
     "license"; "latitude"; "longitude"] ∧
  columns (dim_listing loaded.1) =
    List.filter (λ c, negb (label_in c derived_metric_columns))
      dim_listing_model_columns ∧
  columns (t_dim_listing working) ≡ₚ dim_listing_model_columns.
Proof.
  split; [exact sample_built|]. split; [exact sample_loaded|].
  exact (dim_listing_snapshot_columns run_date validated.1 validated.2
           working loaded.1 loaded.2 sample_built sample_loaded).
Defined.

(** C4, as stated, fails: the same validated sample transformed on two
    different days gives two different results; the [valid_from] column of
    [dim_host] holds the day of the run. *)
Lemma run_transform_differs_by_run_date :
  run_transform run_date validated.1 validated.2 = Ok (loaded_at run_date) ∧
  run_transform next_day validated.1 validated.2 = Ok (loaded_at next_day) ∧
  column "valid_from" (dim_host (loaded_at run_date).1) = [Ts run_date] ∧
  column "valid_from" (dim_host (loaded_at next_day).1) = [Ts next_day] ∧
  loaded_at run_date ≠ loaded_at next_day.
Proof.
  split; [vm_compute; reflexivity|]. split; [vm_compute; reflexivity|].
  split; [vm_compute; reflexivity|]. split; [vm_compute; reflexivity|].
  intros Heq.
  apply (f_equal (λ o, column "valid_from" (dim_host o.1))) in Heq.
  vm_compute in Heq. discriminate.
Qed.

Lemma run_transform_run_date_witness :
  columns validated.1 = listings_required ∧
  columns validated.2 = reviews_required ∧
  run_transform run_date validated.1 validated.2 = Ok (loaded.1, loaded.2) ∧
  ∃ d2,
    run_transform next_day validated.1 validated.2 = Ok (d2, loaded.2) ∧
    dim_date d2 = dim_date loaded.1 ∧
    dim_neighborhood d2 = dim_neighborhood loaded.1 ∧
    dim_listing d2 = dim_listing loaded.1 ∧
    columns (dim_host d2) = columns (dim_host loaded.1) ∧
    rows (dim_host d2) =
      (λ r, <["valid_from" := Ts (normalize next_day)]> r) <$>
      rows (dim_host loaded.1) ∧
    (∀ r, r ∈ rows (dim_host loaded.1) →
          cell_at "valid_from" r = Ts (normalize run_date)).
Proof.
  split; [exact sample_listing_columns|].
  split; [exact sample_review_columns|].
  split; [exact sample_loaded|].
  exact (run_transform_run_date run_date next_day validated.1 validated.2
           loaded.1 loaded.2 sample_listing_columns sample_review_columns
           sample_loaded).
Defined.

Lemma fact_reviews_integrity_witness :
  columns validated.1 = listings_required ∧
  columns validated.2 = reviews_required ∧
  build_tables run_date validated.1 validated.2 = Ok working ∧
  run_transform run_date validated.1 validated.2 = Ok (loaded.1, loaded.2) ∧
  (∀ row, row ∈ rows (fact_reviews loaded.2) →
     cell_at "listing_sk" row ≠ NA ∧
     cell_at "listing_sk" row ∈ column "listing_sk" (dim_listing loaded.1) ∧
     cell_at "host_sk" row ≠ NA ∧
     cell_at "host_sk" row ∈ column "host_sk" (dim_host loaded.1) ∧
     cell_at "date_sk" row ≠ NA ∧
     cell_at "date_sk" row ∈ column "date_sk" (dim_date loaded.1) ∧
     cell_at "review_count" row = Int 1) ∧
  rows (fact_reviews loaded.2) =
    gate_row <$> List.filter resolved (rows (t_fact_joined working)).
Proof.
  split; [exact sample_listing_columns|].
  split; [exact sample_review_columns|].
  split; [exact sample_built|]. split; [exact sample_loaded|].
  exact (fact_reviews_integrity run_date validated.1 validated.2 working
           loaded.1 loaded.2 sample_listing_columns sample_review_columns
           sample_built sample_loaded).
Defined.

Lemma surrogate_keys_dense_witness :
  columns validated.1 = listings_required ∧
  columns validated.2 = reviews_required ∧
  run_transform run_date validated.1 validated.2 = Ok (loaded.1, loaded.2) ∧
  keyed_from_one "date_sk" (dim_date loaded.1) ∧
  keyed_from_one "neighborhood_sk" (dim_neighborhood loaded.1) ∧
  keyed_from_one "host_sk" (dim_host loaded.1) ∧
  keyed_from_one "listing_sk" (dim_listing loaded.1) ∧
  ∃ zs : list Z,
    cell_at "full_date" <$> rows (dim_date loaded.1) = Ts <$> zs ∧
    StronglySorted Z.lt zs ∧
    ∀ z, z ∈ zs ↔ Ts z ∈ to_datetime (cell_at "date" <$> rows validated.2).
Proof.
  split; [exact sample_listing_columns|].
  split; [exact sample_review_columns|].
  split; [exact sample_loaded|].
  exact (surrogate_keys_dense run_date validated.1 validated.2 loaded.1
           loaded.2 sample_listing_columns sample_review_columns
           sample_loaded).
Defined.

Lemma hosts_cover_listings_witness :
  columns validated.1 = listings_required ∧
  columns validated.2 = reviews_required ∧
  build_tables run_date validated.1 validated.2 = Ok working ∧
  run_transform run_date validated.1 validated.2 = Ok (loaded.1, loaded.2) ∧
  (∀ r, r ∈ rows (dim_listing loaded.1) →
     ∃ h, h ∈ rows (dim_host loaded.1) ∧
          cell_eqb (cell_at "host_id" r) (cell_at "host_id" h) = true) ∧
  (∀ j, j ∈ rows (t_fact_joined working) →
     cell_at "listing_sk" j ≠ NA → cell_at "host_sk" j ≠ NA).
Proof.
  split; [exact sample_listing_columns|].
  split; [exact sample_review_columns|].
  split; [exact sample_built|]. split; [exact sample_loaded|].
  exact (hosts_cover_listings run_date validated.1 validated.2 working
           loaded.1 loaded.2 sample_listing_columns sample_review_columns
           sample_built sample_loaded).
Defined.



(** C8, as stated, fails: three listings, one of them of longitude 200,
    and five reviews, exactly one of them of an id no listing has, all
    else valid, but one review is of the listing of longitude 200.  The
    foreign-key check runs against the listings validation keeps, so that
    review is dropped with the orphan: three reviews are kept, two orphans
    are reported and the fact table has three rows. *)
Lemma end_to_end_scenario_review_of_dropped_listing :
  missing_labels listings_required listings = [] ∧
  missing_labels reviews_required reviews_of_dropped_listing = [] ∧
  length (rows listings) = 3%nat ∧
  length (rows reviews_of_dropped_listing) = 5%nat ∧
  forallb (id_present "id") (selected_listings listings) = true ∧
  all_distinct ["id"] (selected_listings listings) = true ∧
  length (List.filter longitude_200 (selected_listings listings)) = 1%nat ∧
  forallb (λ l, longitude_200 l || valid_listing ∅ l)
    (selected_listings listings) = true ∧
  forallb (λ r, id_present "listing_id" r && date_ok r)
    (selected_reviews reviews_of_dropped_listing) = true ∧
  length (List.filter (λ r, negb (refers_to (selected_listings listings) r))
            (selected_reviews reviews_of_dropped_listing)) = 1%nat ∧
  (∃ L' R' rep d f,
     validate.run_validate ∅ listings reviews_of_dropped_listing
     = Ok (L', R', rep) ∧
     length (rows L') = 2%nat ∧
     length (rows R') = 3%nat ∧
     check_field "longitude_in_range" rep = Some ("invalid_count", 1%nat) ∧
     check_field "reviews_listing_id_fk" rep = Some ("orphan_reviews", 2%nat) ∧
     run_transform run_date L' R' = Ok (d, f) ∧
     length (rows (fact_reviews f)) = 3%nat) ∧
  ¬ scenario_outcome ∅ run_date listings reviews_of_dropped_listing.
Proof.
  assert (Hv : validate.run_validate ∅ listings reviews_of_dropped_listing
               = Ok (checked_of_dropped_listing.1.1,
                     checked_of_dropped_listing.1.2,
                     checked_of_dropped_listing.2))
    by (vm_compute; reflexivity).
  do 10 (split; [vm_compute; reflexivity|]).
  split.
  - exists checked_of_dropped_listing.1.1, checked_of_dropped_listing.1.2,
      checked_of_dropped_listing.2, loaded_of_dropped_listing.1,
      loaded_of_dropped_listing.2.
    split; [exact Hv|].
    do 5 (split; [vm_compute; reflexivity|]).
    vm_compute. reflexivity.
  - intros (L' & R' & rep & d & f & Hv' & _ & H4 & _).
    assert (E : match validate.run_validate ∅ listings
                        reviews_of_dropped_listing with
                | Ok (_, R0, _) => length (rows R0)
                | Raise _ => 0%nat
                end = 4%nat)
      by exact (eq_trans
                  (f_equal (λ o, match o with
                                 | Ok (_, R0, _) => length (rows R0)
                                 | Raise _ => 0%nat
                                 end) Hv') H4).
    vm_compute in E. discriminate.
Qed.

End sample_facts.

(** * Further properties of the stages *)

(** ** What validation guarantees *)

Section validated_output.
Context {SC : Scalars}.

Lemma between_cell_spec (lo hi : Q) (c : cell) :
  between_cell lo hi c = true ↔ ∃ q, c = Num q ∧ (lo <= q)%Q ∧ (q <= hi)%Q.
Proof.
  destruct c as [|q|s|z|b]; cbn; try (split; [done | by intros (? & ? & _)]).
  rewrite andb_true_iff, !Qle_bool_iff. split.
  - intros [? ?]. by exists q.
  - by intros (q' & [= <-] & ? & ?).
Qed.

(** X1.  [run_validate] raises exactly when a required column is missing,
    and then the KeyError names the missing labels: those of the listings
    when any is missing there, those of the reviews otherwise. *)
Theorem run_validate_raises_iff (cfg : gmap string Q) (L R : DataFrame)
    (e : exn) :
  validate.run_validate cfg L R = Raise e ↔
  (missing_labels listings_required L ≠ [] ∧
   e = KeyError (missing_labels listings_required L)) ∨
  (missing_labels listings_required L = [] ∧
   missing_labels reviews_required R ≠ [] ∧
   e = KeyError (missing_labels reviews_required R)).
Proof.
  destruct (missing_labels listings_required L) as [|c cs] eqn:HL.
  - destruct (missing_labels reviews_required R) as [|c' cs'] eqn:HR.
    + rewrite (run_validate_closed cfg L R HL HR). split; [done|].
      intros [[? _]|(_ & ? & _)]; done.
    + rewrite run_validate_missing_reviews, HR by (done || by rewrite HR).
      split.
      * intros [= <-]. right. done.
      * intros [[? _]|(_ & _ & ->)]; done.
  - rewrite run_validate_missing_listings, HL by (by rewrite HL). split.
    + intros [= <-]. by left.
    + intros [[_ ->]|(? & _)]; done.
Qed.

(** X2.  The listings [run_validate] returns carry the required columns
    only, have a present id each, pairwise different ids, and a numeric
    latitude, longitude and availability inside the configured bounds. *)
Theorem validated_listings_in_range (cfg : gmap string Q)
    (L0 R0 L R : DataFrame) (rep : report) :
  validate.run_validate cfg L0 R0 = Ok (L, R, rep) →
  columns L = listings_required ∧
  distinct_keys ["id"] (rows L) ∧
  ∀ l, l ∈ rows L →
    cell_at "id" l ≠ NA ∧
    (∃ q, cell_at "latitude" l = Num q ∧
          (cfg_get "min_latitude" (-90) cfg <= q)%Q ∧
          (q <= cfg_get "max_latitude" 90 cfg)%Q) ∧
    (∃ q, cell_at "longitude" l = Num q ∧
          (cfg_get "min_longitude" (-180) cfg <= q)%Q ∧
          (q <= cfg_get "max_longitude" 180 cfg)%Q) ∧
    (∃ q, cell_at "availability_365" l = Num q ∧
          (0 <= q)%Q ∧ (q <= cfg_get "max_availability" 365 cfg)%Q).
Proof.
  intros (-> & _ & _)%run_validate_Ok. cbn [columns rows].
  split; [done|]. split; [apply kept_listings_distinct|].
  intros l (Hc & Hlat & Hlon & Hav)%elem_of_kept_listings.
  split; [|split; [|split]].
  - unfold coerced_listings in Hc.
    apply list_elem_of_fmap in Hc as (r & -> & Hr).
    apply dedup_from_elem_of in Hr. unfold identified_listings in Hr.
    apply list_elem_of_In, filter_In in Hr as [_ Hid].
    unfold id_present in Hid. unfold coerce_numeric. cell_simpl.
    by destruct (cell_at "id" r).
  - by apply between_cell_spec.
  - by apply between_cell_spec.
  - by apply between_cell_spec.
Qed.

(** X3.  No orphan survives: every review [run_validate] returns has a
    present listing id, and that id is the id of a listing it returns. *)
Theorem validated_reviews_reference_listings (cfg : gmap string Q)
    (L0 R0 L R : DataFrame) (rep : report) :
  validate.run_validate cfg L0 R0 = Ok (L, R, rep) →
  columns R = reviews_required ∧
  ∀ r, r ∈ rows R →
    cell_at "listing_id" r ≠ NA ∧
    ∃ l, l ∈ rows L ∧
         cell_eqb (cell_at "listing_id" r) (cell_at "id" l) = true.
Proof.
  intros (-> & -> & _)%run_validate_Ok. cbn [columns rows].
  split; [done|]. intros r Hr. unfold kept_reviews in Hr.
  apply list_elem_of_In, filter_In in Hr as [Hr Hex].
  unfold identified_reviews in Hr. apply filter_In in Hr as [_ Hid].
  split.
  - unfold id_present in Hid. by destruct (cell_at "listing_id" r).
  - rewrite existsb_unique in Hex.
    apply existsb_exists in Hex as (x & Hx & Hc).
    apply list_elem_of_In, list_elem_of_fmap in Hx as (l & -> & Hl). eauto.
Qed.

End validated_output.

(** ** Duplicates: what is counted and what is kept *)

Section duplicates.

(** The duplicates [duplicated] marks are the rows [drop_duplicates]
    removes. *)
Lemma duplicated_from_dedup_from (c : string) (seen : list cell)
    (keys : list (list cell)) (rs : list (gmap string cell)) :
  (∀ x, existsb (cell_eqb x) seen = existsb (key_eqb [x]) keys) →
  (mask_sum (duplicated_from seen (cell_at c <$> rs))
   + length (dedup_from [c] keys rs) = length rs)%nat.
Proof.
  revert seen keys. induction rs as [|r rs IH]; intros seen keys Hs; [done|].
  cbn [fmap list_fmap duplicated_from dedup_from length].
  change (row_key [c] r) with [cell_at c r].
  rewrite <- (Hs (cell_at c r)).
  unfold mask_sum in *. cbn [List.filter].
  destruct (existsb (cell_eqb (cell_at c r)) seen) eqn:E; cbn [id length].
  - rewrite <- (IH (cell_at c r :: seen) keys); [lia|].
    intros x. cbn [existsb]. rewrite <- Hs.
    destruct (cell_eqb x (cell_at c r)) eqn:Ex; [|done]. cbn.
    symmetry. apply existsb_exists in E as (y & Hy & Ey).
    apply existsb_exists. exists y. split; [done|].
    by eapply cell_eqb_trans.
  - rewrite <- (IH (cell_at c r :: seen) ([cell_at c r] :: keys)); [lia|].
    intros x. cbn [existsb]. rewrite <- Hs. cbn [key_eqb]. by rewrite andb_true_r.
Qed.

Lemma duplicated_dedup (c : string) (rs : list (gmap string cell)) :
  (mask_sum (duplicated (cell_at c <$> rs)) + length (dedup_from [c] [] rs)
   = length rs)%nat.
Proof. by apply duplicated_from_dedup_from. Qed.

(** A row [drop_duplicates] keeps stands before every other row of its
    key. *)
Lemma dedup_from_first cols seen rs x :
  x ∈ dedup_from cols seen rs →
  ∃ pre post, rs = pre ++ x :: post ∧
    ∀ y, y ∈ pre → key_eqb (row_key cols y) (row_key cols x) = false.
Proof.
  revert seen. induction rs as [|r rs IH]; intros seen; cbn; [by intros ?%not_elem_of_nil|].
  destruct (existsb (key_eqb (row_key cols r)) seen) eqn:E.
  - intros Hx. pose proof (dedup_from_fresh _ _ _ _ Hx) as Hfresh.
    destruct (IH _ Hx) as (pre & post & -> & Hpre).
    exists (r :: pre), post. split; [done|].
    intros y [->|Hy]%elem_of_cons; [|by apply Hpre].
    destruct (key_eqb (row_key cols r) (row_key cols x)) eqn:Ek; [|done].
    rewrite <- Hfresh. symmetry.
    apply existsb_exists in E as (k & Hk & Ekk).
    apply existsb_exists. exists k. split; [done|].
    eapply key_eqb_trans; [|exact Ekk]. by rewrite key_eqb_sym.
  - intros [->|Hx]%elem_of_cons.
    + exists [], rs. split; [done|]. by intros y ?%not_elem_of_nil.
    + pose proof (dedup_from_fresh _ _ _ _ Hx) as Hfresh.
      destruct (IH _ Hx) as (pre & post & -> & Hpre).
      exists (r :: pre), post. split; [done|].
      intros y [->|Hy]%elem_of_cons; [|by apply Hpre].
      cbn in Hfresh. apply orb_false_iff in Hfresh as [Hk _].
      by rewrite key_eqb_sym.
Qed.

Lemma filter_split {A} (f : A → bool) (l l1 l2 : list A) (x : A) :
  List.filter f l = l1 ++ x :: l2 →
  ∃ k1 k2, l = k1 ++ x :: k2 ∧ List.filter f k1 = l1 ∧ List.filter f k2 = l2.
Proof.
  revert l1. induction l as [|a l IH]; intros l1; cbn.
  - by destruct l1.
  - destruct (f a) eqn:E.
    + destruct l1 as [|b l1]; cbn.
      * intros [= -> Hl]. exists [], l. done.
      * intros [= -> Hl]. destruct (IH _ Hl) as (k1 & k2 & -> & H1 & H2).
        exists (b :: k1), k2. cbn. rewrite E. by rewrite H1, H2.
    + intros Hl. destruct (IH _ Hl) as (k1 & k2 & -> & H1 & H2).
      exists (a :: k1), k2. cbn. by rewrite E.
Qed.

End duplicates.

Section first_kept.
Context {SC : Scalars}.

(** X4.  Of several listings with the same id, only the first one of the
    input can be kept: every listing [run_validate] returns is the
    selection, with the three numeric fields coerced, of an input row that
    no row with the same id precedes. *)
Theorem validated_listing_is_first_of_its_id (cfg : gmap string Q)
    (L0 R0 L R : DataFrame) (rep : report) :
  validate.run_validate cfg L0 R0 = Ok (L, R, rep) →
  ∀ l, l ∈ rows L →
    ∃ pre r0 post,
      rows L0 = pre ++ r0 :: post ∧
      l = coerce_numeric (project listings_required r0) ∧
      ∀ y, y ∈ pre → cell_eqb (cell_at "id" y) (cell_at "id" r0) = false.
Proof.
  intros (-> & _ & _)%run_validate_Ok l Hl. cbn [rows] in Hl.
  apply elem_of_kept_listings in Hl as [Hl _].
  unfold coerced_listings in Hl.
  apply list_elem_of_fmap in Hl as (r & -> & Hr).
  pose proof (dedup_from_elem_of _ _ _ _ Hr) as Hin.
  apply dedup_from_first in Hr as (pre' & post' & Hsplit & Hpre).
  unfold identified_listings in Hsplit, Hin.
  apply list_elem_of_In, filter_In in Hin as [_ Hid].
  apply filter_split in Hsplit as (k1 & k2 & Hsel & Hk1 & _).
  unfold selected_listings in Hsel.
  apply fmap_app_inv in Hsel as (pre & tl & -> & Htl & Hrows).
  symmetry in Htl. apply fmap_cons_inv in Htl as (r0 & post & -> & -> & ->).
  exists pre, r0, post. split; [done|]. split; [done|].
  intros y Hy.
  assert (Hc : ∀ z, cell_at "id" (project listings_required z) = cell_at "id" z)
    by (intros z; by rewrite cell_at_project).
  rewrite <- (Hc y), <- (Hc r0).
  destruct (id_present "id" (project listings_required y)) eqn:Ey.
  - rewrite <- key_eqb_single. apply Hpre. rewrite <- Hk1.
    apply list_elem_of_In, filter_In. split; [|done].
    by apply list_elem_of_In, list_elem_of_fmap_2.
  - unfold id_present in Ey, Hid.
    destruct (cell_at "id" (project listings_required y)); try done.
    by destruct (cell_at "id" (project listings_required r0)).
Qed.

End first_kept.

(** ** The counts of the report *)

Section accounting.
Context {SC : Scalars}.

Lemma length_filter_orb {A} (f g : A → bool) (l : list A) :
  (Nat.max (length (List.filter f l)) (length (List.filter g l))
   ≤ length (List.filter (λ x, f x || g x) l))%nat ∧
  (length (List.filter (λ x, f x || g x) l)
   ≤ length (List.filter f l) + length (List.filter g l))%nat.
Proof.
  induction l as [|x l [IH1 IH2]]; cbn; [lia|].
  destruct (f x), (g x); cbn; lia.
Qed.

(** X5.  The report accounts for every row validation removes.  The
    reviews returned, the reviews without a listing id and the orphan
    reviews add up to the reviews received; the listings returned and the
    counts of the null, duplicate, range and availability checks bracket
    the listings received (a listing out of range in both latitude and
    longitude is counted by both checks and removed once). *)
Theorem validation_counts_add_up (cfg : gmap string Q)
    (L0 R0 L R : DataFrame) (rep : report) :
  validate.run_validate cfg L0 R0 = Ok (L, R, rep) →
  listings_row_count_after_validation rep = length (rows L) ∧
  reviews_row_count_after_validation rep = length (rows R) ∧
  (length (rows R0) =
     length (rows R) + report_count "reviews_listing_id_not_null" rep
     + report_count "reviews_listing_id_fk" rep)%nat ∧
  (length (rows L) + report_count "listings_id_not_null" rep
   + report_count "listings_id_unique" rep
   + Nat.max (report_count "latitude_in_range" rep)
       (report_count "longitude_in_range" rep)
   + report_count "availability_in_range" rep ≤ length (rows L0))%nat ∧
  (length (rows L0) ≤
     length (rows L) + report_count "listings_id_not_null" rep
     + report_count "listings_id_unique" rep
     + report_count "latitude_in_range" rep
     + report_count "longitude_in_range" rep
     + report_count "availability_in_range" rep)%nat.
Proof.
  intros (-> & -> & ->)%run_validate_Ok. cbn [rows].
  split; [done|]. split; [done|].
  change (report_count "reviews_listing_id_not_null" _) with
    (length (List.filter (λ r, is_na (cell_at "listing_id" r))
               (selected_reviews R0))).
  change (report_count "reviews_listing_id_fk" _) with
    (length
       (List.filter
          (λ r, negb (existsb (cell_eqb (cell_at "listing_id" r))
                        (unique (cell_at "id" <$> kept_listings cfg L0))))
          (identified_reviews R0))).
  change (report_count "listings_id_not_null" _) with
    (length (List.filter (λ r, is_na (cell_at "id" r)) (selected_listings L0))).
  change (report_count "listings_id_unique" _) with
    (mask_sum (duplicated (cell_at "id" <$> identified_listings L0))).
  change (report_count "latitude_in_range" _) with
    (length (List.filter (λ r, negb (lat_ok cfg r)) (coerced_listings L0))).
  change (report_count "longitude_in_range" _) with
    (length (List.filter (λ r, negb (lon_ok cfg r)) (coerced_listings L0))).
  change (report_count "availability_in_range" _) with
    (length (List.filter (λ r, negb (avail_ok cfg r)) (geo_listings cfg L0))).
  (* reviews *)
  assert (HR : length (rows R0) = length (selected_reviews R0))
    by (unfold selected_reviews; by rewrite length_fmap).
  pose proof (length_filter_negb (id_present "listing_id")
                (selected_reviews R0)) as HRid.
  rewrite (filter_ext_elem (λ x, negb (id_present "listing_id" x))
             (λ r, is_na (cell_at "listing_id" r))) in HRid
    by (intros x _; unfold id_present; apply negb_involutive).
  fold (identified_reviews R0) in HRid.
  pose proof (length_filter_negb
                (λ r, existsb (cell_eqb (cell_at "listing_id" r))
                        (unique (cell_at "id" <$> kept_listings cfg L0)))
                (identified_reviews R0)) as HRfk.
  (* listings *)
  assert (HL : length (rows L0) = length (selected_listings L0))
    by (unfold selected_listings; by rewrite length_fmap).
  pose proof (length_filter_negb (id_present "id") (selected_listings L0))
    as HLid.
  rewrite (filter_ext_elem (λ x, negb (id_present "id" x))
             (λ r, is_na (cell_at "id" r))) in HLid
    by (intros x _; unfold id_present; apply negb_involutive).
  fold (identified_listings L0) in HLid.
  pose proof (duplicated_dedup "id" (identified_listings L0)) as HLdup.
  assert (HLco : length (coerced_listings L0) =
                 length (dedup_from ["id"] [] (identified_listings L0)))
    by (unfold coerced_listings; by rewrite length_fmap).
  pose proof (length_filter_negb
                (λ r, negb (lat_ok cfg r) || negb (lon_ok cfg r))
                (coerced_listings L0)) as HLgeo.
  pose proof (length_filter_orb (λ r, negb (lat_ok cfg r))
                (λ r, negb (lon_ok cfg r)) (coerced_listings L0)) as [Hg1 Hg2].
  pose proof (length_filter_negb (λ r, negb (avail_ok cfg r))
                (geo_listings cfg L0)) as HLav.
  unfold kept_reviews, kept_listings, geo_listings in *. cbv beta in *. lia.
Qed.

End accounting.

(** ** Validating twice *)

Section revalidation.
Context {SC : Scalars}.

Lemma to_numeric_cell_idem (c : cell) :
  to_numeric_cell (to_numeric_cell c) = to_numeric_cell c.
Proof.
  destruct c as [|q|s|z|b]; cbn [to_numeric_cell]; try done.
  all: by destruct (numeric_of _).
Qed.

Lemma insert_cell_at (c : string) (r : gmap string cell) :
  is_Some (r !! c) → <[c := cell_at c r]> r = r.
Proof.
  intros [v Hv]. apply insert_id. unfold cell_at. by rewrite Hv.
Qed.

Lemma coerce_numeric_idem (r : gmap string cell) :
  coerce_numeric (coerce_numeric r) = coerce_numeric r.
Proof.
  set (k := coerce_numeric r).
  assert (Ha : cell_at "availability_365" k =
               to_numeric_cell (cell_at "availability_365" r))
    by (unfold k, coerce_numeric; by cell_simpl).
  assert (Hlat : cell_at "latitude" k = to_numeric_cell (cell_at "latitude" r))
    by (unfold k, coerce_numeric; by cell_simpl).
  assert (Hlon : cell_at "longitude" k = to_numeric_cell (cell_at "longitude" r))
    by (unfold k, coerce_numeric; by cell_simpl).
  assert (Hk : is_Some (k !! "availability_365") ∧ is_Some (k !! "latitude") ∧
               is_Some (k !! "longitude")).
  { unfold k, coerce_numeric. repeat split.
    - rewrite !lookup_insert_ne by done. by rewrite lookup_insert_eq.
    - rewrite lookup_insert_ne by done. by rewrite lookup_insert_eq.
    - by rewrite lookup_insert_eq. }
  destruct Hk as (K1 & K2 & K3).
  unfold coerce_numeric at 1. cbv zeta.
  rewrite Ha, to_numeric_cell_idem, <- Ha, (insert_cell_at _ k K1).
  rewrite Hlat, to_numeric_cell_idem, <- Hlat, (insert_cell_at _ k K2).
  by rewrite Hlon, to_numeric_cell_idem, <- Hlon, (insert_cell_at _ k K3).
Qed.

Lemma project_project (cols : list string) (r : gmap string cell) :
  project cols (project cols r) = project cols r.
Proof. apply project_ext. intros c Hc. by rewrite cell_at_project. Qed.

Lemma project_coerce_numeric (r : gmap string cell) :
  project listings_required (coerce_numeric (project listings_required r)) =
  coerce_numeric (project listings_required r).
Proof.
  unfold coerce_numeric. cbv zeta.
  rewrite !insert_project by reflexivity. apply project_project.
Qed.

Lemma fmap_fixed {A} (f : A → A) (l : list A) :
  (∀ x, x ∈ l → f x = x) → f <$> l = l.
Proof.
  intros Hf. rewrite <- (list_fmap_id l) at 2.
  apply list_fmap_ext. intros i x Hx. apply Hf. by eapply list_elem_of_lookup_2.
Qed.

Lemma kept_listing_shape (cfg : gmap string Q) (L0 : DataFrame) l :
  l ∈ kept_listings cfg L0 →
  project listings_required l = l ∧ coerce_numeric l = l ∧
  id_present "id" l = true.
Proof.
  intros [Hl _]%elem_of_kept_listings. unfold coerced_listings in Hl.
  apply list_elem_of_fmap in Hl as (r & -> & Hr).
  apply dedup_from_elem_of in Hr. unfold identified_listings in Hr.
  apply list_elem_of_In, filter_In in Hr as [Hr Hid].
  apply list_elem_of_In in Hr. unfold selected_listings in Hr.
  apply list_elem_of_fmap in Hr as (r0 & -> & _).
  split; [apply project_coerce_numeric|].
  split; [apply coerce_numeric_idem|].
  unfold id_present in *. by rewrite cell_at_coerce_numeric.
Qed.

(** The listings validation returns pass validation unchanged. *)
Lemma kept_listings_fixed (cfg : gmap string Q) (L0 : DataFrame) :
  kept_listings cfg (mkDataFrame listings_required (kept_listings cfg L0)) =
  kept_listings cfg L0.
Proof.
  set (K := kept_listings cfg L0).
  assert (Hsel : selected_listings (mkDataFrame listings_required K) = K).
  { unfold selected_listings. cbn [rows]. apply fmap_fixed.
    intros l Hl. by apply kept_listing_shape in Hl as (? & _). }
  assert (Hid : identified_listings (mkDataFrame listings_required K) = K).
  { unfold identified_listings. rewrite Hsel. apply filter_all.
    intros l Hl. by apply kept_listing_shape in Hl as (_ & _ & ?). }
  assert (Hco : coerced_listings (mkDataFrame listings_required K) = K).
  { unfold coerced_listings. rewrite Hid.
    rewrite dedup_from_distinct_id;
      [|apply kept_listings_distinct|done].
    apply fmap_fixed. intros l Hl. by apply kept_listing_shape in Hl as (_ & ? & _). }
  unfold kept_listings at 1, geo_listings. rewrite Hco.
  assert (Hgeo : List.filter
                   (λ r, negb (negb (lat_ok cfg r) || negb (lon_ok cfg r))) K
                 = K).
  { apply filter_all. intros l Hl. unfold K in Hl.
    apply elem_of_kept_listings in Hl as (_ & -> & -> & _). done. }
  rewrite Hgeo. apply filter_all. intros l Hl. unfold K in Hl.
  apply elem_of_kept_listings in Hl as (_ & _ & _ & ->). done.
Qed.

Lemma filter_none {A} (f : A → bool) (l : list A) :
  (∀ x, x ∈ l → f x = false) → List.filter f l = [].
Proof.
  induction l as [|x l IH]; intros Hf; cbn; [done|].
  rewrite Hf by apply list_elem_of_here. apply IH.
  intros y Hy. apply Hf. by apply list_elem_of_further.
Qed.

Lemma kept_review_shape (cfg : gmap string Q) (L0 R0 : DataFrame) r :
  r ∈ kept_reviews cfg L0 R0 →
  project reviews_required r = r ∧ id_present "listing_id" r = true ∧
  existsb (cell_eqb (cell_at "listing_id" r))
    (unique (cell_at "id" <$> kept_listings cfg L0)) = true.
Proof.
  unfold kept_reviews. intros [Hr Hex]%elem_of_filter_list.
  unfold identified_reviews in Hr. apply elem_of_filter_list in Hr as [Hr Hid].
  unfold selected_reviews in Hr. apply list_elem_of_fmap in Hr as (r0 & -> & _).
  split; [apply project_project|]. done.
Qed.

(** The reviews validation returns pass validation unchanged. *)
Lemma kept_reviews_fixed (cfg : gmap string Q) (L0 R0 : DataFrame) :
  kept_reviews cfg (mkDataFrame listings_required (kept_listings cfg L0))
    (mkDataFrame reviews_required (kept_reviews cfg L0 R0)) =
  kept_reviews cfg L0 R0.
Proof.
  set (KR := kept_reviews cfg L0 R0).
  assert (Hsel : selected_reviews (mkDataFrame reviews_required KR) = KR).
  { unfold selected_reviews. cbn [rows]. apply fmap_fixed.
    intros r Hr. unfold KR in Hr. by apply kept_review_shape in Hr as (? & _). }
  assert (Hid : identified_reviews (mkDataFrame reviews_required KR) = KR).
  { unfold identified_reviews. rewrite Hsel. apply filter_all.
    intros r Hr. unfold KR in Hr. by apply kept_review_shape in Hr as (_ & ? & _). }
  unfold kept_reviews at 1. rewrite Hid, kept_listings_fixed.
  apply filter_all. intros r Hr. unfold KR in Hr.
  by apply kept_review_shape in Hr as (_ & _ & ?).
Qed.

(** X6.  Validation is idempotent: [run_validate] on the frames it
    returned returns the same two frames, and every check of the second
    report other than the count of null prices passes. *)
Theorem run_validate_idempotent (cfg : gmap string Q)
    (L0 R0 L R : DataFrame) (rep : report) :
  validate.run_validate cfg L0 R0 = Ok (L, R, rep) →
  ∃ rep',
    validate.run_validate cfg L R = Ok (L, R, rep') ∧
    Forall (λ c, name c = "price_not_null_raw" ∨ status c = "pass")
      (checks rep') ∧
    listings_row_count_after_validation rep' = length (rows L) ∧
    reviews_row_count_after_validation rep' = length (rows R).
Proof.
  intros (-> & -> & _)%run_validate_Ok.
  set (K := kept_listings cfg L0). set (KR := kept_reviews cfg L0 R0).
  set (L := mkDataFrame listings_required K).
  set (R := mkDataFrame reviews_required KR).
  assert (HK : kept_listings cfg L = K) by exact (kept_listings_fixed cfg L0).
  assert (HKR : kept_reviews cfg L R = KR)
    by exact (kept_reviews_fixed cfg L0 R0).
  exists (mkReport (length K) (length KR) (validation_checks cfg L R)).
  split.
  { rewrite (run_validate_closed cfg L R) by reflexivity. by rewrite HK, HKR. }
  cbn [listings_row_count_after_validation
       reviews_row_count_after_validation checks rows].
  split; [|done].
  assert (Hsel : selected_listings L = K).
  { unfold selected_listings, L. cbn [rows]. apply fmap_fixed.
    intros l Hl. by apply kept_listing_shape in Hl as (? & _). }
  assert (Hid : identified_listings L = K).
  { unfold identified_listings. rewrite Hsel. apply filter_all.
    intros l Hl. by apply kept_listing_shape in Hl as (_ & _ & ?). }
  assert (Hdd : dedup_from ["id"] [] K = K)
    by (apply dedup_from_distinct_id; [apply kept_listings_distinct|done]).
  assert (Hco : coerced_listings L = K).
  { unfold coerced_listings. rewrite Hid, Hdd.
    apply fmap_fixed. intros l Hl. by apply kept_listing_shape in Hl as (_ & ? & _). }
  assert (Hgeo : geo_listings cfg L = K).
  { unfold geo_listings. rewrite Hco. apply filter_all. intros l Hl.
    apply elem_of_kept_listings in Hl as (_ & -> & -> & _). done. }
  assert (Hrsel : selected_reviews R = KR).
  { unfold selected_reviews, R. cbn [rows]. apply fmap_fixed.
    intros r Hr. by apply kept_review_shape in Hr as (? & _). }
  assert (Hrid : identified_reviews R = KR).
  { unfold identified_reviews. rewrite Hrsel. apply filter_all.
    intros r Hr. by apply kept_review_shape in Hr as (_ & ? & _). }
  unfold validation_checks.
  rewrite Hsel, Hrsel, Hid, Hco, Hgeo, Hrid, HK.
  assert (Hdup : mask_sum (duplicated (cell_at "id" <$> K)) = 0%nat).
  { pose proof (duplicated_dedup "id" K) as Hd. rewrite Hdd in Hd. lia. }
  rewrite Hdup.
  rewrite (filter_none (λ r, is_na (cell_at "id" r)) K).
  2:{ intros l Hl. apply kept_listing_shape in Hl as (_ & _ & Hp).
      unfold id_present in Hp. by apply negb_true_iff in Hp. }
  rewrite (filter_none (λ r, is_na (cell_at "listing_id" r)) KR).
  2:{ intros r Hr. apply kept_review_shape in Hr as (_ & Hp & _).
      unfold id_present in Hp. by apply negb_true_iff in Hp. }
  rewrite (filter_none (λ r, negb (lat_ok cfg r)) K).
  2:{ intros l Hl. apply elem_of_kept_listings in Hl as (_ & -> & _). done. }
  rewrite (filter_none (λ r, negb (lon_ok cfg r)) K).
  2:{ intros l Hl. apply elem_of_kept_listings in Hl as (_ & _ & -> & _). done. }
  rewrite (filter_none (λ r, negb (avail_ok cfg r)) K).
  2:{ intros l Hl. apply elem_of_kept_listings in Hl as (_ & _ & _ & ->). done. }
  rewrite (filter_none _ KR).
  2:{ intros r Hr. apply kept_review_shape in Hr as (_ & _ & Hex).
      fold K in Hex. by rewrite Hex. }
  repeat (apply Forall_cons; split; [(by right) || (by left)|]).
  apply Forall_nil_2.
Qed.

End revalidation.

(** ** The prices [clean_price] reads and the ones it refuses *)

Section price_texts.
Context {SC : Scalars}.
Import transform.

Lemma is_digit_bounds (a : ascii) :
  is_digit a = true → 0 ≤ digit_val a ≤ 9.
Proof.
  unfold is_digit, digit_val. rewrite andb_true_iff, !N.leb_le. lia.
Qed.

Lemma is_digit_not_period (a : ascii) : is_digit a = true → is_period a = false.
Proof.
  unfold is_digit, is_period. rewrite andb_true_iff, !N.leb_le.
  intros [H1 H2]. apply Ascii.eqb_neq. intros ->. vm_compute in H1. done.
Qed.

Lemma digits_val_nonneg (ds : list ascii) :
  forallb is_digit ds = true → 0 ≤ digits_val ds.
Proof.
  induction ds as [|d ds IH] using rev_ind; [done|].
  rewrite forallb_app, andb_true_iff. cbn. rewrite andb_true_r.
  intros [Hds Hd]. rewrite digits_val_app. cbn [length].
  change (digits_val [d]) with (10 * 0 + digit_val d).
  pose proof (is_digit_bounds d Hd). specialize (IH Hds). lia.
Qed.

Lemma leading_digits_spec (cs ip rest : list ascii) :
  leading_digits cs = (ip, rest) →
  cs = ip ++ rest ∧ forallb is_digit ip = true ∧
  match rest with [] => True | a :: _ => is_digit a = false end.
Proof.
  revert ip rest. induction cs as [|a cs IH]; intros ip rest; cbn.
  - by intros [= <- <-].
  - destruct (is_digit a) eqn:E.
    + destruct (leading_digits cs) as [ds r]. intros [= <- <-].
      destruct (IH ds r eq_refl) as (-> & Hds & Hr). cbn. by rewrite E.
    + by intros [= <- <-].
Qed.

(** No text denotes a negative number. *)
Lemma float_of_string_nonneg (s : string) (q : Q) :
  float_of_string s = Some q → (0 <= q)%Q.
Proof.
  unfold float_of_string.
  destruct (leading_digits (list_ascii_of_string s)) as [ip rest] eqn:E.
  apply leading_digits_spec in E as (_ & Hip & _).
  destruct rest as [|dot fp].
  - destruct ip; [done|]. intros [= <-].
    pose proof (digits_val_nonneg _ Hip).
    unfold Qle, inject_Z; cbn [Qnum Qden]. lia.
  - destruct (is_period dot && forallb is_digit fp
              && negb (Nat.eqb (length ip + length fp) 0)) eqn:Hc; [|done].
    apply andb_true_iff in Hc as [[_ Hfp]%andb_true_iff _].
    intros [= <-]. rewrite Qred_correct.
    assert (0 ≤ digits_val (ip ++ fp)).
    { apply digits_val_nonneg. by rewrite forallb_app, Hip, Hfp. }
    unfold Qle; cbn [Qnum Qden]. lia.
Qed.

(** Among digits and periods, the texts that denote no number. *)
Lemma float_of_price_char_list (cs : list ascii) :
  forallb is_price_char cs = true →
  float_of_string (string_of_list_ascii cs) = None ↔
  cs = [] ∨ cs = ["."%char] ∨ (2 ≤ length (List.filter is_period cs))%nat.
Proof.
  intros Hall. unfold float_of_string.
  rewrite list_ascii_of_string_of_list_ascii.
  destruct (leading_digits cs) as [ip rest] eqn:E.
  apply leading_digits_spec in E as (-> & Hip & Hrest).
  assert (Hnp : ∀ ds, forallb is_digit ds = true → List.filter is_period ds = []).
  { induction ds as [|d ds IH]; cbn [forallb List.filter]; [done|].
    intros [Hd Hds]%andb_true_iff. rewrite (is_digit_not_period d Hd). by apply IH. }
  rewrite List.filter_app, length_app, (Hnp ip Hip). cbn [length].
  rewrite forallb_app in Hall. apply andb_true_iff in Hall as [_ Hall].
  destruct rest as [|dot fp].
  - rewrite app_nil_r. cbn. destruct ip as [|a ip].
    + split; [by left | done].
    + split; [done|]. intros [?|[[= Ha Hi]|?]]; [done|subst a; by cbn in Hip|lia].
  - cbn in Hall. apply andb_true_iff in Hall as [Hdot Hfp].
    unfold is_price_char in Hdot. rewrite Hrest in Hdot. cbn in Hdot.
    rewrite Hdot. cbn [andb List.filter]. rewrite Hdot. cbn [length].
    assert (Hdot' : dot = "."%char) by (by apply Ascii.eqb_eq).
    subst dot.
    destruct (forallb is_digit fp) eqn:Hd.
    + rewrite (Hnp fp Hd). cbn [andb length].
      destruct ip as [|a ip]; destruct fp as [|b fp]; cbn.
      * split; [by right; left | done].
      * split; [done|]. intros [?|[?|?]]; [done|done|lia].
      * split; [done|]. intros [?|[Heq|?]]; [done| |lia].
        apply (f_equal length) in Heq. rewrite length_cons, length_app in Heq.
        cbn in Heq. lia.
      * split; [done|]. intros [?|[Heq|?]]; [done| |lia].
        apply (f_equal length) in Heq. rewrite length_cons, length_app in Heq.
        cbn in Heq. lia.
    + cbn [andb]. split; [|done]. intros _. right. right.
      assert (Hne : List.filter is_period fp ≠ []).
      { intros Hnil. apply not_true_iff_false in Hd. apply Hd.
        apply forallb_forall. intros a Ha.
        rewrite forallb_forall in Hfp. specialize (Hfp a Ha).
        unfold is_price_char in Hfp. apply orb_true_iff in Hfp as [?|Hp]; [done|].
        assert (Hin : In a (List.filter is_period fp)) by (apply filter_In; auto).
        rewrite Hnil in Hin. done. }
      destruct (List.filter is_period fp); [done|]. cbn. lia.
Qed.

Lemma float_of_price_chars (s : string) :
  forallb is_price_char (list_ascii_of_string s) = true →
  float_of_string s = None ↔ s = "" ∨ s = "." ∨ (2 ≤ periods s)%nat.
Proof.
  intros Hall. unfold periods.
  rewrite <- (string_of_list_ascii_of_string s) at 1.
  rewrite (float_of_price_char_list _ Hall).
  assert (Hinj : ∀ cs, list_ascii_of_string s = cs ↔ s = string_of_list_ascii cs).
  { intros cs. split.
    - intros <-. by rewrite string_of_list_ascii_of_string.
    - intros ->. by rewrite list_ascii_of_string_of_list_ascii. }
  by rewrite (Hinj []), (Hinj ["."%char]).
Qed.

Lemma strip_non_price_price_chars (s : string) :
  forallb is_price_char (list_ascii_of_string (strip_non_price s)) = true.
Proof.
  rewrite strip_non_price_chars. apply forallb_forall.
  by intros a [_ ?]%filter_In.
Qed.

(** What one price is cleaned to. *)
Lemma clean_price_cell_raise (c : cell) (e : exn) :
  clean_price_cell c = Raise e ↔
  (strip_non_price (astype_str_cell c) = "." ∨
   (2 ≤ periods (strip_non_price (astype_str_cell c)))%nat) ∧
  e = ValueError (strip_non_price (astype_str_cell c)).
Proof.
  unfold clean_price_cell, price_text. cbv zeta.
  set (s := strip_non_price (astype_str_cell c)).
  pose proof (strip_non_price_price_chars (astype_str_cell c)) as Hs. fold s in Hs.
  destruct (String.eqb_spec s "") as [He|Hne].
  - rewrite He. cbn. split; [done|]. intros [[?|Hp] _]; [done|].
    vm_compute in Hp. lia.
  - destruct (float_of_string s) as [q|] eqn:Hf.
    + split; [done|]. intros [Hbad _].
      assert (float_of_string s = None) as Hn
        by (apply float_of_price_chars; tauto). congruence.
    + apply float_of_price_chars in Hf; [|done].
      destruct Hf as [?|Hbad]; [done|].
      split; [intros [= <-]; done | by intros [_ ->]].
Qed.

End price_texts.

Section cleaned_prices.
Context {SC : Scalars}.
Import transform.

Lemma mapR_Raise {A B} (f : A → result B) (l : list A) (e : exn) :
  mapR f l = Raise e ↔
  ∃ pre x post, l = pre ++ x :: post ∧
    Forall (λ y, ∃ v, f y = Ok v) pre ∧ f x = Raise e.
Proof.
  induction l as [|a l IH]; cbn.
  - split; [done|]. intros (pre & x & post & Hl & _). by destruct pre.
  - destruct (f a) as [v|e'] eqn:Ha; cbn.
    + destruct (mapR f l) as [vs|e''] eqn:Hl; cbn.
      * split; [done|]. intros (pre & x & post & Heq & Hpre & Hx).
        destruct pre as [|p pre]; injection Heq as -> ->; [congruence|].
        apply Forall_cons in Hpre as [_ Hpre].
        assert (Hex : ∃ pre0 x0 post0, pre ++ x :: post = pre0 ++ x0 :: post0
                       ∧ Forall (λ y, ∃ v, f y = Ok v) pre0 ∧ f x0 = Raise e)
          by eauto 6.
        apply IH in Hex. done.
      * rewrite IH. split.
        -- intros (pre & x & post & -> & Hpre & Hx).
           exists (a :: pre), x, post. split; [done|].
           split; [|done]. apply Forall_cons. eauto.
        -- intros (pre & x & post & Heq & Hpre & Hx).
           destruct pre as [|p pre]; injection Heq as -> ->; [congruence|].
           apply Forall_cons in Hpre as [_ Hpre]. eauto 6.
    + split.
      * intros [= <-]. exists [], a, l. done.
      * intros (pre & x & post & Heq & Hpre & Hx).
        destruct pre as [|p pre]; injection Heq as -> ->; [congruence|].
        apply Forall_cons in Hpre as [[v Hv] _]. congruence.
Qed.

(** X7.  [clean_price] refuses a series exactly at its first value whose
    text, once stripped to digits and periods, is a lone period or holds
    two periods or more, and the ValueError carries that stripped text. *)
Theorem clean_price_raises_iff (series : list cell) (e : exn) :
  clean_price series = Raise e ↔
  ∃ pre c post,
    series = pre ++ c :: post ∧
    Forall (λ x, ∃ q, clean_price [x] = Ok [Num q]) pre ∧
    (strip_non_price (astype_str_cell c) = "." ∨
     (2 ≤ periods (strip_non_price (astype_str_cell c)))%nat) ∧
    e = ValueError (strip_non_price (astype_str_cell c)).
Proof.
  rewrite clean_price_elementwise, mapR_Raise.
  assert (Hone : ∀ x, (∃ v, clean_price_cell x = Ok v) ↔
                      ∃ q, clean_price [x] = Ok [Num q]).
  { intros x. rewrite clean_price_elementwise. cbn. unfold clean_price_cell.
    destruct (float_of_string (price_text x)) as [q|]; cbn.
    - split; eauto.
    - split; by intros [? ?]. }
  split.
  - intros (pre & c & post & -> & Hpre & Hc).
    apply clean_price_cell_raise in Hc as [Hbad ->].
    exists pre, c, post. split; [done|]. split; [|done].
    eapply Forall_impl; [exact Hpre|]. intros x. apply Hone.
  - intros (pre & c & post & -> & Hpre & Hbad & ->).
    exists pre, c, post. split; [done|]. split.
    + eapply Forall_impl; [exact Hpre|]. intros x. apply Hone.
    + by apply clean_price_cell_raise.
Qed.

(** X8.  When [clean_price] returns, it returns one number for each value,
    none of them negative (a sign is stripped with every other character),
    and [classify_price_tier] gives every one of them a tier. *)
Theorem clean_price_nonnegative (series prices : list cell) :
  clean_price series = Ok prices →
  length prices = length series ∧
  Forall (λ p, ∃ q, p = Num q ∧ (0 <= q)%Q) prices ∧
  Forall (λ t, t = Str "budget" ∨ t = Str "mid" ∨ t = Str "premium")
    (classify_price_tier prices).
Proof.
  intros Hp. rewrite clean_price_elementwise in Hp.
  split; [by apply mapR_length in Hp|].
  apply mapR_Ok_Forall2 in Hp.
  assert (Hnn : Forall (λ p, ∃ q, p = Num q ∧ (0 <= q)%Q) prices).
  { apply Forall_forall. intros p (i & Hi)%list_elem_of_lookup.
    destruct (Forall2_lookup_r _ _ _ _ _ Hp Hi) as (c & _ & Hc).
    unfold clean_price_cell in Hc.
    destruct (float_of_string (price_text c)) as [q|] eqn:Hf; [|done].
    injection Hc as <-. exists q. split; [done|].
    by eapply float_of_string_nonneg. }
  split; [done|].
  change (classify_price_tier prices) with (tier_cell <$> prices).
  apply Forall_fmap. eapply Forall_impl; [exact Hnn|].
  intros p (q & -> & Hq). cbv beta. unfold compose. rewrite tier_cell_num.
  destruct (Qle_bool q (-1)) eqn:E1.
  - apply Qle_bool_iff in E1. lra.
  - destruct (Qle_bool q 50), (Qle_bool q 150); auto.
Qed.

End cleaned_prices.

(** ** What the transform can fail on, and the metrics it derives *)

Section transform_outcomes.
Context {SC : Scalars}.
Import transform.

(** The transform follows [clean_price]: it returns when the prices are
    read and stops with the error of [clean_price] otherwise. *)
Lemma run_transform_cases (now : Z) (L R : DataFrame) :
  columns L = listings_required →
  columns R = reviews_required →
  match clean_price (cell_at "price" <$> rows L) with
  | Ok _ => ∃ out, run_transform now L R = Ok out
  | Raise e => run_transform now L R = Raise e
  end.
Proof.
  intros HL HR. rewrite (frame_eta L), (frame_eta R), HL, HR. cbn [rows].
  unfold run_transform.
  destruct (clean_price (cell_at "price" <$> rows L)) as [prices|e'] eqn:Hp.
  - rewrite (build_tables_closed _ _ _ _ Hp). cbn [mbind result_bind].
    rewrite pack_closed. eauto.
  - unfold build_tables. by rewrite (clean_fields_raise _ _ Hp).
Qed.

Lemma enriched_listing_price l p :
  cell_at "price" (enrich_row (clean_row l p)) = p.
Proof. unfold enrich_row, clean_row, zero_filled. by cell_simpl. Qed.

Lemma price_enriched_listings (ls : list (gmap string cell)) (prices : list cell) :
  length prices = length ls →
  cell_at "price" <$> enriched_listings ls prices = prices.
Proof.
  unfold enriched_listings. revert prices.
  induction ls as [|l ls' IH]; intros [|p ps] Hlen; try done.
  cbn [zip_with fmap list_fmap]. f_equal.
  - apply enriched_listing_price.
  - apply IH. cbn in Hlen. lia.
Qed.

Lemma cell_at_with_index (c c' : string) (rs : list (gmap string cell)) :
  c' ≠ c → cell_at c <$> with_index c' rs = cell_at c <$> rs.
Proof.
  intros Hne. apply list_eq. intros i.
  rewrite !list_lookup_fmap, lookup_with_index.
  destruct (rs !! i) as [r|]; cbn; [|done].
  by rewrite cell_at_insert_ne.
Qed.

(** With distinct listing ids, the price column of [dim_listing] is the
    column of cleaned prices. *)
Lemma price_dim_listing_rows (ls : list (gmap string cell)) (prices : list cell) :
  distinct_keys ["id"] ls →
  clean_price (cell_at "price" <$> ls) = Ok prices →
  cell_at "price" <$>
    dim_listing_rows (enriched_listings ls prices)
      (dim_neighborhood_rows (enriched_listings ls prices)) = prices.
Proof.
  intros Hd Hp. unfold dim_listing_rows.
  rewrite cell_at_with_index by discriminate.
  unfold distinct_listings, listing_neighborhood_rows.
  rewrite flat_map_join_rows by apply dim_neighborhood_rows_distinct.
  rewrite fmap_fmap.
  set (f := λ l, project dim_listing_columns _).
  rewrite dedup_from_distinct_id.
  - rewrite fmap_fmap.
    rewrite <- (price_enriched_listings ls prices) at 2
      by (by eapply length_prices).
    apply list_fmap_ext. intros i r _. unfold f.
    by rewrite cell_at_project, cell_at_join_row_l.
  - apply (distinct_keys_fmap ["listing_id"]);
      [|by apply enriched_listings_distinct].
    intros r. unfold f, row_key. cbn [fmap list_fmap].
    by rewrite cell_at_project, cell_at_join_row_l.
  - done.
Qed.

(** X9.  The prices of the transform are those of [clean_price]: when
    [clean_price] refuses the price column, [run_transform] stops with
    that error and returns nothing; when [run_transform] returns on
    listings with pairwise different ids, the price column of the
    [dim_listing] it returns is the cleaned price column of the listings,
    row for row. *)
Theorem run_transform_price_column (now : Z) (L R : DataFrame) :
  columns L = listings_required →
  columns R = reviews_required →
  (∀ e, clean_price (cell_at "price" <$> rows L) = Raise e →
        run_transform now L R = Raise e) ∧
  (∀ d f, run_transform now L R = Ok (d, f) →
          distinct_keys ["id"] (rows L) →
          clean_price (cell_at "price" <$> rows L)
          = Ok (column "price" (dim_listing d))).
Proof.
  intros HL HR. split.
  - intros e He. pose proof (run_transform_cases now L R HL HR) as Hcase.
    by rewrite He in Hcase.
  - intros d f Hrun Hd.
    destruct (run_transform_inv _ _ _ _ _ HL HR Hrun) as (prices & Hp & _ & Hdf).
    assert (Hdim : d = (packed (tables_of now (rows L) (rows R) prices)).1)
      by (by rewrite <- Hdf).
    rewrite Hp, Hdim. f_equal.
    unfold column, tables_of, packed.
    cbn [fst dim_listing t_dim_listing rows snapshot].
    rewrite fmap_fmap. symmetry.
    etrans; [|exact (price_dim_listing_rows (rows L) prices Hd Hp)].
    apply list_fmap_ext. intros i r _.
    by rewrite cell_at_project.
Qed.

Lemma clean_price_values (series prices : list cell) (i : nat) (p : cell) :
  clean_price series = Ok prices → prices !! i = Some p →
  ∃ q, p = Num q ∧ (0 <= q)%Q.
Proof.
  intros Hp Hi. rewrite clean_price_elementwise in Hp.
  apply mapR_Ok_Forall2 in Hp.
  destruct (Forall2_lookup_r _ _ _ _ _ Hp Hi) as (c & _ & Hc).
  unfold clean_price_cell in Hc.
  destruct (float_of_string (price_text c)) as [q|] eqn:Hf; [|done].
  injection Hc as <-. exists q. split; [done|].
  by eapply float_of_string_nonneg.
Qed.

Lemma clip_unit (m : Q) :
  ∃ r, clip_cell 0 1 (div_cell 5 (Num m)) = Num r ∧
       (0 <= r)%Q ∧ (r <= 1)%Q ∧
       ((m <= 0)%Q → (r == 0)%Q) ∧ ((5 <= m)%Q → (r == 1)%Q) ∧
       ((0 <= m)%Q → (m <= 5)%Q → (r == m / 5)%Q).
Proof.
  cbn [div_cell clip_cell].
  assert (Hd : (Qred (m / 5) == m / 5)%Q) by apply Qred_correct.
  set (d := Qred (m / 5)) in *.
  assert (Hm : (m == d * 5)%Q) by (rewrite Hd; field).
  destruct (Qle_bool d 0) eqn:E0.
  - apply Qle_bool_iff in E0. exists 0%Q. split; [done|].
    repeat split; try lra.
  - apply Qle_bool_false in E0. destruct (Qle_bool 1 d) eqn:E1.
    + apply Qle_bool_iff in E1. exists 1%Q. split; [done|].
      repeat split; try lra.
    + apply Qle_bool_false in E1. exists d. split; [done|].
      repeat split; try lra.
Qed.

(** X10.  In the listings frame the transform works on, every row has a
    price that is a number and not negative, an estimated occupancy rate
    that is reviews per month over 5 clipped to the unit interval, an
    estimated monthly revenue of price times rate times 30, and the price
    tier of its price. *)
Theorem derived_metrics_in_range (now : Z) (L R : DataFrame) (t : tables) :
  columns L = listings_required →
  columns R = reviews_required →
  build_tables now L R = Ok t →
  ∀ y, y ∈ rows (t_listings t) →
    ∃ p m r v,
      cell_at "price" y = Num p ∧ (0 <= p)%Q ∧
      cell_at "reviews_per_month" y = Num m ∧
      cell_at "estimated_occupancy_rate" y = Num r ∧
      (0 <= r)%Q ∧ (r <= 1)%Q ∧
      ((m <= 0)%Q → (r == 0)%Q) ∧ ((5 <= m)%Q → (r == 1)%Q) ∧
      ((0 <= m)%Q → (m <= 5)%Q → (r == m / 5)%Q) ∧
      cell_at "estimated_monthly_revenue" y = Num v ∧
      (v == p * r * 30)%Q ∧
      cell_at "price_tier" y = tier_cell (Num p) ∧
      cell_at "price_tier" y ≠ NA.
Proof.
  intros HL HR Ht y Hy.
  destruct (build_tables_inv _ _ _ _ HL HR Ht) as (prices & Hp & ->).
  unfold tables_of in Hy; cbn [t_listings rows] in Hy.
  apply elem_of_enriched_listings in Hy as (i & l & p0 & Hl & Hpi & ->).
  destruct (clean_price_values _ _ _ _ Hp Hpi) as (p & -> & Hp0).
  destruct (numeric_or_zero_num (cell_at "reviews_per_month" l)) as [m Hm].
  destruct (clip_unit m) as (r & Hr & Hr0 & Hr1 & Hc0 & Hc1 & Hc2).
  exists p, m, r, (Qred (Qred (p * r) * 30)).
  assert (Hprice : cell_at "price" (enrich_row (clean_row l (Num p))) = Num p)
    by (unfold enrich_row, clean_row, zero_filled; by cell_simpl).
  assert (Hrpm : cell_at "reviews_per_month" (enrich_row (clean_row l (Num p)))
                 = Num m).
  { unfold enrich_row, clean_row, zero_filled. cell_simpl. exact Hm. }
  assert (Hrate : cell_at "estimated_occupancy_rate"
                    (enrich_row (clean_row l (Num p))) = Num r).
  { unfold enrich_row, clean_row, zero_filled. cell_simpl.
    rewrite Hm. exact Hr. }
  assert (Hrev : cell_at "estimated_monthly_revenue"
                   (enrich_row (clean_row l (Num p))) =
                 Num (Qred (Qred (p * r) * 30))).
  { unfold enrich_row, clean_row, zero_filled. cell_simpl.
    rewrite Hm, Hr. reflexivity. }
  assert (Htier : cell_at "price_tier" (enrich_row (clean_row l (Num p))) =
                  tier_cell (Num p))
    by (unfold enrich_row, clean_row, zero_filled; by cell_simpl).
  repeat split; try done.
  - by rewrite !Qred_correct.
  - rewrite Htier, tier_cell_num.
    destruct (Qle_bool p (-1)) eqn:E1.
    + apply Qle_bool_iff in E1. lra.
    + by destruct (Qle_bool p 50), (Qle_bool p 150).
Qed.

End transform_outcomes.

(** ** One row for each natural key *)

Section natural_keys.
Context {SC : Scalars}.
Import transform.

Lemma enriched_of_listing ls prices l :
  clean_price (cell_at "price" <$> ls) = Ok prices → l ∈ ls →
  ∃ p, enrich_row (clean_row l p) ∈ enriched_listings ls prices.
Proof.
  intros Hp (i & Hi)%list_elem_of_lookup.
  destruct (clean_price_lookup _ _ i (cell_at "price" l) Hp) as (p & Hpi & _).
  { by rewrite list_lookup_fmap, Hi. }
  exists p. unfold enriched_listings. apply list_elem_of_fmap_2.
  apply list_elem_of_lookup. exists i. apply lookup_zip_with_Some. eauto.
Qed.

Lemma enriched_listing_cells l p c :
  c ≠ "id" → c ≠ "listing_id" → c ≠ "price" →
  c ≠ "minimum_nights" → c ≠ "number_of_reviews" →
  c ≠ "reviews_per_month" → c ≠ "number_of_reviews_ltm" →
  c ≠ "estimated_occupancy_rate" → c ≠ "estimated_monthly_revenue" →
  c ≠ "price_tier" →
  cell_at c (enrich_row (clean_row l p)) = cell_at c l.
Proof.
  intros. unfold enrich_row, clean_row, zero_filled.
  rewrite !cell_at_insert_ne by done. by apply cell_at_rename_row_ne.
Qed.

(** Every cleaned listing has its row in the working dim_listing. *)
Lemma dim_listing_of_listing es dn e :
  e ∈ es →
  ∃ y, y ∈ dim_listing_rows es dn ∧
       cell_eqb (cell_at "listing_id" e) (cell_at "listing_id" y) = true.
Proof.
  intros He.
  destruct (join_rows_nonempty enriched_columns ["neighborhood_sk"] []
              ["neighbourhood_group"; "neighbourhood"]
              ["neighbourhood_group"; "neighbourhood"] dn e) as (m & Hm).
  assert (Hx : project dim_listing_columns m ∈
               project dim_listing_columns <$> listing_neighborhood_rows es dn).
  { apply list_elem_of_fmap_2, elem_of_flat_map. eauto. }
  destruct (dedup_from_complete ["listing_id"] [] _ _ Hx)
    as [?|(y0 & Hy0 & Hk)]; [done|].
  destruct (with_index_of_elem "listing_sk" _ y0 Hy0) as (k & Hy).
  eexists. split; [exact Hy|].
  rewrite key_eqb_single in Hk.
  apply join_rows_spec in Hm as [Hm _].
  rewrite cell_at_project, Hm in Hk by reflexivity. by cell_simpl.
Qed.

(** Every cleaned listing has its row in dim_neighborhood. *)
Lemma neighborhood_of_listing es e :
  e ∈ es →
  ∃ n, n ∈ dim_neighborhood_rows es ∧
       key_eqb (row_key ["neighbourhood_group"; "neighbourhood"] e)
         (row_key ["neighbourhood_group"; "neighbourhood"] n) = true.
Proof.
  intros He.
  assert (Hp : project ["neighbourhood_group"; "neighbourhood"] e ∈
               project ["neighbourhood_group"; "neighbourhood"] <$> es)
    by (by apply list_elem_of_fmap_2).
  destruct (dedup_from_complete ["neighbourhood_group"; "neighbourhood"] [] _ _ Hp)
    as [?|(n0 & Hn0 & Hk)]; [done|].
  destruct (with_index_of_elem "neighborhood_sk" _ n0 Hn0) as (k & Hn).
  eexists. split; [exact Hn|].
  rewrite row_key_project in Hk by reflexivity.
  unfold row_key in *. cbn [fmap list_fmap] in *. by cell_simpl.
Qed.

(** X11.  Each dimension [run_transform] returns has one row for each
    natural key: no two rows of [dim_date], [dim_neighborhood], [dim_host]
    and [dim_listing] agree on the date, on the neighbourhood pair, on the
    host id and on the listing id, and every input listing finds its id,
    its host and its neighbourhood pair in them. *)
Theorem dimensions_one_row_per_key (now : Z) (L R : DataFrame)
    (d : dims) (f : facts) :
  columns L = listings_required →
  columns R = reviews_required →
  run_transform now L R = Ok (d, f) →
  distinct_keys ["full_date"] (rows (dim_date d)) ∧
  distinct_keys ["neighbourhood_group"; "neighbourhood"]
    (rows (dim_neighborhood d)) ∧
  distinct_keys ["host_id"] (rows (dim_host d)) ∧
  distinct_keys ["listing_id"] (rows (dim_listing d)) ∧
  ∀ l, l ∈ rows L →
    (∃ y, y ∈ rows (dim_listing d) ∧
          cell_eqb (cell_at "id" l) (cell_at "listing_id" y) = true) ∧
    (∃ h, h ∈ rows (dim_host d) ∧
          cell_eqb (cell_at "host_id" l) (cell_at "host_id" h) = true) ∧
    (∃ n, n ∈ rows (dim_neighborhood d) ∧
          key_eqb (row_key ["neighbourhood_group"; "neighbourhood"] l)
            (row_key ["neighbourhood_group"; "neighbourhood"] n) = true).
Proof.
  intros HL HR Hrun.
  destruct (run_transform_inv _ _ _ _ _ HL HR Hrun) as (prices & Hp & _ & Hdf).
  injection Hdf as -> ->. unfold tables_of; cbn [t_dim_date t_dim_neighborhood
    t_dim_host t_dim_listing dim_date dim_neighborhood dim_host dim_listing rows
    snapshot].
  set (es := enriched_listings (rows L) prices).
  split; [|split; [|split; [|split]]].
  - apply (distinct_keys_fmap ["full_date"]);
      [intros r; by apply row_key_project|].
    apply (distinct_keys_fmap ["full_date"]).
    { intros r. unfold row_key, calendar_row. cbn [fmap list_fmap]. by cell_simpl. }
    apply distinct_keys_with_index; [done|].
    destruct (review_dates_spec (rows R)) as (Hts & Hs & _).
    by apply sorted_ts_distinct.
  - apply (distinct_keys_fmap ["neighbourhood_group"; "neighbourhood"]);
      [intros r; by apply row_key_project|].
    apply dim_neighborhood_rows_distinct.
  - apply (distinct_keys_fmap ["host_id"]);
      [intros r; by apply row_key_project|].
    apply (distinct_keys_fmap ["host_id"]).
    { intros r. unfold row_key, stamp_row. cbn [fmap list_fmap]. by cell_simpl. }
    apply distinct_keys_with_index; [done|]. apply dedup_from_distinct.
  - apply (distinct_keys_fmap ["listing_id"]);
      [intros r; by apply row_key_project|].
    apply distinct_keys_with_index; [done|]. apply dedup_from_distinct.
  - intros l Hl.
    destruct (enriched_of_listing _ _ _ Hp Hl) as (p & He). fold es in He.
    set (e := enrich_row (clean_row l p)) in *.
    assert (Hidl : cell_at "listing_id" e = cell_at "id" l)
      by apply enriched_listing_id.
    split; [|split].
    + destruct (dim_listing_of_listing es (dim_neighborhood_rows es) e He)
        as (y & Hy & Hk).
      exists (project dim_listing_final_columns y).
      split; [by apply list_elem_of_fmap_2|].
      rewrite cell_at_project by reflexivity. by rewrite <- Hidl.
    + destruct (host_of_listing now es e He) as (h & i & Hh & Hk & _).
      exists (project dim_host_final_columns h).
      split; [by apply list_elem_of_fmap_2|].
      rewrite cell_at_project by reflexivity.
      unfold e in Hk. by rewrite enriched_listing_cells in Hk.
    + destruct (neighborhood_of_listing es e He) as (n & Hn & Hk).
      exists (project dim_neighborhood_final_columns n).
      split; [by apply list_elem_of_fmap_2|].
      rewrite row_key_project by reflexivity.
      unfold row_key in *. cbn [fmap list_fmap] in *.
      unfold e in Hk. by rewrite !enriched_listing_cells in Hk.
Qed.

End natural_keys.

Section neighborhoods_and_sizes.
Context {SC : Scalars}.
Import transform.

Lemma dim_neighborhood_row_keyed es n :
  n ∈ dim_neighborhood_rows es →
  ∃ i : nat, cell_at "neighborhood_sk" n = Int (Z.of_nat i + 1).
Proof.
  intros (i & n0 & _ & ->)%elem_of_with_index. exists i. by cell_simpl.
Qed.

(** X12.  Every row of the [dim_listing] snapshot carries the listing id
    of an input listing and the surrogate key, never missing, of the
    [dim_neighborhood] row that has that listing's neighbourhood group and
    neighbourhood. *)
Theorem dim_listing_neighborhood_resolved (now : Z) (L R : DataFrame)
    (d : dims) (f : facts) :
  columns L = listings_required →
  columns R = reviews_required →
  run_transform now L R = Ok (d, f) →
  ∀ y, y ∈ rows (dim_listing d) →
    ∃ l n, l ∈ rows L ∧ n ∈ rows (dim_neighborhood d) ∧
      cell_at "listing_id" y = cell_at "id" l ∧
      key_eqb (row_key ["neighbourhood_group"; "neighbourhood"] l)
        (row_key ["neighbourhood_group"; "neighbourhood"] n) = true ∧
      cell_at "neighborhood_sk" y = cell_at "neighborhood_sk" n ∧
      cell_at "neighborhood_sk" y ≠ NA.
Proof.
  intros HL HR Hrun y Hy.
  destruct (run_transform_inv _ _ _ _ _ HL HR Hrun) as (prices & Hp & _ & Hdf).
  injection Hdf as -> ->. revert Hy.
  unfold tables_of; cbn [t_dim_neighborhood t_dim_listing dim_neighborhood
    dim_listing rows snapshot].
  set (es := enriched_listings (rows L) prices).
  set (dn := dim_neighborhood_rows es).
  intros (y1 & -> & Hy1)%list_elem_of_fmap.
  apply elem_of_with_index in Hy1 as (k & y0 & Hy0 & ->).
  apply list_elem_of_lookup_2, dedup_from_elem_of in Hy0.
  apply list_elem_of_fmap in Hy0 as (m & -> & Hm).
  apply elem_of_flat_map in Hm as (e & He & Hm).
  destruct (neighborhood_of_listing es e He) as (n & Hn & Hk).
  pose proof (join_rows_spec _ _ _ _ _ _ _ Hm) as [Hleft _].
  eapply (join_rows_partnered _ _ _ _ _ _ n) in Hm as (n' & Hn' & Hk' & Hv);
    [|exact Hn|exact Hk].
  apply elem_of_enriched_listings in He as (i & l & p & Hl & _ & ->).
  exists l, (project dim_neighborhood_final_columns n').
  split; [by eapply list_elem_of_lookup_2|].
  split; [by apply list_elem_of_fmap_2|].
  cell_simpl. rewrite Hleft, enriched_listing_id by reflexivity.
  split; [done|].
  rewrite row_key_project by reflexivity.
  split.
  { unfold row_key in *. cbn [fmap list_fmap] in *.
    by rewrite !enriched_listing_cells in Hk'. }
  rewrite Hv by reflexivity. split; [done|].
  destruct (dim_neighborhood_row_keyed _ _ Hn') as [j ->]. done.
Qed.

Lemma length_filter_le {A} (f : A → bool) (l : list A) :
  (length (List.filter f l) ≤ length l)%nat.
Proof. induction l as [|x l IH]; cbn; [lia|]. destruct (f x); cbn; lia. Qed.

Lemma length_dedup_from_le cols seen rs :
  (length (dedup_from cols seen rs) ≤ length rs)%nat.
Proof. apply sublist_length, dedup_from_sublist. Qed.

(** X13.  The transform never multiplies rows: the joins give exactly one
    joined row for each review, so [fact_reviews] has at most as many rows
    as there are reviews; [dim_date] has at most one row for each review,
    and [dim_listing], [dim_host] and [dim_neighborhood] at most one row
    for each listing. *)
Theorem transform_never_multiplies_rows (now : Z) (L R : DataFrame)
    (t : tables) (d : dims) (f : facts) :
  columns L = listings_required →
  columns R = reviews_required →
  build_tables now L R = Ok t →
  run_transform now L R = Ok (d, f) →
  length (rows (t_fact_joined t)) = length (rows R) ∧
  (length (rows (fact_reviews f)) ≤ length (rows R))%nat ∧
  (length (rows (dim_date d)) ≤ length (rows R))%nat ∧
  (length (rows (dim_listing d)) ≤ length (rows L))%nat ∧
  (length (rows (dim_host d)) ≤ length (rows L))%nat ∧
  (length (rows (dim_neighborhood d)) ≤ length (rows L))%nat.
Proof.
  intros HL HR Ht Hrun.
  destruct (run_transform_inv _ _ _ _ _ HL HR Hrun) as (prices & Hp & Ht' & Hdf).
  rewrite Ht' in Ht. injection Ht as <-. injection Hdf as -> ->.
  unfold tables_of; cbn [t_fact_joined t_fact_reviews t_dim_date
    t_dim_neighborhood t_dim_host t_dim_listing fact_reviews dim_date
    dim_neighborhood dim_host dim_listing rows snapshot].
  set (es := enriched_listings (rows L) prices).
  assert (Hes : length es = length (rows L))
    by (by apply length_enriched_listings).
  rewrite !length_fmap, length_fact_joined_rows.
  split; [done|]. split; [|split; [|split; [|split]]].
  - rewrite fact_rows_filter, length_fmap.
    etrans; [apply length_filter_le|]. by rewrite length_fact_joined_rows.
  - unfold dim_date_rows. rewrite length_fmap, length_with_index.
    unfold review_dates. rewrite (Permutation_length (sort_rows_perm _ _)).
    rewrite length_fmap. etrans; [apply length_dedup_from_le|].
    etrans; [apply length_filter_le|].
    unfold converted_reviews. by rewrite !length_fmap.
  - unfold dim_listing_rows, distinct_listings, listing_neighborhood_rows.
    rewrite length_with_index. etrans; [apply length_dedup_from_le|].
    rewrite length_fmap.
    rewrite flat_map_join_rows by apply dim_neighborhood_rows_distinct.
    by rewrite length_fmap, Hes.
  - unfold dim_host_rows, distinct_hosts.
    rewrite length_fmap, length_with_index.
    etrans; [apply length_dedup_from_le|]. by rewrite length_fmap, Hes.
  - unfold dim_neighborhood_rows. rewrite length_with_index.
    etrans; [apply length_dedup_from_le|]. by rewrite length_fmap, Hes.
Qed.

End neighborhoods_and_sizes.

(** ** The pipeline end to end *)

Section pipeline.
Context {SC : Scalars}.
Import transform.

Lemma dim_date_row_is_ts qs x :
  x ∈ dim_date_rows (converted_reviews qs) → is_ts "full_date" x.
Proof.
  intros (x1 & -> & (i & x0 & Hx0 & ->)%elem_of_with_index)%list_elem_of_fmap.
  destruct (review_dates_spec qs) as (Hts & _ & _).
  rewrite Forall_forall in Hts.
  destruct (Hts x0) as [z Hz]; [by eapply list_elem_of_lookup_2|].
  exists z. unfold calendar_row. by cell_simpl.
Qed.

Section joined.
Variables (now : Z) (ls rs : list (gmap string cell)) (prices : list cell).
Hypothesis Hd : distinct_keys ["id"] ls.
Hypothesis Hp : clean_price (cell_at "price" <$> ls) = Ok prices.
Hypothesis Hr :
  ∀ r, r ∈ rs →
       existsb (cell_eqb (cell_at "listing_id" r)) (cell_at "id" <$> ls) = true.

(** The review a joined row comes from, and what it takes from it. *)
Lemma joined_row_origin j :
  j ∈ rows (t_fact_joined (tables_of now ls rs prices)) →
  ∃ r, r ∈ rs ∧
    cell_at "date" j = to_datetime_cell (cell_at "date" r) ∧
    cell_at "listing_sk" j ≠ NA ∧ cell_at "host_sk" j ≠ NA ∧
    (cell_at "date_sk" j ≠ NA ↔ date_ok r = true).
Proof.
  unfold tables_of; cbn [t_fact_joined rows].
  set (es := enriched_listings ls prices).
  set (dn := dim_neighborhood_rows es).
  intros Hj.
  pose proof Hj as (j2 & Hj2 & Hj3)%elem_of_flat_map.
  apply elem_of_flat_map in Hj2 as (j1 & Hj1 & Hj2).
  apply elem_of_flat_map in Hj1 as (r' & Hr' & Hj1).
  apply list_elem_of_fmap in Hr' as (r & -> & Hin).
  pose proof (join_rows_spec _ _ _ _ _ _ _ Hj3) as [H3 H3r].
  pose proof (join_rows_spec _ _ _ _ _ _ _ Hj2) as [H2 _].
  pose proof (join_rows_spec _ _ _ _ _ _ _ Hj1) as [H1 _].
  assert (Hdatej2 : cell_at "date" j2 = to_datetime_cell (cell_at "date" r)).
  { rewrite H2, H1 by reflexivity. by cell_simpl. }
  assert (Hdate : cell_at "date" j = to_datetime_cell (cell_at "date" r))
    by (by rewrite H3).
  assert (Hlsk : cell_at "listing_sk" j ≠ NA).
  { rewrite H3, H2 by reflexivity.
    pose proof (Hr r Hin) as (x & Hx & Hc)%existsb_exists.
    apply list_elem_of_In, list_elem_of_fmap in Hx as (l & -> & Hl).
    destruct (elem_of_by_keys _ _ _ _ l
                (row_key_dim_listing_rows ls prices Hd Hp) Hl)
      as (y & Hy & Hky).
    unfold row_key in Hky. cbn [fmap list_fmap] in Hky. injection Hky as Hky.
    eapply (join_rows_partnered _ _ _ _ _ _
              (project ["listing_id"; "listing_sk"; "host_id"] y)) in Hj1
      as (p & Hp' & _ & Hv).
    + rewrite Hv by reflexivity.
      apply list_elem_of_fmap in Hp' as (y' & -> & Hy'). cell_simpl.
      destruct (dim_listing_row_keyed _ _ _ Hy') as [i ->]. done.
    + by apply list_elem_of_fmap_2.
    + rewrite key_eqb_single. cell_simpl. by rewrite Hky. }
  exists r. split; [done|]. split; [done|]. split; [done|].
  split; [by eapply host_join_follows_listing|].
  unfold date_ok.
  destruct (to_datetime_cell_cases (cell_at "date" r)) as [Hna|[z Hz]].
  - rewrite Hna. split; [|done]. intros Hsk. exfalso. apply Hsk.
    destruct H3r as [[_ Hnone]|(p & Hp' & Hk & _)]; [by apply Hnone|].
    apply list_elem_of_fmap in Hp' as (x & -> & Hx).
    rewrite key_eqb_single, Hdatej2, Hna in Hk.
    apply cell_eqb_na_l in Hk. rewrite cell_at_project in Hk by reflexivity.
    destruct (dim_date_row_is_ts _ _ Hx) as [z Hz]. congruence.
  - rewrite Hz. split; [done|]. intros _.
    destruct (review_dates_spec rs) as (_ & _ & Hmem).
    destruct (proj2 (Hmem z)) as (x & Hx & Hfd).
    { unfold to_datetime. rewrite <- Hz.
      apply list_elem_of_fmap_2. by apply (list_elem_of_fmap_2 (cell_at "date")). }
    destruct (with_index_of_elem "date_sk" _ x Hx) as (k & Hk).
    set (x' := calendar_row (<["date_sk" := Int (Z.of_nat k + 1)]> x)).
    assert (Hx' : x' ∈ dim_date_rows (converted_reviews rs))
      by (by apply list_elem_of_fmap_2).
    eapply (join_rows_partnered _ _ _ _ _ _
              (project ["date_sk"; "full_date"] x')) in Hj3
      as (p & Hp' & _ & Hv).
    + rewrite Hv by reflexivity.
      apply list_elem_of_fmap in Hp' as (d' & -> & Hd'). cell_simpl.
      destruct (dim_date_row_keyed _ _ Hd') as [i ->]. done.
    + by apply list_elem_of_fmap_2.
    + rewrite key_eqb_single, Hdatej2, Hz.
      unfold x', calendar_row. cell_simpl. rewrite Hfd. apply cell_eqb_refl.
Qed.

(** The fact rows are the reviews with a readable date, one for one. *)
Lemma length_fact_reviews_dated :
  length (rows (t_fact_reviews (tables_of now ls rs prices))) =
  length (List.filter date_ok rs).
Proof.
  pose proof joined_row_origin as Horigin. revert Horigin.
  unfold tables_of; cbn [t_fact_joined t_fact_reviews rows].
  set (es := enriched_listings ls prices).
  set (dn := dim_neighborhood_rows es).
  rewrite fact_rows_filter, length_fmap.
  unfold fact_joined_rows, fact_date_rows, fact_host_rows, fact_listing_rows.
  rewrite (flat_map_join_rows _ _ _ _ _ _ _ (listing_keys_distinct es dn)).
  rewrite (flat_map_join_rows _ _ _ _ _ _ _ (host_keys_distinct now es)).
  rewrite (flat_map_join_rows _ _ _ _ _ _ _ (date_keys_distinct rs)).
  unfold converted_reviews. rewrite !fmap_fmap.
  set (G := λ r : gmap string cell, join_row _ _ _ _ _).
  intros Horigin. rewrite filter_fmap, length_fmap. f_equal.
  apply filter_ext_elem. intros r Hin.
  assert (Hdate : cell_at "date" (G r) = to_datetime_cell (cell_at "date" r)).
  { unfold G. rewrite !cell_at_join_row_l by reflexivity. by cell_simpl. }
  destruct (Horigin (G r)) as (r' & _ & Hdate' & Hl & Hh & Hds).
  { by apply list_elem_of_fmap_2. }
  assert (Hok : date_ok r' = date_ok r)
    by (unfold date_ok; by rewrite <- Hdate', Hdate).
  rewrite Hok in Hds. destruct (date_ok r).
  - apply resolved_of_keys; [done|done|]. by apply Hds.
  - apply not_true_is_false. intros (_ & _ & Hsk)%resolved_true.
    by apply Hds in Hsk.
Qed.

End joined.

(** X14.  The pipeline composes: when [run_pipeline] returns, validation
    has returned two frames on which the transform has returned; the
    [dim_listing] it loads has one row for each validated listing, and its
    [fact_reviews] one row for each validated review whose date
    [to_datetime] can read, no more and no fewer. *)
Theorem run_pipeline_row_counts (cfg : gmap string Q) (now : Z)
    (L0 R0 : DataFrame) (d : dims) (f : facts) (rep : report) :
  orchestrator.run_pipeline cfg now L0 R0 = Ok (d, f, rep) →
  ∃ L R,
    validate.run_validate cfg L0 R0 = Ok (L, R, rep) ∧
    run_transform now L R = Ok (d, f) ∧
    length (rows (dim_listing d)) = length (rows L) ∧
    length (rows (dim_listing d)) = listings_row_count_after_validation rep ∧
    length (rows (fact_reviews f)) = length (List.filter date_ok (rows R)) ∧
    (length (rows (fact_reviews f)) ≤ reviews_row_count_after_validation rep)%nat.
Proof.
  unfold orchestrator.run_pipeline. intros Hrun.
  apply bind_Ok in Hrun as ([[L R] rep'] & Hv & Hrun).
  apply bind_Ok in Hrun as ([d' f'] & Ht & [= -> -> ->]).
  exists L, R. split; [done|]. split; [done|].
  pose proof (run_validate_Ok _ _ _ _ _ _ Hv) as (-> & -> & ->).
  apply run_transform_inv in Ht as (prices & Hp & _ & Hdf); [|reflexivity..].
  cbn [rows] in *. injection Hdf as -> ->.
  cbn [listings_row_count_after_validation reviews_row_count_after_validation].
  set (t := tables_of now (kept_listings cfg L0) (kept_reviews cfg L0 R0) prices).
  assert (Hdl : length (rows (dim_listing (packed t).1)) =
                length (kept_listings cfg L0)).
  { change (rows (dim_listing (packed t).1)) with
      (project dim_listing_final_columns <$> rows (t_dim_listing t)).
    rewrite length_fmap. unfold t.
    apply length_dim_listing; [apply kept_listings_distinct | done]. }
  assert (Hfr : length (rows (fact_reviews (packed t).2)) =
                length (List.filter date_ok (kept_reviews cfg L0 R0))).
  { change (rows (fact_reviews (packed t).2)) with (rows (t_fact_reviews t)).
    unfold t. apply length_fact_reviews_dated;
      [apply kept_listings_distinct | done |].
    intros r [_ Hr]%elem_of_filter_list. by rewrite existsb_unique in Hr. }
  split; [exact Hdl|]. split; [exact Hdl|]. split; [exact Hfr|].
  change (length (rows (fact_reviews (packed t).2))
          ≤ length (kept_reviews cfg L0 R0))%nat.
  rewrite Hfr. apply length_filter_le.
Qed.

(** X15.  The pipeline catches nothing: a missing required column stops
    it with the KeyError of validation, and a price [clean_price] refuses
    among the validated listings stops it with that ValueError. *)
Theorem run_pipeline_stops_on_stage_errors (cfg : gmap string Q) (now : Z)
    (L0 R0 : DataFrame) :
  (missing_labels listings_required L0 ≠ [] →
   orchestrator.run_pipeline cfg now L0 R0 =
     Raise (KeyError (missing_labels listings_required L0))) ∧
  (missing_labels listings_required L0 = [] →
   missing_labels reviews_required R0 ≠ [] →
   orchestrator.run_pipeline cfg now L0 R0 =
     Raise (KeyError (missing_labels reviews_required R0))) ∧
  (∀ L R rep e,
     validate.run_validate cfg L0 R0 = Ok (L, R, rep) →
     clean_price (cell_at "price" <$> rows L) = Raise e →
     orchestrator.run_pipeline cfg now L0 R0 = Raise e).
Proof.
  unfold orchestrator.run_pipeline. split; [|split].
  - intros HL. by rewrite (run_validate_missing_listings cfg L0 R0 HL).
  - intros HL HR. by rewrite (run_validate_missing_reviews cfg L0 R0 HL HR).
  - intros L R rep e Hv He. rewrite Hv. cbn [mbind result_bind].
    pose proof (run_validate_Ok _ _ _ _ _ _ Hv) as (HL & HR & _).
    assert (HcL : columns L = listings_required) by (by rewrite HL).
    assert (HcR : columns R = reviews_required) by (by rewrite HR).
    pose proof (run_transform_cases now L R HcL HcR) as Hcase.
    rewrite He in Hcase. by rewrite Hcase.
Qed.

End pipeline.

(** ** What a fact row points to *)

Section fact_targets.
Context {SC : Scalars}.
Import transform.

(** X16.  The keys of a fact row are the keys of the right rows: every
    row of [fact_reviews] comes from a review, its [listing_sk] is the key
    of the [dim_listing] row with that review's listing id, its [host_sk]
    the key of the [dim_host] row with that listing's host id, and its
    [date_sk] the key of the [dim_date] row whose date is the review's
    date. *)
Theorem fact_rows_point_to_their_review (now : Z) (L R : DataFrame)
    (d : dims) (f : facts) :
  columns L = listings_required →
  columns R = reviews_required →
  run_transform now L R = Ok (d, f) →
  ∀ row, row ∈ rows (fact_reviews f) →
    ∃ r y h x,
      r ∈ rows R ∧ y ∈ rows (dim_listing d) ∧ h ∈ rows (dim_host d) ∧
      x ∈ rows (dim_date d) ∧
      cell_at "listing_sk" row = cell_at "listing_sk" y ∧
      cell_eqb (cell_at "listing_id" r) (cell_at "listing_id" y) = true ∧
      cell_at "host_sk" row = cell_at "host_sk" h ∧
      cell_eqb (cell_at "host_id" y) (cell_at "host_id" h) = true ∧
      cell_at "date_sk" row = cell_at "date_sk" x ∧
      cell_at "full_date" x = to_datetime_cell (cell_at "date" r).
Proof.
  intros HL HR Hrun row Hrow.
  destruct (run_transform_inv _ _ _ _ _ HL HR Hrun) as (prices & Hp & _ & Hdf).
  injection Hdf as -> ->. revert Hrow.
  unfold tables_of; cbn [t_dim_date t_dim_host t_dim_listing t_fact_reviews
    fact_reviews dim_date dim_host dim_listing rows snapshot].
  set (es := enriched_listings (rows L) prices).
  set (dn := dim_neighborhood_rows es).
  intros (j & Hj & Hres & ->)%fact_rows_spec.
  apply resolved_true in Hres as (Hl & Hh & Hd).
  apply elem_of_flat_map in Hj as (j2 & Hj2 & Hj3).
  apply elem_of_flat_map in Hj2 as (j1 & Hj1 & Hj2).
  apply elem_of_flat_map in Hj1 as (r' & Hr' & Hj1).
  apply list_elem_of_fmap in Hr' as (r & -> & Hin).
  apply join_rows_spec in Hj3 as [H3 H3r].
  apply join_rows_spec in Hj2 as [H2 H2r].
  apply join_rows_spec in Hj1 as [H1 H1r].
  rewrite H3, H2 in Hl by reflexivity. rewrite H3 in Hh by reflexivity.
  destruct H1r as [[_ Hna]|(p1 & Hp1 & Hk1 & Hv1)]; [by rewrite Hna in Hl|].
  destruct H2r as [[_ Hna]|(p2 & Hp2 & Hk2 & Hv2)]; [by rewrite Hna in Hh|].
  destruct H3r as [[_ Hna]|(p3 & Hp3 & Hk3 & Hv3)]; [by rewrite Hna in Hd|].
  apply list_elem_of_fmap in Hp1 as (y & -> & Hy).
  apply list_elem_of_fmap in Hp2 as (h & -> & Hhh).
  apply list_elem_of_fmap in Hp3 as (x & -> & Hx).
  exists r, (project dim_listing_final_columns y),
    (project dim_host_final_columns h), (project dim_date_final_columns x).
  split; [done|]. split; [by apply list_elem_of_fmap_2|].
  split; [by apply list_elem_of_fmap_2|].
  split; [by apply list_elem_of_fmap_2|].
  unfold gate_row. cell_simpl.
  rewrite key_eqb_single in Hk1, Hk2, Hk3.
  revert Hk1 Hk2 Hk3. cell_simpl. intros Hk1 Hk2 Hk3.
  rewrite H3, H2, Hv1 by reflexivity. cell_simpl.
  split; [done|]. split; [done|].
  rewrite H3, Hv2 by reflexivity. cell_simpl.
  split; [done|]. split.
  { rewrite Hv1 in Hk2 by reflexivity. revert Hk2. by cell_simpl. }
  rewrite Hv3 by reflexivity. cell_simpl. split; [done|].
  rewrite H2, H1 in Hk3 by reflexivity. revert Hk3. cell_simpl.
  destruct (dim_date_row_is_ts _ _ Hx) as [z Hz]. rewrite Hz.
  rewrite cell_eqb_sym. by intros ->%cell_eqb_ts_l.
Qed.

End fact_targets.

(** ** The host dimension *)

Section host_rows.
Context {SC : Scalars}.
Import transform.

(** A split of the cleaned listings is a split of the listings they were
    cleaned from. *)
Lemma enriched_listings_split ls prices e_pre e e_post :
  length prices = length ls →
  enriched_listings ls prices = e_pre ++ e :: e_post →
  ∃ pre l post p,
    ls = pre ++ l :: post ∧ e = enrich_row (clean_row l p) ∧
    ∀ y, y ∈ pre → ∃ q, enrich_row (clean_row y q) ∈ e_pre.
Proof.
  intros Hlen. unfold enriched_listings. rewrite zip_with_zip.
  rewrite <- list_fmap_compose.
  intros (zp & ztl & -> & Htl & Hzip)%fmap_app_inv.
  symmetry in Htl. apply fmap_cons_inv in Htl as ([l p] & zq & -> & -> & ->).
  exists (zp.*1), l, (zq.*1), p. split; [|split; [done|]].
  - rewrite <- (fst_zip ls prices) by lia. rewrite Hzip.
    by rewrite fmap_app, fmap_cons.
  - intros y ([y' q] & -> & Hin)%list_elem_of_fmap. exists q.
    by apply (list_elem_of_fmap_2 (enrich_row ∘ uncurry clean_row) _ (y', q)).
Qed.

(** X17.  Every row of [dim_host] describes its host as the first listing
    of that host does: host id, host name and listing count are those of
    an input listing that no listing of the same host precedes; it is
    valid from the midnight of the run day, open-ended and current. *)
Theorem dim_host_from_first_listing (now : Z) (L R : DataFrame)
    (d : dims) (f : facts) :
  columns L = listings_required →
  columns R = reviews_required →
  run_transform now L R = Ok (d, f) →
  ∀ h, h ∈ rows (dim_host d) →
    cell_at "valid_from" h = Ts (normalize now) ∧
    cell_at "valid_to" h = NA ∧
    cell_at "is_current" h = Bool true ∧
    ∃ pre l post,
      rows L = pre ++ l :: post ∧
      cell_at "host_id" h = cell_at "host_id" l ∧
      cell_at "host_name" h = cell_at "host_name" l ∧
      cell_at "calculated_host_listings_count" h =
        cell_at "calculated_host_listings_count" l ∧
      ∀ y, y ∈ pre →
           cell_eqb (cell_at "host_id" y) (cell_at "host_id" l) = false.
Proof.
  intros HL HR Hrun h Hh.
  destruct (run_transform_inv _ _ _ _ _ HL HR Hrun) as (prices & Hp & _ & Hdf).
  injection Hdf as -> ->. revert Hh.
  unfold tables_of; cbn [t_dim_host dim_host rows snapshot].
  set (es := enriched_listings (rows L) prices).
  intros (h2 & -> & Hh2)%list_elem_of_fmap.
  apply list_elem_of_fmap in Hh2 as (h1 & -> & Hh1).
  apply elem_of_with_index in Hh1 as (k & h0 & Hh0 & ->).
  apply list_elem_of_lookup_2 in Hh0.
  unfold stamp_row. cell_simpl.
  split; [done|]. split; [done|]. split; [done|].
  apply dedup_from_first in Hh0 as (pre' & post' & Hsplit & Hpre).
  apply fmap_app_inv in Hsplit as (e_pre & e_tl & -> & Htl & Hes).
  symmetry in Htl. apply fmap_cons_inv in Htl as (e & e_post & -> & -> & ->).
  assert (Hlen : length prices = length (rows L)).
  { rewrite clean_price_elementwise in Hp. apply mapR_length in Hp.
    by rewrite Hp, length_fmap. }
  apply (enriched_listings_split _ _ _ _ _ Hlen) in Hes
    as (pre & l & post & p & HrowsL & -> & Hprev).
  exists pre, l, post. split; [done|].
  cell_simpl. rewrite !enriched_listing_cells by done.
  split; [done|]. split; [done|]. split; [done|].
  intros y Hy. destruct (Hprev y Hy) as (q & Hq).
  specialize (Hpre (project ["host_id"; "host_name";
                             "calculated_host_listings_count"]
                      (enrich_row (clean_row y q)))).
  rewrite key_eqb_single in Hpre. revert Hpre. cell_simpl.
  rewrite !enriched_listing_cells by done. intros Hpre. apply Hpre.
  by apply list_elem_of_fmap_2.
Qed.

End host_rows.

(** ** Loading the warehouse *)

Section load_facts.
Import transform.

Lemma truncate_inr (tables : list string) (db db' : gmap string table_rows) :
  load.truncate tables db = inr db' →
  Forall (λ t, is_Some (db !! t)) tables ∧
  ∀ t, db' !! t = if bool_decide (t ∈ tables) then Some [] else db !! t.
Proof.
  revert db. induction tables as [|a tables IH]; intros db; cbn.
  - intros [= <-]. split; [constructor|]. intros t.
    rewrite bool_decide_eq_false_2; [done|]. apply not_elem_of_nil.
  - destruct (db !! a) as [old|] eqn:Ha; [|done].
    intros Htr. destruct (IH _ Htr) as [Hall Hget]. split.
    + constructor; [by rewrite Ha|].
      eapply Forall_impl; [exact Hall|]. intros t Ht. cbv beta in Ht |- *.
      destruct (decide (a = t)) as [<-|Hne].
      * by rewrite Ha.
      * by rewrite lookup_insert_ne in Ht.
    + intros t. rewrite Hget.
      destruct (decide (t ∈ tables)) as [Hin|Hnin].
      * rewrite !bool_decide_eq_true_2; [done| |done].
        by apply list_elem_of_further.
      * rewrite (bool_decide_eq_false_2 (t ∈ tables)) by done.
        destruct (decide (a = t)) as [<-|Hne].
        -- rewrite lookup_insert_eq, bool_decide_eq_true_2; [done|].
           apply list_elem_of_here.
        -- rewrite lookup_insert_ne by done.
           rewrite bool_decide_eq_false_2; [done|].
           intros [?|?]%elem_of_cons; congruence.
Qed.

Lemma truncate_total (tables : list string) (db : gmap string table_rows) :
  Forall (λ t, is_Some (db !! t)) tables →
  ∃ db', load.truncate tables db = inr db'.
Proof.
  revert db. induction tables as [|a tables IH]; intros db Hall; cbn; [eauto|].
  apply Forall_cons in Hall as [[old Ha] Hall]. rewrite Ha. apply IH.
  eapply Forall_impl; [exact Hall|]. intros t [v Hv]. cbv beta.
  destruct (decide (a = t)) as [<-|Hne].
  - by rewrite lookup_insert_eq.
  - rewrite lookup_insert_ne by done. by rewrite Hv.
Qed.

(** X18.  A load that succeeds is a full refresh: when the five table
    names of the configuration are pairwise different, each of the five
    tables holds afterwards exactly the rows of its frame, in the frame's
    order, whatever it held before; loading the same frames again succeeds
    and changes nothing. *)
Theorem run_load_full_refresh (tables_cfg : gmap string string)
    (d : dims) (f : facts) (db db' : gmap string table_rows)
    (nf nl nh nn nd : string) :
  tables_cfg !! "fact_reviews" = Some nf →
  tables_cfg !! "dim_listing" = Some nl →
  tables_cfg !! "dim_host" = Some nh →
  tables_cfg !! "dim_neighborhood" = Some nn →
  tables_cfg !! "dim_date" = Some nd →
  NoDup [nf; nl; nh; nn; nd] →
  load.run_load tables_cfg d f db = inr db' →
  db' !! nd = Some (load.records (dim_date d)) ∧
  db' !! nn = Some (load.records (dim_neighborhood d)) ∧
  db' !! nh = Some (load.records (dim_host d)) ∧
  db' !! nl = Some (load.records (dim_listing d)) ∧
  db' !! nf = Some (load.records (fact_reviews f)) ∧
  load.run_load tables_cfg d f db' = inr db'.
Proof.
  intros Hf Hl Hh Hn Hd Hnd.
  assert (Hne : nf ≠ nl ∧ nf ≠ nh ∧ nf ≠ nn ∧ nf ≠ nd ∧ nl ≠ nh ∧ nl ≠ nn ∧
                nl ≠ nd ∧ nh ≠ nn ∧ nh ≠ nd ∧ nn ≠ nd).
  { repeat match goal with
           | H : NoDup (_ :: _) |- _ => apply NoDup_cons in H as [? H]
           end.
    repeat match goal with
           | H : _ ∉ _ :: _ |- _ => apply not_elem_of_cons in H as [? H]
           end.
    repeat split; congruence. }
  destruct Hne as (N1 & N2 & N3 & N4 & N5 & N6 & N7 & N8 & N9 & N10).
  assert (Hrun : ∀ db0 db1,
            load.truncate [nf; nl; nh; nn; nd] db0 = inr db1 →
            let out :=
              load.to_sql nf (fact_reviews f)
                (load.to_sql nl (dim_listing d)
                   (load.to_sql nh (dim_host d)
                      (load.to_sql nn (dim_neighborhood d)
                         (load.to_sql nd (dim_date d) db1)))) in
            out !! nd = Some (load.records (dim_date d)) ∧
            out !! nn = Some (load.records (dim_neighborhood d)) ∧
            out !! nh = Some (load.records (dim_host d)) ∧
            out !! nl = Some (load.records (dim_listing d)) ∧
            out !! nf = Some (load.records (fact_reviews f)) ∧
            ∀ t, t ∉ [nf; nl; nh; nn; nd] → out !! t = db0 !! t).
  { intros db0 db1 Htr. apply truncate_inr in Htr as [_ Hget].
    assert (Hin : ∀ t, t ∈ [nf; nl; nh; nn; nd] → db1 !! t = Some [])
      by (intros t Ht; by rewrite Hget, bool_decide_eq_true_2).
    cbv zeta. unfold load.to_sql.
    repeat split.
    - rewrite !lookup_insert_ne by done. rewrite lookup_insert_eq.
      by rewrite Hin by set_solver.
    - rewrite !lookup_insert_ne by done. rewrite lookup_insert_eq.
      rewrite lookup_insert_ne by done. by rewrite Hin by set_solver.
    - rewrite !lookup_insert_ne by done. rewrite lookup_insert_eq.
      rewrite !lookup_insert_ne by done. by rewrite Hin by set_solver.
    - rewrite !lookup_insert_ne by done. rewrite lookup_insert_eq.
      rewrite !lookup_insert_ne by done. by rewrite Hin by set_solver.
    - rewrite lookup_insert_eq.
      rewrite !lookup_insert_ne by done. by rewrite Hin by set_solver.
    - intros t Ht. rewrite !lookup_insert_ne by set_solver.
      rewrite Hget. by rewrite bool_decide_eq_false_2. }
  unfold load.run_load, load.table_name. rewrite Hf, Hl, Hh, Hn, Hd.
  destruct (load.truncate [nf; nl; nh; nn; nd] db) as [e|db1] eqn:Htr; [done|].
  intros [= <-].
  destruct (Hrun db db1 Htr) as (H1 & H2 & H3 & H4 & H5 & Hrest).
  cbv zeta in *.
  set (out := load.to_sql nf _ _) in *.
  split; [done|]. split; [done|]. split; [done|]. split; [done|].
  split; [done|].
  destruct (truncate_total [nf; nl; nh; nn; nd] out) as [db2 Htr2].
  { repeat constructor; by eexists. }
  rewrite Htr2. f_equal.
  destruct (Hrun out db2 Htr2) as (G1 & G2 & G3 & G4 & G5 & Grest).
  cbv zeta in *. apply map_eq. intros t.
  destruct (decide (t ∈ [nf; nl; nh; nn; nd])) as [Hin|Hnin].
  - apply elem_of_cons in Hin as [->|Hin]; [by etrans; [exact G5|]|].
    apply elem_of_cons in Hin as [->|Hin]; [by etrans; [exact G4|]|].
    apply elem_of_cons in Hin as [->|Hin]; [by etrans; [exact G3|]|].
    apply elem_of_cons in Hin as [->|Hin]; [by etrans; [exact G2|]|].
    apply elem_of_cons in Hin as [->|Hin]; [by etrans; [exact G1|]|].
    by apply elem_of_nil in Hin.
  - by apply Grest.
Qed.

(** X19.  A load succeeds only if the configuration has the five table
    keys and the warehouse has the five tables they name: a missing key
    or a missing table makes it fail. *)
Theorem run_load_needs_keys_and_tables (tables_cfg : gmap string string)
    (d : dims) (f : facts) (db db' : gmap string table_rows) :
  load.run_load tables_cfg d f db = inr db' →
  Forall (λ key, ∃ t, tables_cfg !! key = Some t ∧ is_Some (db !! t))
    table_keys.
Proof.
  unfold load.run_load, load.table_name, table_keys. intros Hrun.
  destruct (tables_cfg !! "fact_reviews") as [nf|] eqn:Enf; [|done].
  destruct (tables_cfg !! "dim_listing") as [nl|] eqn:Enl; [|done].
  destruct (tables_cfg !! "dim_host") as [nh|] eqn:Enh; [|done].
  destruct (tables_cfg !! "dim_neighborhood") as [nn|] eqn:Enn; [|done].
  destruct (tables_cfg !! "dim_date") as [nd|] eqn:End; [|done].
  destruct (load.truncate [nf; nl; nh; nn; nd] db) as [e|db1] eqn:Htr;
    [done|].
  apply truncate_inr in Htr as [Hall _].
  apply Forall_cons in Hall as [H1 Hall].
  apply Forall_cons in Hall as [H2 Hall].
  apply Forall_cons in Hall as [H3 Hall].
  apply Forall_cons in Hall as [H4 Hall].
  apply Forall_cons in Hall as [H5 _].
  repeat constructor; eauto.
Qed.

(** X20.  A load neither creates nor drops a table: the warehouse has the
    same tables after a load that succeeds as before it. *)
Theorem run_load_keeps_table_names (tables_cfg : gmap string string)
    (d : dims) (f : facts) (db db' : gmap string table_rows) :
  load.run_load tables_cfg d f db = inr db' →
  dom db' = dom db.
Proof.
  unfold load.run_load, load.table_name. intros Hrun.
  destruct (tables_cfg !! "fact_reviews") as [nf|] eqn:Enf; [|done].
  destruct (tables_cfg !! "dim_listing") as [nl|] eqn:Enl; [|done].
  destruct (tables_cfg !! "dim_host") as [nh|] eqn:Enh; [|done].
  destruct (tables_cfg !! "dim_neighborhood") as [nn|] eqn:Enn; [|done].
  destruct (tables_cfg !! "dim_date") as [nd|] eqn:End; [|done].
  destruct (load.truncate [nf; nl; nh; nn; nd] db) as [e|db1] eqn:Htr;
    [done|].
  injection Hrun as <-.
  apply truncate_inr in Htr as [Hall Hget].
  apply Forall_cons in Hall as [H1 Hall].
  apply Forall_cons in Hall as [H2 Hall].
  apply Forall_cons in Hall as [H3 Hall].
  apply Forall_cons in Hall as [H4 Hall].
  apply Forall_cons in Hall as [H5 _].
  assert (Hdom : ∀ t, is_Some (db1 !! t) ↔ is_Some (db !! t)).
  { intros t. rewrite Hget. destruct (bool_decide _) eqn:E; [|done].
    apply bool_decide_eq_true in E. split; [|by eauto].
    intros _.
    repeat (apply elem_of_cons in E as [->|E]; [done|]).
    by apply elem_of_nil in E. }
  assert (Hin : ∀ t, t ∈ [nf; nl; nh; nn; nd] → is_Some (db !! t)).
  { intros t E.
    repeat (apply elem_of_cons in E as [->|E]; [done|]).
    by apply elem_of_nil in E. }
  apply set_eq. intros t. rewrite !elem_of_dom. unfold load.to_sql.
  rewrite !lookup_insert_is_Some, Hdom.
  split.
  - intros [<-|[_ [<-|[_ [<-|[_ [<-|[_ [<-|[_ ?]]]]]]]]]]; try done;
      apply Hin; repeat first [apply list_elem_of_here
                              |apply list_elem_of_further].
  - intros Ht.
    destruct (decide (nf = t)); [by left|right; split; [done|]].
    destruct (decide (nl = t)); [by left|right; split; [done|]].
    destruct (decide (nh = t)); [by left|right; split; [done|]].
    destruct (decide (nn = t)); [by left|right; split; [done|]].
    destruct (decide (nd = t)); [by left|right; split; [done|]].
    done.
Qed.

End load_facts.

(** ** The further properties on the sample extract *)

Section sample_extras.
Import transform sample sample_run sample_extra.

Lemma sample_prices :
  clean_price price_series = Ok [Num (2469 # 2); Num 0; Num (25 # 2)].
Proof. vm_compute. reflexivity. Defined.

Lemma sample_pipeline :
  orchestrator.run_pipeline ∅ run_date listings reviews =
  Ok (loaded.1, loaded.2, checked.2).
Proof. vm_compute. reflexivity. Defined.

Lemma sample_table_names :
  NoDup ["fact_reviews"; "dim_listing"; "dim_host"; "dim_neighborhood";
         "dim_date"].
Proof. apply (bool_decide_unpack _). vm_compute. exact I. Defined.

Lemma sample_refreshed :
  load.run_load tables_cfg small_dims small_facts stale = inr refreshed.
Proof. reflexivity. Defined.

Lemma validated_listings_in_range_witness :
  validate.run_validate ∅ listings reviews = Ok (validated.1, validated.2, checked.2) ∧
  (columns validated.1 = listings_required ∧
  distinct_keys ["id"] (rows validated.1) ∧
  ∀ l, l ∈ rows validated.1 →
    cell_at "id" l ≠ NA ∧
    (∃ q, cell_at "latitude" l = Num q ∧
          (cfg_get "min_latitude" (-90) ∅ <= q)%Q ∧
          (q <= cfg_get "max_latitude" 90 ∅)%Q) ∧
    (∃ q, cell_at "longitude" l = Num q ∧
          (cfg_get "min_longitude" (-180) ∅ <= q)%Q ∧
          (q <= cfg_get "max_longitude" 180 ∅)%Q) ∧
    (∃ q, cell_at "availability_365" l = Num q ∧
          (0 <= q)%Q ∧ (q <= cfg_get "max_availability" 365 ∅)%Q)).
Proof.
  split; [exact sample_checked|].
  exact (validated_listings_in_range ∅ listings reviews validated.1 validated.2 checked.2
           sample_checked).
Defined.

Lemma validated_reviews_reference_listings_witness :
  validate.run_validate ∅ listings reviews = Ok (validated.1, validated.2, checked.2) ∧
  (columns validated.2 = reviews_required ∧
  ∀ r, r ∈ rows validated.2 →
    cell_at "listing_id" r ≠ NA ∧
    ∃ l, l ∈ rows validated.1 ∧
         cell_eqb (cell_at "listing_id" r) (cell_at "id" l) = true).
Proof.
  split; [exact sample_checked|].
  exact (validated_reviews_reference_listings ∅ listings reviews validated.1 validated.2 checked.2
           sample_checked).
Defined.

Lemma validated_listing_is_first_of_its_id_witness :
  validate.run_validate ∅ listings reviews = Ok (validated.1, validated.2, checked.2) ∧
  (∀ l, l ∈ rows validated.1 →
    ∃ pre r0 post,
      rows listings = pre ++ r0 :: post ∧
      l = coerce_numeric (project listings_required r0) ∧
      ∀ y, y ∈ pre → cell_eqb (cell_at "id" y) (cell_at "id" r0) = false).
Proof.
  split; [exact sample_checked|].
  exact (validated_listing_is_first_of_its_id ∅ listings reviews validated.1 validated.2 checked.2
           sample_checked).
Defined.

Lemma validation_counts_add_up_witness :
  validate.run_validate ∅ listings reviews = Ok (validated.1, validated.2, checked.2) ∧
  (listings_row_count_after_validation checked.2 = length (rows validated.1) ∧
  reviews_row_count_after_validation checked.2 = length (rows validated.2) ∧
  (length (rows reviews) =
     length (rows validated.2) + report_count "reviews_listing_id_not_null" checked.2
     + report_count "reviews_listing_id_fk" checked.2)%nat ∧
  (length (rows validated.1) + report_count "listings_id_not_null" checked.2
   + report_count "listings_id_unique" checked.2
   + Nat.max (report_count "latitude_in_range" checked.2)
       (report_count "longitude_in_range" checked.2)
   + report_count "availability_in_range" checked.2 ≤ length (rows listings))%nat ∧
  (length (rows listings) ≤
     length (rows validated.1) + report_count "listings_id_not_null" checked.2
     + report_count "listings_id_unique" checked.2
     + report_count "latitude_in_range" checked.2
     + report_count "longitude_in_range" checked.2
     + report_count "availability_in_range" checked.2)%nat).
Proof.
  split; [exact sample_checked|].
  exact (validation_counts_add_up ∅ listings reviews validated.1 validated.2 checked.2
           sample_checked).
Defined.

Lemma run_validate_idempotent_witness :
  validate.run_validate ∅ listings reviews = Ok (validated.1, validated.2, checked.2) ∧
  (∃ rep',
    validate.run_validate ∅ validated.1 validated.2 = Ok (validated.1, validated.2, rep') ∧
    Forall (λ c, name c = "price_not_null_raw" ∨ status c = "pass")
      (checks rep') ∧
    listings_row_count_after_validation rep' = length (rows validated.1) ∧
    reviews_row_count_after_validation rep' = length (rows validated.2)).
Proof.
  split; [exact sample_checked|].
  exact (run_validate_idempotent ∅ listings reviews validated.1 validated.2 checked.2
           sample_checked).
Defined.

Lemma clean_price_nonnegative_witness :
  clean_price price_series = Ok [Num (2469 # 2); Num 0; Num (25 # 2)] ∧
  (length [Num (2469 # 2); Num 0; Num (25 # 2)] = length price_series ∧
  Forall (λ p, ∃ q, p = Num q ∧ (0 <= q)%Q) [Num (2469 # 2); Num 0; Num (25 # 2)] ∧
  Forall (λ t, t = Str "budget" ∨ t = Str "mid" ∨ t = Str "premium")
    (classify_price_tier [Num (2469 # 2); Num 0; Num (25 # 2)])).
Proof.
  split; [exact sample_prices|].
  exact (clean_price_nonnegative price_series [Num (2469 # 2); Num 0; Num (25 # 2)]
           sample_prices).
Defined.

Lemma run_transform_price_column_witness :
  columns validated.1 = listings_required ∧
  columns validated.2 = reviews_required ∧
  ((∀ e, clean_price (cell_at "price" <$> rows validated.1) = Raise e →
         run_transform run_date validated.1 validated.2 = Raise e) ∧
   (∀ d f, run_transform run_date validated.1 validated.2 = Ok (d, f) →
           distinct_keys ["id"] (rows validated.1) →
           clean_price (cell_at "price" <$> rows validated.1)
           = Ok (column "price" (dim_listing d)))).
Proof.
  split; [exact sample_listing_columns|].
  split; [exact sample_review_columns|].
  exact (run_transform_price_column run_date validated.1 validated.2
           sample_listing_columns sample_review_columns).
Defined.

Lemma derived_metrics_in_range_witness :
  columns validated.1 = listings_required ∧
  columns validated.2 = reviews_required ∧
  build_tables run_date validated.1 validated.2 = Ok working ∧
  (∀ y, y ∈ rows (t_listings working) →
    ∃ p m r v,
      cell_at "price" y = Num p ∧ (0 <= p)%Q ∧
      cell_at "reviews_per_month" y = Num m ∧
      cell_at "estimated_occupancy_rate" y = Num r ∧
      (0 <= r)%Q ∧ (r <= 1)%Q ∧
      ((m <= 0)%Q → (r == 0)%Q) ∧ ((5 <= m)%Q → (r == 1)%Q) ∧
      ((0 <= m)%Q → (m <= 5)%Q → (r == m / 5)%Q) ∧
      cell_at "estimated_monthly_revenue" y = Num v ∧
      (v == p * r * 30)%Q ∧
      cell_at "price_tier" y = tier_cell (Num p) ∧
      cell_at "price_tier" y ≠ NA).
Proof.
  split; [exact sample_listing_columns|].
  split; [exact sample_review_columns|].
  split; [exact sample_built|].
  exact (derived_metrics_in_range run_date validated.1 validated.2 working
           sample_listing_columns sample_review_columns sample_built).
Defined.

Lemma dimensions_one_row_per_key_witness :
  columns validated.1 = listings_required ∧
  columns validated.2 = reviews_required ∧
  run_transform run_date validated.1 validated.2 = Ok (loaded.1, loaded.2) ∧
  (distinct_keys ["full_date"] (rows (dim_date loaded.1)) ∧
  distinct_keys ["neighbourhood_group"; "neighbourhood"]
    (rows (dim_neighborhood loaded.1)) ∧
  distinct_keys ["host_id"] (rows (dim_host loaded.1)) ∧
  distinct_keys ["listing_id"] (rows (dim_listing loaded.1)) ∧
  ∀ l, l ∈ rows validated.1 →
    (∃ y, y ∈ rows (dim_listing loaded.1) ∧
          cell_eqb (cell_at "id" l) (cell_at "listing_id" y) = true) ∧
    (∃ h, h ∈ rows (dim_host loaded.1) ∧
          cell_eqb (cell_at "host_id" l) (cell_at "host_id" h) = true) ∧
    (∃ n, n ∈ rows (dim_neighborhood loaded.1) ∧
          key_eqb (row_key ["neighbourhood_group"; "neighbourhood"] l)
            (row_key ["neighbourhood_group"; "neighbourhood"] n) = true)).
Proof.
  split; [exact sample_listing_columns|].
  split; [exact sample_review_columns|].
  split; [exact sample_loaded|].
  exact (dimensions_one_row_per_key run_date validated.1 validated.2 loaded.1 loaded.2
           sample_listing_columns sample_review_columns sample_loaded).
Defined.

Lemma dim_listing_neighborhood_resolved_witness :
  columns validated.1 = listings_required ∧
  columns validated.2 = reviews_required ∧
  run_transform run_date validated.1 validated.2 = Ok (loaded.1, loaded.2) ∧
  (∀ y, y ∈ rows (dim_listing loaded.1) →
    ∃ l n, l ∈ rows validated.1 ∧ n ∈ rows (dim_neighborhood loaded.1) ∧
      cell_at "listing_id" y = cell_at "id" l ∧
      key_eqb (row_key ["neighbourhood_group"; "neighbourhood"] l)
        (row_key ["neighbourhood_group"; "neighbourhood"] n) = true ∧
      cell_at "neighborhood_sk" y = cell_at "neighborhood_sk" n ∧
      cell_at "neighborhood_sk" y ≠ NA).
Proof.
  split; [exact sample_listing_columns|].
  split; [exact sample_review_columns|].
  split; [exact sample_loaded|].
  exact (dim_listing_neighborhood_resolved run_date validated.1 validated.2 loaded.1 loaded.2
           sample_listing_columns sample_review_columns sample_loaded).
Defined.

Lemma transform_never_multiplies_rows_witness :
  columns validated.1 = listings_required ∧
  columns validated.2 = reviews_required ∧
  build_tables run_date validated.1 validated.2 = Ok working ∧
  run_transform run_date validated.1 validated.2 = Ok (loaded.1, loaded.2) ∧
  (length (rows (t_fact_joined working)) = length (rows validated.2) ∧
  (length (rows (fact_reviews loaded.2)) ≤ length (rows validated.2))%nat ∧
  (length (rows (dim_date loaded.1)) ≤ length (rows validated.2))%nat ∧
  (length (rows (dim_listing loaded.1)) ≤ length (rows validated.1))%nat ∧
  (length (rows (dim_host loaded.1)) ≤ length (rows validated.1))%nat ∧
  (length (rows (dim_neighborhood loaded.1)) ≤ length (rows validated.1))%nat).
Proof.
  split; [exact sample_listing_columns|].
  split; [exact sample_review_columns|].
  split; [exact sample_built|].
  split; [exact sample_loaded|].
  exact (transform_never_multiplies_rows run_date validated.1 validated.2 working loaded.1 loaded.2
           sample_listing_columns sample_review_columns sample_built sample_loaded).
Defined.

Lemma run_pipeline_row_counts_witness :
  orchestrator.run_pipeline ∅ run_date listings reviews = Ok (loaded.1, loaded.2, checked.2) ∧
  (∃ L R,
    validate.run_validate ∅ listings reviews = Ok (L, R, checked.2) ∧
    run_transform run_date L R = Ok (loaded.1, loaded.2) ∧
    length (rows (dim_listing loaded.1)) = length (rows L) ∧
    length (rows (dim_listing loaded.1)) = listings_row_count_after_validation checked.2 ∧
    length (rows (fact_reviews loaded.2)) = length (List.filter date_ok (rows R)) ∧
    (length (rows (fact_reviews loaded.2)) ≤ reviews_row_count_after_validation checked.2)%nat).
Proof.
  split; [exact sample_pipeline|].
  exact (run_pipeline_row_counts ∅ run_date listings reviews loaded.1 loaded.2 checked.2
           sample_pipeline).
Defined.

Lemma fact_rows_point_to_their_review_witness :
  columns validated.1 = listings_required ∧
  columns validated.2 = reviews_required ∧
  run_transform run_date validated.1 validated.2 = Ok (loaded.1, loaded.2) ∧
  (∀ row, row ∈ rows (fact_reviews loaded.2) →
    ∃ r y h x,
      r ∈ rows validated.2 ∧ y ∈ rows (dim_listing loaded.1) ∧ h ∈ rows (dim_host loaded.1) ∧
      x ∈ rows (dim_date loaded.1) ∧
      cell_at "listing_sk" row = cell_at "listing_sk" y ∧
      cell_eqb (cell_at "listing_id" r) (cell_at "listing_id" y) = true ∧
      cell_at "host_sk" row = cell_at "host_sk" h ∧
      cell_eqb (cell_at "host_id" y) (cell_at "host_id" h) = true ∧
      cell_at "date_sk" row = cell_at "date_sk" x ∧
      cell_at "full_date" x = to_datetime_cell (cell_at "date" r)).
Proof.
  split; [exact sample_listing_columns|].
  split; [exact sample_review_columns|].
  split; [exact sample_loaded|].
  exact (fact_rows_point_to_their_review run_date validated.1 validated.2 loaded.1 loaded.2
           sample_listing_columns sample_review_columns sample_loaded).
Defined.

Lemma dim_host_from_first_listing_witness :
  columns validated.1 = listings_required ∧
  columns validated.2 = reviews_required ∧
  run_transform run_date validated.1 validated.2 = Ok (loaded.1, loaded.2) ∧
  (∀ h, h ∈ rows (dim_host loaded.1) →
    cell_at "valid_from" h = Ts (normalize run_date) ∧
    cell_at "valid_to" h = NA ∧
    cell_at "is_current" h = Bool true ∧
    ∃ pre l post,
      rows validated.1 = pre ++ l :: post ∧
      cell_at "host_id" h = cell_at "host_id" l ∧
      cell_at "host_name" h = cell_at "host_name" l ∧
      cell_at "calculated_host_listings_count" h =
        cell_at "calculated_host_listings_count" l ∧
      ∀ y, y ∈ pre →
           cell_eqb (cell_at "host_id" y) (cell_at "host_id" l) = false).
Proof.
  split; [exact sample_listing_columns|].
  split; [exact sample_review_columns|].
  split; [exact sample_loaded|].
  exact (dim_host_from_first_listing run_date validated.1 validated.2 loaded.1 loaded.2
           sample_listing_columns sample_review_columns sample_loaded).
Defined.

Lemma run_load_full_refresh_witness :
  tables_cfg !! "fact_reviews" = Some "fact_reviews" ∧
  tables_cfg !! "dim_listing" = Some "dim_listing" ∧
  tables_cfg !! "dim_host" = Some "dim_host" ∧
  tables_cfg !! "dim_neighborhood" = Some "dim_neighborhood" ∧
  tables_cfg !! "dim_date" = Some "dim_date" ∧
  NoDup ["fact_reviews"; "dim_listing"; "dim_host"; "dim_neighborhood";
         "dim_date"] ∧
  load.run_load tables_cfg small_dims small_facts stale = inr refreshed ∧
  (refreshed !! "dim_date" = Some (load.records (dim_date small_dims)) ∧
   refreshed !! "dim_neighborhood"
   = Some (load.records (dim_neighborhood small_dims)) ∧
   refreshed !! "dim_host" = Some (load.records (dim_host small_dims)) ∧
   refreshed !! "dim_listing"
   = Some (load.records (dim_listing small_dims)) ∧
   refreshed !! "fact_reviews"
   = Some (load.records (fact_reviews small_facts)) ∧
   load.run_load tables_cfg small_dims small_facts refreshed
   = inr refreshed).
Proof.
  split; [reflexivity|]. split; [reflexivity|]. split; [reflexivity|].
  split; [reflexivity|]. split; [reflexivity|].
  split; [exact sample_table_names|].
  split; [exact sample_refreshed|].
  exact (run_load_full_refresh tables_cfg small_dims small_facts stale
           refreshed "fact_reviews" "dim_listing" "dim_host"
           "dim_neighborhood" "dim_date"
           eq_refl eq_refl eq_refl eq_refl eq_refl
           sample_table_names sample_refreshed).
Defined.

Lemma run_load_needs_keys_and_tables_witness :
  load.run_load tables_cfg small_dims small_facts stale = inr refreshed ∧
  Forall (λ key, ∃ t, tables_cfg !! key = Some t ∧ is_Some (stale !! t))
    table_keys.
Proof.
  split; [exact sample_refreshed|].
  exact (run_load_needs_keys_and_tables tables_cfg small_dims small_facts
           stale refreshed sample_refreshed).
Defined.

Lemma run_load_keeps_table_names_witness :
  load.run_load tables_cfg small_dims small_facts stale = inr refreshed ∧
  dom refreshed = dom stale.
Proof.
  split; [exact sample_refreshed|].
  exact (run_load_keeps_table_names tables_cfg small_dims small_facts
           stale refreshed sample_refreshed).
Defined.

End sample_extras.
